(** * FrameWeavers frame extraction: sampling planner, quality scorer,
      scene-change detector, retention gate and the final cull / re-index pass

    Shallow embedding of
    [Resources/async_frame_extractor.py] (the concurrent variant) and
    [Resources/basic_frame_extractor_optimized.py] (the sequential variant).

    Conventions of the embedding.
    - A Python [float] is an exact rational ([Q]); the float literals of the
      source are their decimal values and no rounding is modelled.  Equality
      of computed floats is therefore [Qeq] ([==]).
    - A Python [int] is a [Z]; [int(x)] truncates toward zero; [a // b] is
      floor division and raises [ZeroDivisionError] when [b] is zero.
    - A Python [dict] with string keys used as a table is a [gmap string _];
      a record-like dict is a Rocq record.
    - The file system is the finite set of paths that exist, together with
      the trace of the [os.remove] / [os.rename] calls performed.
    - The OpenCV / NumPy primitives are an interface ([ImageOps]); every
      statement holds for any implementation of it. *)

From Stdlib Require Import Ascii String ZArith QArith Qabs Qround Lqa Lia.
From stdpp Require Import gmap strings list sorting pretty.

(** ** Python numbers and exceptions *)

Inductive exn : Type :=
  | ZeroDivisionError.

Inductive result (A : Type) : Type :=
  | Ok (a : A)
  | Raise (e : exn).
Arguments Ok {A} a.
Arguments Raise {A} e.

(** [int(x)] on a float: truncation toward zero. *)
Definition py_int (q : Q) : Z := Z.quot (Qnum q) (Z.pos (Qden q)).

(** [a // b] on ints. *)
Definition py_floordiv (a b : Z) : result Z :=
  if (b =? 0)%Z then Raise ZeroDivisionError else Ok (a / b)%Z.

(** [x < y] on floats. *)
Definition Qlt_bool (x y : Q) : bool := negb (Qle_bool y x).

(** [min(x, y)] on floats: Python returns the first argument unless the
    second is strictly smaller. *)
Definition py_min (x y : Q) : Q := if Qlt_bool y x then y else x.

(** ** Configuration constants *)

Record SceneThresholds : Type := {
  pixel_threshold : Q;
  histogram_threshold : Q;
  structural_threshold : Q;
  edge_threshold : Q;
  color_threshold : Q
}.

(** [AsyncFrameExtractorConfig] of async_frame_extractor.py. *)
Module AsyncFrameExtractorConfig.
Local Open Scope Q_scope.
Definition DEFAULT_SHARPNESS_THRESHOLD : Q := 100.0.
Definition DEFAULT_SIMILARITY_THRESHOLD : Q := 15.0.
Definition DEFAULT_MAX_BASE_FRAMES : Z := 80.
Definition DEFAULT_SCENE_SENSITIVITY : string := "high".

Definition INTERVAL_ULTRA_SHORT : Q := 0.2.
Definition INTERVAL_SHORT : Q := 0.5.
Definition INTERVAL_MEDIUM_SHORT : Q := 0.8.
Definition INTERVAL_MEDIUM : Q := 1.0.
Definition INTERVAL_LONG : Q := 1.5.
Definition INTERVAL_VERY_LONG : Q := 2.0.
Definition INTERVAL_EXTRA_LONG : Q := 2.5.
Definition INTERVAL_HOUR : Q := 3.0.
Definition INTERVAL_SUPER_LONG : Q := 4.0.

Definition DURATION_ULTRA_SHORT : Q := 3.
Definition DURATION_SHORT : Q := 10.
Definition DURATION_MEDIUM_SHORT : Q := 30.
Definition DURATION_MEDIUM : Q := 120.
Definition DURATION_LONG : Q := 300.
Definition DURATION_VERY_LONG : Q := 600.
Definition DURATION_EXTRA_LONG : Q := 1800.
Definition DURATION_HOUR : Q := 3600.

Definition FPS_LOW : Q := 15.
Definition FPS_STANDARD : Q := 30.
Definition FPS_HIGH : Q := 60.

Definition FPS_FACTOR_LOW : Q := 0.8.
Definition FPS_FACTOR_STANDARD_HIGH : Q := 1.15.
Definition FPS_FACTOR_HIGH : Q := 1.3.

Definition QUALITY_WEIGHT_SHARPNESS : Q := 0.5.
Definition QUALITY_WEIGHT_CONTRAST : Q := 0.3.
Definition QUALITY_WEIGHT_BRIGHTNESS : Q := 0.2.

Definition SCENE_THRESHOLDS : gmap string SceneThresholds :=
  {[ "low" := {| pixel_threshold := 40.0; histogram_threshold := 1000.0;
                 structural_threshold := 15.0; edge_threshold := 25.0;
                 color_threshold := 800.0 |};
     "medium" := {| pixel_threshold := 25.0; histogram_threshold := 500.0;
                    structural_threshold := 10.0; edge_threshold := 15.0;
                    color_threshold := 400.0 |};
     "high" := {| pixel_threshold := 15.0; histogram_threshold := 200.0;
                  structural_threshold := 8.0; edge_threshold := 10.0;
                  color_threshold := 200.0 |};
     "ultra" := {| pixel_threshold := 10.0; histogram_threshold := 100.0;
                   structural_threshold := 5.0; edge_threshold := 8.0;
                   color_threshold := 100.0 |} ]}.

Definition INTENSITY_THRESHOLDS : gmap string Q :=
  {[ "low" := 15.0; "medium" := 25.0; "high" := 40.0; "ultra" := 60.0 ]}.

Definition MIN_FRAME_COUNT : Z := 5.
Definition MAX_FRAME_PERCENTAGE : Q := 0.5.
End AsyncFrameExtractorConfig.

(** [FrameExtractorConfig] of basic_frame_extractor_optimized.py. *)
Module FrameExtractorConfig.
Local Open Scope Q_scope.
Definition DEFAULT_SHARPNESS_THRESHOLD : Q := 100.0.
Definition DEFAULT_SIMILARITY_THRESHOLD : Q := 15.0.
Definition DEFAULT_MAX_BASE_FRAMES : Z := 80.
Definition DEFAULT_SCENE_SENSITIVITY : string := "high".

Definition INTERVAL_ULTRA_SHORT : Q := 0.2.
Definition INTERVAL_SHORT : Q := 0.5.
Definition INTERVAL_MEDIUM_SHORT : Q := 0.8.
Definition INTERVAL_MEDIUM : Q := 1.0.
Definition INTERVAL_LONG : Q := 1.5.
Definition INTERVAL_VERY_LONG : Q := 2.0.
Definition INTERVAL_EXTRA_LONG : Q := 2.5.
Definition INTERVAL_HOUR : Q := 3.0.
Definition INTERVAL_SUPER_LONG : Q := 4.0.

Definition DURATION_ULTRA_SHORT : Q := 3.
Definition DURATION_SHORT : Q := 10.
Definition DURATION_MEDIUM_SHORT : Q := 30.
Definition DURATION_MEDIUM : Q := 120.
Definition DURATION_LONG : Q := 300.
Definition DURATION_VERY_LONG : Q := 600.
Definition DURATION_EXTRA_LONG : Q := 1800.
Definition DURATION_HOUR : Q := 3600.

Definition FPS_LOW : Q := 15.
Definition FPS_STANDARD : Q := 30.
Definition FPS_HIGH : Q := 60.

Definition FPS_FACTOR_LOW : Q := 0.8.
Definition FPS_FACTOR_STANDARD_HIGH : Q := 1.15.
Definition FPS_FACTOR_HIGH : Q := 1.3.

Definition QUALITY_WEIGHT_SHARPNESS : Q := 0.5.
Definition QUALITY_WEIGHT_CONTRAST : Q := 0.3.
Definition QUALITY_WEIGHT_BRIGHTNESS : Q := 0.2.

Definition SCENE_THRESHOLDS : gmap string SceneThresholds :=
  {[ "low" := {| pixel_threshold := 40.0; histogram_threshold := 1000.0;
                 structural_threshold := 15.0; edge_threshold := 25.0;
                 color_threshold := 800.0 |};
     "medium" := {| pixel_threshold := 25.0; histogram_threshold := 500.0;
                    structural_threshold := 10.0; edge_threshold := 15.0;
                    color_threshold := 400.0 |};
     "high" := {| pixel_threshold := 15.0; histogram_threshold := 200.0;
                  structural_threshold := 8.0; edge_threshold := 10.0;
                  color_threshold := 200.0 |};
     "ultra" := {| pixel_threshold := 10.0; histogram_threshold := 100.0;
                   structural_threshold := 5.0; edge_threshold := 8.0;
                   color_threshold := 100.0 |} ]}.

Definition INTENSITY_THRESHOLDS : gmap string Q :=
  {[ "low" := 15.0; "medium" := 25.0; "high" := 40.0; "ultra" := 60.0 ]}.

Definition MIN_FRAME_COUNT : Z := 5.
Definition MAX_FRAME_PERCENTAGE : Q := 0.5.
End FrameExtractorConfig.

(** ** Result records *)

(** The dict returned by [calculate_optimal_frame_count]. *)
Record SamplingPlan : Type := {
  optimal_frames : Z;
  frame_interval : Z;
  real_time_interval : Q;
  strategy : string
}.

(** The dict returned by [calculate_frame_quality]. *)
Record QualityMetrics : Type := {
  sharpness : Q;
  brightness : Q;
  contrast : Q;
  quality_score : Q
}.

(** The dict returned by [detect_scene_change]. *)
Record SceneChange : Type := {
  is_scene_change : bool;
  change_intensity : Q;
  pixel_difference : Q;
  histogram_difference : Q
}.

(** The [frame_info] dict of one retained frame. *)
Record FrameRecord : Type := {
  path : string;
  filename : string;
  frame_number : Z;
  timestamp : Q;
  extracted_index : nat;
  quality_metrics : QualityMetrics;
  source_type : string;
  source_file : string
}.

#[global] Instance SceneThresholds_inhabited : Inhabited SceneThresholds :=
  populate {| pixel_threshold := 0; histogram_threshold := 0;
              structural_threshold := 0; edge_threshold := 0;
              color_threshold := 0 |}.

(** The sort key of the global cap: [x['quality_metrics']['quality_score']]. *)
Definition quality_key (frame_info : FrameRecord) : Q :=
  quality_score (quality_metrics frame_info).

(** Two records describe the same retained frame: they agree on every field
    that the renaming pass leaves alone. *)
Definition same_frame (a b : FrameRecord) : Prop :=
  frame_number a = frame_number b ∧ timestamp a = timestamp b ∧
  quality_metrics a = quality_metrics b ∧ source_type a = source_type b ∧
  source_file a = source_file b.

(** ** The image primitives (OpenCV and NumPy)

    An image array is two-dimensional (gray) or three-dimensional (colour):
    its shape is (height, width) with the channel count when present. *)
Class ImageOps (Frame Hist : Type) : Type := {
  shape : Frame → nat * nat * option nat;
  cvtColor_BGR2GRAY : Frame → Frame;
  (** [cv2.resize(img, (width, height))] *)
  resize : Frame → nat * nat → Frame;
  (** [cv2.Laplacian(gray, cv2.CV_64F).var()] *)
  Laplacian_var : Frame → Q;
  np_mean : Frame → Q;
  np_std : Frame → Q;
  absdiff : Frame → Frame → Frame;
  (** [cv2.calcHist([gray], [0], None, [256], [0, 256])] *)
  calcHist : Frame → Hist;
  (** [cv2.compareHist(h1, h2, cv2.HISTCMP_CHISQR)] *)
  compareHist_CHISQR : Hist → Hist → Q
}.

(** [len(frame.shape) == 3] *)
Definition is_3d `{ImageOps Frame Hist} (frame : Frame) : bool :=
  match shape frame with
  | (_, _, Some _) => true
  | (_, _, None) => false
  end.

(** ** The file system *)

Inductive fs_op : Type :=
  | OsRemove (p : string)
  | OsRename (src dst : string).

Record FS : Type := {
  files : gset string;
  trace : list fs_op
}.

Definition os_path_exists (p : string) (fs : FS) : bool :=
  bool_decide (p ∈ files fs).

(** What the operating system refuses: the calls of [os.remove] and
    [os.rename] that raise [OSError] although the file exists (a name that
    is too long, a missing permission, a busy file, ...), as a function of
    the call and of the state in which it is made. *)
Class OSErrors : Type := {
  remove_raises : string → FS → bool;
  rename_raises : string → string → FS → bool
}.

(** [os.remove] and [os.rename]: [None] when the call raises, which it also
    does when the file to consume does not exist; the trace keeps the calls
    that were carried out. *)
Definition os_remove `{OSErrors} (p : string) (fs : FS) : option FS :=
  if negb (os_path_exists p fs) || remove_raises p fs then None
  else Some {| files := files fs ∖ {[ p ]};
               trace := trace fs ++ [OsRemove p] |}.

Definition os_rename `{OSErrors} (src dst : string) (fs : FS) : option FS :=
  if negb (os_path_exists src fs) || rename_raises src dst fs then None
  else Some {| files := {[ dst ]} ∪ (files fs ∖ {[ src ]});
               trace := trace fs ++ [OsRename src dst] |}.

(** The file operations inside the [try] of the renaming loops, once the
    guard holds: [os.remove(new_path)] when the target exists, then
    [os.rename(old_path, new_path)].  The result is the file system
    afterwards and whether both calls returned; when one raises, what was
    done before it stays done. *)
Definition move_file `{OSErrors} (old_path new_path : string) (fs : FS)
    : FS * bool :=
  match (if os_path_exists new_path fs then os_remove new_path fs
         else Some fs) with
  | None => (fs, false)
  | Some fs =>
      match os_rename old_path new_path fs with
      | None => (fs, false)
      | Some fs => (fs, true)
      end
  end.

(** ** Paths and formatting (posixpath, str.format) *)

Fixpoint rfind_from (c : ascii) (s : string) (i last : Z) : Z :=
  match s with
  | EmptyString => last
  | String a s' =>
      rfind_from c s' (i + 1)%Z (if Ascii.eqb a c then i else last)
  end.

(** [s.rfind(c)]: the last index of [c], or [-1]. *)
Definition rfind (c : ascii) (s : string) : Z := rfind_from c s 0 (-1).

Fixpoint all_dots (s : string) : bool :=
  match s with
  | EmptyString => true
  | String a s' => Ascii.eqb a "." && all_dots s'
  end.

(** [os.path.splitext]: split at the last dot of the last component,
    unless that component consists of leading dots up to there. *)
Definition os_path_splitext (p : string) : string * string :=
  let sepIndex := rfind "/" p in
  let dotIndex := rfind "." p in
  if (sepIndex <? dotIndex)%Z then
    let filenameIndex := Z.to_nat (sepIndex + 1) in
    if all_dots (substring filenameIndex (Z.to_nat dotIndex - filenameIndex) p)
    then (p, "")
    else (substring 0 (Z.to_nat dotIndex) p,
          substring (Z.to_nat dotIndex) (String.length p - Z.to_nat dotIndex) p)
  else (p, "").

Fixpoint ends_with_sep (s : string) : bool :=
  match s with
  | EmptyString => false
  | String a EmptyString => Ascii.eqb a "/"
  | String _ s' => ends_with_sep s'
  end.

(** [os.path.join(a, b)] *)
Definition os_path_join (a b : string) : string :=
  match b with
  | String "/" _ => b
  | _ =>
      if bool_decide (a = "") || ends_with_sep a then a +:+ b
      else a +:+ "/" +:+ b
  end.

Fixpoint zeros (n : nat) : string :=
  match n with
  | O => ""
  | S n' => String "0" (zeros n')
  end.

(** [f"{i:04d}"] for an index [i] of [enumerate]. *)
Definition format_04d (i : nat) : string :=
  let digits := pretty i in
  zeros (4 - String.length digits) +:+ digits.

(** ** Lists (list.sort, slices) *)

Section py_list.
Context {A : Type}.

(** Insertion of [x] in front of a list that is sorted by decreasing key:
    [x] stays in front of the elements whose key is not larger. *)
Fixpoint insert_reverse (key : A → Q) (x : A) (l : list A) : list A :=
  match l with
  | [] => [x]
  | y :: l' =>
      if Qlt_bool (key x) (key y) then y :: insert_reverse key x l'
      else x :: y :: l'
  end.

(** [l.sort(key=key, reverse=True)]: the stable sort by decreasing key. *)
Fixpoint sort_reverse (key : A → Q) (l : list A) : list A :=
  match l with
  | [] => []
  | x :: l' => insert_reverse key x (sort_reverse key l')
  end.

(** The order of a list sorted by decreasing key. *)
Definition key_ge (key : A → Q) (x y : A) : Prop := (key y <= key x)%Q.

(** [l[:n]] *)
Definition slice_to (l : list A) (n : Z) : list A :=
  if (n <? 0)%Z then take (length l - Z.to_nat (- n)) l
  else take (Z.to_nat n) l.

(** [l[n:]] *)
Definition slice_from (l : list A) (n : Z) : list A :=
  if (n <? 0)%Z then drop (length l - Z.to_nat (- n)) l
  else drop (Z.to_nat n) l.
End py_list.

(** ** Device performance detection *)

Record ConcurrencyConfig : Type := {
  max_workers : Z;
  batch_size : Z;
  memory_buffer_mb : Z;
  io_workers : Z
}.

Record PerformanceProfile : Type := {
  cpu_cores_physical : Z;
  cpu_cores_logical : option Z;
  cpu_usage_percent : Q;
  memory_total_gb : Q;
  memory_available_gb : Q;
  memory_usage_percent : Q;
  disk_free_gb : Q;
  performance_level : string;
  concurrency_config : ConcurrencyConfig;
  recommended_batch_size : Z;
  profile_max_workers : Z
}.

(** The answers of psutil during one call of [get_performance_profile];
    [None] stands for a query that raises. *)
Record Telemetry : Type := {
  cpu_percent : option Q;
  (** [psutil.virtual_memory()]: available bytes and percent used *)
  virtual_memory : option (Z * Q);
  (** [psutil.disk_usage('/').free] *)
  disk_usage : option Z
}.

(** [round(x, 2)]: to the nearest hundredth, ties to the even one. *)
Definition py_round2 (x : Q) : Q :=
  let y := (x * 100)%Q in
  let n := Qfloor y in
  let frac := (y - inject_Z n)%Q in
  let r :=
    if Qlt_bool frac 0.5 then n
    else if Qlt_bool 0.5 frac then (n + 1)%Z
    else if Z.even n then n else (n + 1)%Z in
  (inject_Z r / 100)%Q.

Module DevicePerformanceDetector.
Local Open Scope Z_scope.

(** The attributes set by [__init__]; [psutil.cpu_count] may answer [None]. *)
Record t : Type := {
  cpu_count : option Z;
  logical_cpu_count : option Z;
  total_memory : Z;
  available_memory : Z
}.

Definition GiB : Q := inject_Z (1024 ^ 3).

(** [None] stands for the [TypeError] of comparing [None] with an int. *)
Definition _calculate_performance_level (self : t) : option string :=
  let memory_gb := (inject_Z (total_memory self) / GiB)%Q in
  cpu_count ← cpu_count self;
  Some (if (8 <=? cpu_count) && Qle_bool 16 memory_gb then "high"
        else if (4 <=? cpu_count) && Qle_bool 8 memory_gb then "medium"
        else if (2 <=? cpu_count) && Qle_bool 4 memory_gb then "low"
        else "minimal").

(** The dict literal [configs] is built before the lookup, so a missing
    core count raises here as well. *)
Definition _get_concurrency_config (self : t) (performance_level : string)
    : option ConcurrencyConfig :=
  cpu_count ← cpu_count self;
  let configs : gmap string ConcurrencyConfig :=
    {[ "high" := {| max_workers := Z.min (cpu_count * 2) 16; batch_size := 8;
                    memory_buffer_mb := 2048; io_workers := 4 |};
       "medium" := {| max_workers := Z.min (cpu_count + 2) 8; batch_size := 4;
                      memory_buffer_mb := 1024; io_workers := 2 |};
       "low" := {| max_workers := Z.min cpu_count 4; batch_size := 2;
                   memory_buffer_mb := 512; io_workers := 1 |};
       "minimal" := {| max_workers := 2; batch_size := 1;
                       memory_buffer_mb := 256; io_workers := 1 |} ]} in
  match configs !! performance_level with
  | Some c => Some c
  | None => configs !! "low"
  end.

Definition _get_default_profile : PerformanceProfile :=
  {| cpu_cores_physical := 4;
     cpu_cores_logical := Some 8;
     cpu_usage_percent := 50.0;
     memory_total_gb := 8.0;
     memory_available_gb := 4.0;
     memory_usage_percent := 50.0;
     disk_free_gb := 10.0;
     performance_level := "medium";
     concurrency_config := {| max_workers := 4; batch_size := 2;
                              memory_buffer_mb := 512; io_workers := 1 |};
     recommended_batch_size := 2;
     profile_max_workers := 4 |}.

(** The body of the [try]: every step that can raise is a step of the
    option monad; the [except Exception] branch is the [default]. *)
Definition get_performance_profile (self : t) (psutil : Telemetry)
    : PerformanceProfile :=
  default _get_default_profile (
    cpu_percent ← cpu_percent psutil;
    memory_info ← virtual_memory psutil;
    disk_info ← disk_usage psutil;
    performance_level ← _calculate_performance_level self;
    concurrency_config ← _get_concurrency_config self performance_level;
    cpu_count ← cpu_count self;
    Some {| cpu_cores_physical := cpu_count;
            cpu_cores_logical := logical_cpu_count self;
            cpu_usage_percent := cpu_percent;
            memory_total_gb := py_round2 (inject_Z (total_memory self) / GiB);
            memory_available_gb := py_round2 (inject_Z memory_info.1 / GiB);
            memory_usage_percent := memory_info.2;
            disk_free_gb := py_round2 (inject_Z disk_info / GiB);
            performance_level := performance_level;
            concurrency_config := concurrency_config;
            recommended_batch_size := batch_size concurrency_config;
            profile_max_workers := max_workers concurrency_config |}).
End DevicePerformanceDetector.

(** ** The sampling planner *)

Module AsyncFrameExtractor.
Import AsyncFrameExtractorConfig.
Local Open Scope Q_scope.

Definition calculate_optimal_frame_count
    (duration fps : Q) (total_frames : Z) : result SamplingPlan :=
  let '(interval, strategy) :=
    if Qle_bool duration DURATION_ULTRA_SHORT then
      (INTERVAL_ULTRA_SHORT, "极短视频超密集采样")
    else if Qle_bool duration DURATION_SHORT then
      (INTERVAL_SHORT, "短视频密集采样")
    else if Qle_bool duration DURATION_MEDIUM_SHORT then
      (INTERVAL_MEDIUM_SHORT, "中短视频密集采样")
    else if Qle_bool duration DURATION_MEDIUM then
      (INTERVAL_MEDIUM, "中等视频标准采样")
    else if Qle_bool duration DURATION_LONG then
      (INTERVAL_LONG, "长视频密集采样")
    else if Qle_bool duration DURATION_VERY_LONG then
      (INTERVAL_VERY_LONG, "超长视频采样")
    else if Qle_bool duration DURATION_EXTRA_LONG then
      (INTERVAL_EXTRA_LONG, "30分钟视频采样")
    else if Qle_bool duration DURATION_HOUR then
      (INTERVAL_HOUR, "1小时视频采样")
    else
      (INTERVAL_SUPER_LONG, "超长视频采样") in
  let optimal_frames := Z.max MIN_FRAME_COUNT (py_int (duration / interval)) in
  let fps_factor :=
    if Qlt_bool fps FPS_LOW then FPS_FACTOR_LOW
    else if Qlt_bool FPS_HIGH fps then FPS_FACTOR_HIGH
    else if Qlt_bool FPS_STANDARD fps then FPS_FACTOR_STANDARD_HIGH
    else 1.0 in
  let optimal_frames := py_int (inject_Z optimal_frames * fps_factor) in
  let max_allowed :=
    Z.min total_frames (py_int (inject_Z total_frames * MAX_FRAME_PERCENTAGE)) in
  let optimal_frames := Z.min optimal_frames max_allowed in
  match py_floordiv total_frames optimal_frames with
  | Raise e => Raise e
  | Ok q =>
      let frame_interval := Z.max 1 q in
      let real_interval :=
        if (0 <? optimal_frames)%Z then duration / inject_Z optimal_frames
        else interval in
      Ok {| optimal_frames := optimal_frames;
            frame_interval := frame_interval;
            real_time_interval := real_interval;
            strategy := strategy |}
  end.

Section image.
Context `{ImageOps Frame Hist}.

Definition calculate_frame_quality (frame : Frame) : QualityMetrics :=
  let gray := if is_3d frame then cvtColor_BGR2GRAY frame else frame in
  let sharpness := Laplacian_var gray in
  let brightness := np_mean gray in
  let contrast := np_std gray in
  let quality_score :=
    sharpness * QUALITY_WEIGHT_SHARPNESS +
    contrast * QUALITY_WEIGHT_CONTRAST +
    py_min (brightness / 128.0) 1.0 * QUALITY_WEIGHT_BRIGHTNESS in
  {| sharpness := sharpness;
     brightness := brightness;
     contrast := contrast;
     quality_score := quality_score |}.

Definition detect_scene_change
    (frame1 frame2 : Frame) (sensitivity : string) : SceneChange :=
  let gray1 := if is_3d frame1 then cvtColor_BGR2GRAY frame1 else frame1 in
  let gray2 := if is_3d frame2 then cvtColor_BGR2GRAY frame2 else frame2 in
  let gray2 :=
    if bool_decide (shape gray1 ≠ shape gray2)
    then resize gray2 ((shape gray1).1.2, (shape gray1).1.1)
    else gray2 in
  let pixel_diff := np_mean (absdiff gray1 gray2) in
  let hist1 := calcHist gray1 in
  let hist2 := calcHist gray2 in
  let hist_diff := compareHist_CHISQR hist1 hist2 in
  let thresholds :=
    default (SCENE_THRESHOLDS !!! "high") (SCENE_THRESHOLDS !! sensitivity) in
  let pixel_change := Qlt_bool (pixel_threshold thresholds) pixel_diff in
  let hist_change := Qlt_bool (histogram_threshold thresholds) hist_diff in
  let is_scene_change := pixel_change || hist_change in
  let change_intensity :=
    pixel_diff / pixel_threshold thresholds * 0.6 +
    hist_diff / histogram_threshold thresholds * 0.4 in
  {| is_scene_change := is_scene_change;
     change_intensity := change_intensity;
     pixel_difference := pixel_diff;
     histogram_difference := hist_diff |}.

Definition _should_keep_frame
    (frame : Frame) (previous_frame : option Frame)
    (quality_metrics : QualityMetrics)
    (sharpness_threshold similarity_threshold : Q)
    (scene_sensitivity : string) : bool :=
  match previous_frame with
  | None => true
  | Some previous_frame =>
      if Qlt_bool (sharpness quality_metrics) sharpness_threshold then false
      else
        let scene_result :=
          detect_scene_change previous_frame frame scene_sensitivity in
        if is_scene_change scene_result then
          let intensity_threshold :=
            default 40.0 (INTENSITY_THRESHOLDS !! scene_sensitivity) in
          Qle_bool intensity_threshold (change_intensity scene_result)
        else
          Qle_bool similarity_threshold (pixel_difference scene_result)
  end.
End image.

(** The names computed in the body of the renaming loop. *)
Definition new_filename (i : nat) (frame_info : FrameRecord) : string :=
  let clean_name := (os_path_splitext (source_file frame_info)).1 in
  ("frame_" +:+ format_04d i +:+ "_" +:+ source_type frame_info +:+ "_"
     +:+ clean_name +:+ ".jpg")%string.

Definition new_path (output_dir : string) (i : nat) (frame_info : FrameRecord)
    : string :=
  os_path_join output_dir (new_filename i frame_info).

(** One turn of the loop of [_rename_files]: the three fields are
    rewritten after the calls of the [try] returned; when one of them raises,
    the [except] logs a warning and the record stays as it was. *)
Definition rename_frame `{OSErrors} (output_dir : string) (i : nat)
    (frame_info : FrameRecord) (fs : FS) : FS * FrameRecord :=
  let old_path := path frame_info in
  let new_filename := new_filename i frame_info in
  let new_path := new_path output_dir i frame_info in
  if bool_decide (old_path ≠ new_path) && os_path_exists old_path fs then
    let '(fs, moved) := move_file old_path new_path fs in
    if moved then
      (fs, {| path := new_path;
              filename := new_filename;
              frame_number := frame_number frame_info;
              timestamp := timestamp frame_info;
              extracted_index := i;
              quality_metrics := quality_metrics frame_info;
              source_type := source_type frame_info;
              source_file := source_file frame_info |})
    else (fs, frame_info)
  else (fs, frame_info).

(** [for i, frame_info in enumerate(all_frame_paths)], from index [i]. *)
Fixpoint _rename_files `{OSErrors} (output_dir : string) (i : nat)
    (all_frame_paths : list FrameRecord) (fs : FS) : FS * list FrameRecord :=
  match all_frame_paths with
  | [] => (fs, [])
  | frame_info :: rest =>
      let '(fs, frame_info) := rename_frame output_dir i frame_info fs in
      let '(fs, rest) := _rename_files output_dir (S i) rest fs in
      (fs, frame_info :: rest)
  end.

Definition _rename_frames_async `{OSErrors} (output_dir : string)
    (all_frame_paths : list FrameRecord) (fs : FS) : FS * list FrameRecord :=
  _rename_files output_dir 0 all_frame_paths fs.

(** The deletion loop over the excess tail; a removal that raises is
    passed over and the file stays. *)
Definition remove_excess `{OSErrors} (excess : list FrameRecord) (fs : FS)
    : FS :=
  foldl (λ fs frame_info,
           if os_path_exists (path frame_info) fs
           then default fs (os_remove (path frame_info) fs) else fs) fs excess.

(** [process_multiple_files_async] once every batch has drained: the cap
    on the cumulative list, then the renaming pass.  [max_base_frames] is
    the keyword argument, absent or given. *)
Definition process_multiple_files_async_finish `{OSErrors}
    (output_dir : string) (max_base_frames : option Z) (all_frame_paths : list FrameRecord)
    (fs : FS) : FS * list FrameRecord :=
  let max_base_frames := default DEFAULT_MAX_BASE_FRAMES max_base_frames in
  let '(fs, all_frame_paths) :=
    if (max_base_frames <? Z.of_nat (length all_frame_paths))%Z then
      let all_frame_paths :=
        sort_reverse (λ x, quality_score (quality_metrics x)) all_frame_paths in
      let fs := remove_excess (slice_from all_frame_paths max_base_frames) fs in
      (fs, slice_to all_frame_paths max_base_frames)
    else (fs, all_frame_paths) in
  _rename_frames_async output_dir all_frame_paths fs.
End AsyncFrameExtractor.

Module OptimizedFrameExtractor.
Import FrameExtractorConfig.
Local Open Scope Q_scope.

Definition calculate_optimal_frame_count
    (duration fps : Q) (total_frames : Z) : result SamplingPlan :=
  let '(interval, strategy) :=
    if Qle_bool duration DURATION_ULTRA_SHORT then
      (INTERVAL_ULTRA_SHORT, "极短视频超密集采样")
    else if Qle_bool duration DURATION_SHORT then
      (INTERVAL_SHORT, "短视频密集采样")
    else if Qle_bool duration DURATION_MEDIUM_SHORT then
      (INTERVAL_MEDIUM_SHORT, "中短视频密集采样")
    else if Qle_bool duration DURATION_MEDIUM then
      (INTERVAL_MEDIUM, "中等视频标准采样")
    else if Qle_bool duration DURATION_LONG then
      (INTERVAL_LONG, "长视频密集采样")
    else if Qle_bool duration DURATION_VERY_LONG then
      (INTERVAL_VERY_LONG, "超长视频采样")
    else if Qle_bool duration DURATION_EXTRA_LONG then
      (INTERVAL_EXTRA_LONG, "30分钟视频采样")
    else if Qle_bool duration DURATION_HOUR then
      (INTERVAL_HOUR, "1小时视频采样")
    else
      (INTERVAL_SUPER_LONG, "超长视频采样") in
  let optimal_frames := Z.max MIN_FRAME_COUNT (py_int (duration / interval)) in
  let fps_factor :=
    if Qlt_bool fps FPS_LOW then FPS_FACTOR_LOW
    else if Qlt_bool FPS_HIGH fps then FPS_FACTOR_HIGH
    else if Qlt_bool FPS_STANDARD fps then FPS_FACTOR_STANDARD_HIGH
    else 1.0 in
  let optimal_frames := py_int (inject_Z optimal_frames * fps_factor) in
  let max_allowed :=
    Z.min total_frames (py_int (inject_Z total_frames * MAX_FRAME_PERCENTAGE)) in
  let optimal_frames := Z.min optimal_frames max_allowed in
  match py_floordiv total_frames optimal_frames with
  | Raise e => Raise e
  | Ok q =>
      let frame_interval := Z.max 1 q in
      let real_interval :=
        if (0 <? optimal_frames)%Z then duration / inject_Z optimal_frames
        else interval in
      Ok {| optimal_frames := optimal_frames;
            frame_interval := frame_interval;
            real_time_interval := real_interval;
            strategy := strategy |}
  end.

Section image.
Context `{ImageOps Frame Hist}.

Definition calculate_frame_quality (frame : Frame) : QualityMetrics :=
  let gray := if is_3d frame then cvtColor_BGR2GRAY frame else frame in
  let sharpness := Laplacian_var gray in
  let brightness := np_mean gray in
  let contrast := np_std gray in
  let quality_score :=
    sharpness * QUALITY_WEIGHT_SHARPNESS +
    contrast * QUALITY_WEIGHT_CONTRAST +
    py_min (brightness / 128.0) 1.0 * QUALITY_WEIGHT_BRIGHTNESS in
  {| sharpness := sharpness;
     brightness := brightness;
     contrast := contrast;
     quality_score := quality_score |}.

Definition detect_scene_change
    (frame1 frame2 : Frame) (sensitivity : string) : SceneChange :=
  let gray1 := if is_3d frame1 then cvtColor_BGR2GRAY frame1 else frame1 in
  let gray2 := if is_3d frame2 then cvtColor_BGR2GRAY frame2 else frame2 in
  let gray2 :=
    if bool_decide (shape gray1 ≠ shape gray2)
    then resize gray2 ((shape gray1).1.2, (shape gray1).1.1)
    else gray2 in
  let pixel_diff := np_mean (absdiff gray1 gray2) in
  let hist1 := calcHist gray1 in
  let hist2 := calcHist gray2 in
  let hist_diff := compareHist_CHISQR hist1 hist2 in
  let thresholds :=
    default (SCENE_THRESHOLDS !!! "high") (SCENE_THRESHOLDS !! sensitivity) in
  let pixel_change := Qlt_bool (pixel_threshold thresholds) pixel_diff in
  let hist_change := Qlt_bool (histogram_threshold thresholds) hist_diff in
  let is_scene_change := pixel_change || hist_change in
  let change_intensity :=
    pixel_diff / pixel_threshold thresholds * 0.6 +
    hist_diff / histogram_threshold thresholds * 0.4 in
  {| is_scene_change := is_scene_change;
     change_intensity := change_intensity;
     pixel_difference := pixel_diff;
     histogram_difference := hist_diff |}.

Definition _should_keep_frame
    (frame : Frame) (previous_frame : option Frame)
    (quality_metrics : QualityMetrics)
    (sharpness_threshold similarity_threshold : Q)
    (scene_sensitivity : string) : bool :=
  match previous_frame with
  | None => true
  | Some previous_frame =>
      if Qlt_bool (sharpness quality_metrics) sharpness_threshold then false
      else
        let scene_result :=
          detect_scene_change previous_frame frame scene_sensitivity in
        if is_scene_change scene_result then
          let intensity_threshold :=
            default 40.0 (INTENSITY_THRESHOLDS !! scene_sensitivity) in
          Qle_bool intensity_threshold (change_intensity scene_result)
        else
          Qle_bool similarity_threshold (pixel_difference scene_result)
  end.
End image.

(** The names computed in the body of the renaming loop. *)
Definition new_filename (i : nat) (frame_info : FrameRecord) : string :=
  let clean_name := (os_path_splitext (source_file frame_info)).1 in
  ("frame_" +:+ format_04d i +:+ "_" +:+ source_type frame_info +:+ "_"
     +:+ clean_name +:+ ".jpg")%string.

Definition new_path (output_dir : string) (i : nat) (frame_info : FrameRecord)
    : string :=
  os_path_join output_dir (new_filename i frame_info).

(** One turn of the renaming loop of [process_mixed_inputs]: the three
    fields are rewritten after the calls of the [try] returned; when one of
    them raises, the bare [except] passes and the record stays as it was. *)
Definition rename_frame `{OSErrors} (output_dir : string) (i : nat)
    (frame_info : FrameRecord) (fs : FS) : FS * FrameRecord :=
  let old_path := path frame_info in
  let new_filename := new_filename i frame_info in
  let new_path := new_path output_dir i frame_info in
  if bool_decide (old_path ≠ new_path) && os_path_exists old_path fs then
    let '(fs, moved) := move_file old_path new_path fs in
    if moved then
      (fs, {| path := new_path;
              filename := new_filename;
              frame_number := frame_number frame_info;
              timestamp := timestamp frame_info;
              extracted_index := i;
              quality_metrics := quality_metrics frame_info;
              source_type := source_type frame_info;
              source_file := source_file frame_info |})
    else (fs, frame_info)
  else (fs, frame_info).

(** [for i, frame_info in enumerate(all_frame_paths)], from index [i]. *)
Fixpoint rename_loop `{OSErrors} (output_dir : string) (i : nat)
    (all_frame_paths : list FrameRecord) (fs : FS) : FS * list FrameRecord :=
  match all_frame_paths with
  | [] => (fs, [])
  | frame_info :: rest =>
      let '(fs, frame_info) := rename_frame output_dir i frame_info fs in
      let '(fs, rest) := rename_loop output_dir (S i) rest fs in
      (fs, frame_info :: rest)
  end.

(** The deletion loop over the excess tail; a removal that raises is
    passed over and the file stays. *)
Definition remove_excess `{OSErrors} (excess : list FrameRecord) (fs : FS)
    : FS :=
  foldl (λ fs frame_info,
           if os_path_exists (path frame_info) fs
           then default fs (os_remove (path frame_info) fs) else fs) fs excess.

(** [process_mixed_inputs] once every input has been processed: the cap
    on the cumulative list, then the renaming pass.  [max_base_frames] is
    the keyword argument, absent or given. *)
Definition process_mixed_inputs_finish `{OSErrors} (output_dir : string)
    (max_base_frames : option Z) (all_frame_paths : list FrameRecord)
    (fs : FS) : FS * list FrameRecord :=
  let max_base_frames := default DEFAULT_MAX_BASE_FRAMES max_base_frames in
  let '(fs, all_frame_paths) :=
    if (max_base_frames <? Z.of_nat (length all_frame_paths))%Z then
      let all_frame_paths :=
        sort_reverse (λ x, quality_score (quality_metrics x)) all_frame_paths in
      let fs := remove_excess (slice_from all_frame_paths max_base_frames) fs in
      (fs, slice_to all_frame_paths max_base_frames)
    else (fs, all_frame_paths) in
  rename_loop output_dir 0 all_frame_paths fs.
End OptimizedFrameExtractor.


(** ** A small implementation of the image primitives

    Gray frames known by three statistics: mean intensity, standard deviation
    and Laplacian variance.  The difference image keeps the absolute
    difference of the means; the histogram is reduced to the mean, and the
    chi-square distance to 0 for equal histograms and 1 otherwise.  It is
    used to run the definitions on concrete frames. *)
Module SummaryFrames.
Local Open Scope Q_scope.

Record frame : Type := {
  mean_intensity : Q;
  std_intensity : Q;
  laplacian_variance : Q
}.

#[global] Instance ops : ImageOps frame Q := {|
  shape := λ _, (90%nat, 160%nat, None);
  cvtColor_BGR2GRAY := λ f, f;
  resize := λ f _, f;
  Laplacian_var := laplacian_variance;
  np_mean := mean_intensity;
  np_std := std_intensity;
  absdiff := λ f g,
    {| mean_intensity := Qabs (mean_intensity f - mean_intensity g);
       std_intensity := 0;
       laplacian_variance := 0 |};
  calcHist := mean_intensity;
  compareHist_CHISQR := λ h1 h2, if Qeq_bool h1 h2 then 0 else 1
|}.

Definition dark_sharp : frame :=
  {| mean_intensity := 100; std_intensity := 40; laplacian_variance := 300 |}.
Definition dark_blurred : frame :=
  {| mean_intensity := 100; std_intensity := 40; laplacian_variance := 120 |}.
Definition dark_flat : frame :=
  {| mean_intensity := 100; std_intensity := 10; laplacian_variance := 120 |}.
Definition brighter : frame :=
  {| mean_intensity := 120; std_intensity := 40; laplacian_variance := 300 |}.
End SummaryFrames.

(** ** Sample records

    Three image inputs as [process_multiple_files_async] appends them, with
    quality scores 1, 2 and 3, and the files written for them. *)
Module Samples.
Definition output_dir : string := "out/task".

Definition image_record (name : string) (index : nat) (score : Q)
    : FrameRecord :=
  {| path := os_path_join output_dir ("image_" +:+ name +:+ ".jpg");
     filename := "image_" +:+ name +:+ ".jpg";
     frame_number := 0;
     timestamp := 0.0;
     extracted_index := index;
     quality_metrics := {| sharpness := 2 * score; brightness := 128;
                           contrast := 0; quality_score := score |};
     source_type := "image";
     source_file := name +:+ ".png" |}.

Definition appended : list FrameRecord :=
  [image_record "a" 0 1; image_record "b" 1 2; image_record "c" 2 3].

Definition disk : FS :=
  {| files := {[ "out/task/image_a.jpg"; "out/task/image_b.jpg";
                 "out/task/image_c.jpg" ]};
     trace := [] |}.

(** The same three records once the renaming pass has named them. *)
Definition renamed_record (name : string) (index : nat) (score : Q)
    : FrameRecord :=
  {| path := "out/task/frame_" +:+ format_04d index +:+ "_image_" +:+ name
             +:+ ".jpg";
     filename := "frame_" +:+ format_04d index +:+ "_image_" +:+ name
                 +:+ ".jpg";
     frame_number := 0;
     timestamp := 0.0;
     extracted_index := index;
     quality_metrics := {| sharpness := 2 * score; brightness := 128;
                           contrast := 0; quality_score := score |};
     source_type := "image";
     source_file := name +:+ ".png" |}.

Definition renamed : list FrameRecord :=
  [renamed_record "a" 0 1; renamed_record "b" 1 2; renamed_record "c" 2 3].

Definition renamed_disk : FS :=
  {| files := {[ "out/task/frame_0000_image_a.jpg";
                 "out/task/frame_0001_image_b.jpg";
                 "out/task/frame_0002_image_c.jpg" ]};
     trace := [] |}.
End Samples.

(** ** Exceptions of the per-file pipeline *)

Inductive py_exception : Type :=
  | Builtin (e : exn)
  | ValueError
  | AttributeError
  (** [cv2.error] *)
  | Cv2Error
  (** what a failing [psutil] query raises *)
  | PsutilError.

Inductive outcome (A : Type) : Type :=
  | Returns (a : A)
  | Raises (e : py_exception).
Arguments Returns {A} a.
Arguments Raises {A} e.

Definition outcome_bind {A B : Type} (m : outcome A) (k : A → outcome B)
    : outcome B :=
  match m with
  | Returns a => k a
  | Raises e => Raises e
  end.

Definition of_result {A : Type} (r : result A) : outcome A :=
  match r with
  | Ok a => Returns a
  | Raise e => Raises (Builtin e)
  end.

(** [x / y] on floats or ints (true division). *)
Definition py_truediv (x y : Q) : outcome Q :=
  if Qeq_bool y 0 then Raises (Builtin ZeroDivisionError)
  else Returns (x / y)%Q.

(** [a % b] on ints. *)
Definition py_mod (a b : Z) : outcome Z :=
  if (b =? 0)%Z then Raises (Builtin ZeroDivisionError)
  else Returns (a mod b)%Z.

(** ** More of the image primitives *)

Class ImageIO (Frame : Type) : Type := {
  (** [cv2.resize(frame, (width, height), interpolation=cv2.INTER_AREA)],
      for a target size with positive sides *)
  resize_INTER_AREA : Frame → Z * Z → Frame;
  (** whether [cv2.imwrite(path, frame, [cv2.IMWRITE_JPEG_QUALITY, quality])]
      succeeds *)
  imwrite_ok : string → Frame → Z → bool
}.

(** [cv2.imwrite]: on success the file exists afterwards. *)
Definition cv2_imwrite `{ImageIO Frame} (filepath : string) (frame : Frame)
    (quality : Z) (fs : FS) : bool * FS :=
  if imwrite_ok filepath frame quality
  then (true, {| files := {[ filepath ]} ∪ files fs; trace := trace fs |})
  else (false, fs).

(** ** More formatting *)

Fixpoint last_component (s : string) (acc : string) : string :=
  match s with
  | EmptyString => acc
  | String a s' =>
      if Ascii.eqb a "/" then last_component s' ""
      else last_component s' (acc +:+ String a "")
  end.

(** [os.path.basename]: what follows the last slash. *)
Definition os_path_basename (p : string) : string := last_component p "".

(** [c.lower()] on an ASCII character; other bytes are left alone. *)
Definition ascii_lower (c : ascii) : ascii :=
  let n := nat_of_ascii c in
  if (65 <=? n)%nat && (n <=? 90)%nat then ascii_of_nat (n + 32) else c.

(** [s.lower()] *)
Fixpoint str_lower (s : string) : string :=
  match s with
  | EmptyString => EmptyString
  | String a s' => String (ascii_lower a) (str_lower s')
  end.

(** Rounding to the nearest integer, ties to the even one. *)
Definition round_half_even (x : Q) : Z :=
  let n := Qfloor x in
  let frac := (x - inject_Z n)%Q in
  if Qlt_bool frac 0.5 then n
  else if Qlt_bool 0.5 frac then (n + 1)%Z
  else if Z.even n then n else (n + 1)%Z.

(** [f"{x:.{digits}f}"] for a float that is not a negative zero. *)
Definition format_fixed (digits : nat) (x : Q) : string :=
  let scale := (10 ^ Z.of_nat digits)%Z in
  let units := round_half_even (Qabs x * inject_Z scale) in
  let whole := pretty (units / scale)%Z in
  let fraction := pretty (units mod scale)%Z in
  let sign := if Qlt_bool x 0 then "-" else "" in
  sign +:+ whole +:+
  (if (digits =? 0)%nat then ""
   else "." +:+ zeros (digits - String.length fraction) +:+ fraction).

(** ** The progress monitor *)

(** The dict built by [get_progress_data]. *)
Module ProgressData.
Record t : Type := {
  total_files : Z;
  completed_files : Z;
  current_file : string;
  current_file_progress : Q;
  overall_progress : Q;
  elapsed_time : Q;
  estimated_remaining : Q
}.
End ProgressData.

(** [AsyncProgressMonitor].  The clock [time.time()] is an argument of the
    methods that read it; a notification is the list of the calls made, one
    per registered callback, each with the same snapshot (what a callback
    does, and whether it fails, has no effect on the monitor). *)
Module AsyncProgressMonitor.
Section monitor.
Context {Callback : Type}.

Record t : Type := {
  total_files : Z;
  completed_files : Z;
  current_file : string;
  current_progress : Q;
  start_time : Q;
  update_interval : Q;
  callbacks : list Callback
}.

Definition __init__ (total_files : Z) (update_interval : option Q) (now : Q)
    : t :=
  {| total_files := total_files;
     completed_files := 0;
     current_file := "";
     current_progress := 0.0;
     start_time := now;
     update_interval := default 0.5%Q update_interval;
     callbacks := [] |}.

Definition add_callback (self : t) (callback : Callback) : t :=
  {| total_files := total_files self;
     completed_files := completed_files self;
     current_file := current_file self;
     current_progress := current_progress self;
     start_time := start_time self;
     update_interval := update_interval self;
     callbacks := callbacks self ++ [callback] |}.

Definition _estimate_remaining_time (elapsed progress : Q) : Q :=
  if Qle_bool progress 0 then 0%Q
  else
    let total_estimated := (elapsed * 100 / progress)%Q in
    let remaining := (total_estimated - elapsed)%Q in
    if Qlt_bool 0 remaining then remaining else 0%Q.

Definition get_progress_data (self : t) (now : Q) : ProgressData.t :=
  let elapsed_time := (now - start_time self)%Q in
  let overall_progress :=
    if (0 <? total_files self)%Z
    then (inject_Z (completed_files self) / inject_Z (total_files self) * 100)%Q
    else 0%Q in
  {| ProgressData.total_files := total_files self;
     ProgressData.completed_files := completed_files self;
     ProgressData.current_file := current_file self;
     ProgressData.current_file_progress := current_progress self;
     ProgressData.overall_progress := overall_progress;
     ProgressData.elapsed_time := elapsed_time;
     ProgressData.estimated_remaining :=
       _estimate_remaining_time elapsed_time overall_progress |}.

Definition _notify_callbacks (self : t) (now : Q)
    : list (Callback * ProgressData.t) :=
  match callbacks self with
  | [] => []
  | _ =>
      let progress_data := get_progress_data self now in
      (λ callback, (callback, progress_data)) <$> callbacks self
  end.

Definition update_file_progress (self : t) (filename : string) (progress : Q)
    (now : Q) : t * list (Callback * ProgressData.t) :=
  let self :=
    {| total_files := total_files self;
       completed_files := completed_files self;
       current_file := filename;
       current_progress := progress;
       start_time := start_time self;
       update_interval := update_interval self;
       callbacks := callbacks self |} in
  (self, _notify_callbacks self now).

Definition complete_file (self : t) (filename : string) (now : Q)
    : t * list (Callback * ProgressData.t) :=
  let self :=
    {| total_files := total_files self;
       completed_files := completed_files self + 1;
       current_file := filename;
       current_progress := 100.0;
       start_time := start_time self;
       update_interval := update_interval self;
       callbacks := callbacks self |} in
  (self, _notify_callbacks self now).
End monitor.
Arguments t : clear implicits.
End AsyncProgressMonitor.

(** ** Inputs of the pipeline *)

(** What OpenCV answers for a video file that it opened: the container
    properties ([cap.get]) and the frames that successive [cap.read()] calls
    deliver. *)
Record VideoCapture (Frame : Type) : Type := {
  CAP_PROP_FRAME_COUNT : Q;
  CAP_PROP_FPS : Q;
  CAP_PROP_FRAME_WIDTH : Q;
  CAP_PROP_FRAME_HEIGHT : Q;
  read_frames : list Frame
}.
Arguments CAP_PROP_FRAME_COUNT {Frame} _.
Arguments CAP_PROP_FPS {Frame} _.
Arguments CAP_PROP_FRAME_WIDTH {Frame} _.
Arguments CAP_PROP_FRAME_HEIGHT {Frame} _.
Arguments read_frames {Frame} _.

(** An input file: its size, what [cv2.VideoCapture] gives ([None] when
    [isOpened()] is false) and what [cv2.imread] gives ([None] when it
    cannot decode).  The input files are a map from paths, read-only and
    apart from the output files. *)
Record InputFile (Frame : Type) : Type := {
  getsize : Z;
  capture : option (VideoCapture Frame);
  imread : option Frame
}.
Arguments getsize {Frame} _.
Arguments capture {Frame} _.
Arguments imread {Frame} _.

(** The [file_info] dict of a validated video. *)
Module VideoInfo.
Record t : Type := {
  file_path : string;
  file_name : string;
  file_size_mb : Q;
  file_extension : string;
  total_frames : Z;
  fps : Q;
  width : Z;
  height : Z;
  duration_seconds : Q;
  resolution : string
}.
End VideoInfo.

(** The [file_info] dict of a validated image. *)
Module ImageInfo.
Record t : Type := {
  file_path : string;
  file_name : string;
  file_size_mb : Q;
  file_extension : string;
  width : Z;
  height : Z;
  channels : Z;
  resolution : string
}.
End ImageInfo.

(** [file_info] with its ['file_type']. *)
Inductive file_info : Type :=
  | Video (info : VideoInfo.t)
  | Image (info : ImageInfo.t).

(** The dict returned by [validate_file]: not valid with an error, or valid
    with the file information. *)
Inductive validation : Type :=
  | Invalid (error : string)
  | Valid (info : file_info).

(** The keyword arguments of the processing entry points, absent or given. *)
Module Kwargs.
Record t : Type := {
  quality : option Z;
  max_resolution : option (Z * Z);
  sharpness_threshold : option Q;
  similarity_threshold : option Q;
  scene_sensitivity : option string;
  max_base_frames : option Z
}.
End Kwargs.

(** The dict returned for one file: a failure with its error, the frames of
    a video, or the output of an image. *)
Inductive file_result : Type :=
  | Failure (error : string)
  | VideoFrames (video_info : VideoInfo.t) (frame_paths : list FrameRecord)
      (calculation_result : SamplingPlan)
  | ImageOutput (output_path output_filename : string)
      (quality_metrics : QualityMetrics).

(** The dict returned by [process_mixed_inputs] (without the elapsed time). *)
Module BatchResult.
Record t : Type := {
  success : bool;
  task_id : string;
  device_id : option string;
  task_output_dir : string;
  total_files : nat;
  success_count : Z;
  failed_count : Z;
  frame_paths : list FrameRecord
}.
End BatchResult.

(** ** The sequential pipeline: the other methods of [OptimizedFrameExtractor]

    [output_dir] and [max_file_size_bytes] are the attributes of the
    extractor; [inputs] are the input files.  A function that writes files
    returns the file system together with its outcome, so that what was
    written before an exception stays written. *)
Module OptimizedPipeline.
Import FrameExtractorConfig OptimizedFrameExtractor.

Definition SUPPORTED_VIDEO_FORMATS : list string :=
  [".mp4"; ".avi"; ".mov"; ".mkv"; ".wmv"; ".flv"; ".webm"; ".m4v"].
Definition SUPPORTED_IMAGE_FORMATS : list string :=
  [".jpg"; ".jpeg"; ".png"; ".bmp"; ".tiff"; ".tif"; ".webp"].
Definition DEFAULT_QUALITY : Z := 95.
Definition COMPARE_FRAME_SIZE : nat * nat := (160, 90)%nat.
Definition BYTES_TO_MB : Z := 1024 * 1024.

Definition generate_task_id (timestamp device_id : string) : string :=
  timestamp +:+ "_" +:+ device_id.

Definition create_task_output_dir (output_dir task_id : string) : string :=
  os_path_join output_dir task_id.

Section pipeline.
Context `{ImageOps Frame Hist} `{ImageIO Frame} `{OSErrors}.
Variable inputs : gmap string (InputFile Frame).
Variable max_file_size_bytes : Z.

Definition _validate_video (file_path : string) (file_size : Z)
    (file_ext : string) : validation :=
  match inputs !! file_path ≫= capture with
  | None => Invalid "无法打开视频文件"
  | Some cap =>
      let total_frames := py_int (CAP_PROP_FRAME_COUNT cap) in
      let fps := CAP_PROP_FPS cap in
      let width := py_int (CAP_PROP_FRAME_WIDTH cap) in
      let height := py_int (CAP_PROP_FRAME_HEIGHT cap) in
      if (total_frames <=? 0)%Z || Qle_bool fps 0 || (width <=? 0)%Z
         || (height <=? 0)%Z
      then Invalid "视频参数异常"
      else
        Valid (Video
          {| VideoInfo.file_path := file_path;
             VideoInfo.file_name := os_path_basename file_path;
             VideoInfo.file_size_mb :=
               (inject_Z file_size / inject_Z BYTES_TO_MB)%Q;
             VideoInfo.file_extension := file_ext;
             VideoInfo.total_frames := total_frames;
             VideoInfo.fps := fps;
             VideoInfo.width := width;
             VideoInfo.height := height;
             VideoInfo.duration_seconds := (inject_Z total_frames / fps)%Q;
             VideoInfo.resolution := pretty width +:+ "x" +:+ pretty height |})
  end.

Definition _validate_image (file_path : string) (file_size : Z)
    (file_ext : string) : validation :=
  match inputs !! file_path ≫= imread with
  | None => Invalid "无法读取图片文件"
  | Some image =>
      let '(height, width, depth) := shape image in
      let channels := match depth with Some c => Z.of_nat c | None => 1%Z end in
      if (Z.of_nat width <=? 0)%Z || (Z.of_nat height <=? 0)%Z
      then Invalid "图片尺寸异常"
      else
        Valid (Image
          {| ImageInfo.file_path := file_path;
             ImageInfo.file_name := os_path_basename file_path;
             ImageInfo.file_size_mb :=
               (inject_Z file_size / inject_Z BYTES_TO_MB)%Q;
             ImageInfo.file_extension := file_ext;
             ImageInfo.width := Z.of_nat width;
             ImageInfo.height := Z.of_nat height;
             ImageInfo.channels := channels;
             ImageInfo.resolution :=
               pretty (Z.of_nat width) +:+ "x" +:+ pretty (Z.of_nat height) |})
  end.

Definition validate_file (file_path : string) : validation :=
  match inputs !! file_path with
  | None => Invalid ("文件不存在: " +:+ file_path)
  | Some file =>
      let file_ext := str_lower (os_path_splitext file_path).2 in
      if negb (bool_decide
                 (file_ext ∈ SUPPORTED_VIDEO_FORMATS ++ SUPPORTED_IMAGE_FORMATS))
      then Invalid ("不支持的文件格式: " +:+ file_ext)
      else
        let file_size := getsize file in
        if (max_file_size_bytes <? file_size)%Z
        then Invalid ("文件过大: "
                      +:+ format_fixed 1
                            (inject_Z file_size / inject_Z BYTES_TO_MB)
                      +:+ "MB")
        else if bool_decide (file_ext ∈ SUPPORTED_VIDEO_FORMATS)
        then _validate_video file_path file_size file_ext
        else _validate_image file_path file_size file_ext
  end.

Definition resize_frame (frame : Frame) (max_resolution : option (Z * Z))
    : outcome Frame :=
  match max_resolution with
  | None => Returns frame
  | Some (max_width, max_height) =>
      let '(height, width, _) := shape frame in
      outcome_bind (py_truediv (inject_Z max_width) (inject_Z (Z.of_nat width)))
        (λ ratio_width,
      outcome_bind (py_truediv (inject_Z max_height)
                      (inject_Z (Z.of_nat height)))
        (λ ratio_height,
      let scale := py_min (py_min ratio_width ratio_height) 1.0 in
      if Qlt_bool scale 1.0 then
        let new_width := py_int (inject_Z (Z.of_nat width) * scale) in
        let new_height := py_int (inject_Z (Z.of_nat height) * scale) in
        if (new_width <=? 0)%Z || (new_height <=? 0)%Z then Raises Cv2Error
        else Returns (resize_INTER_AREA frame (new_width, new_height))
      else Returns frame))
  end.

(** The [while True] loop of [extract_frames_optimized], on the frames that
    remain to be read. *)
Fixpoint decode_loop (video_path output_dir : string) (fps : Q)
    (frame_interval : Z) (quality : Z) (max_resolution : option (Z * Z))
    (sharpness_threshold similarity_threshold : Q) (scene_sensitivity : string)
    (max_base_frames : Z)
    (frames : list Frame) (frame_count : Z) (extracted_count : nat)
    (previous_frame : option Frame) (frame_paths : list FrameRecord) (fs : FS)
    : FS * outcome (list FrameRecord) :=
  match frames with
  | [] => (fs, Returns frame_paths)
  | frame :: rest =>
      let continue extracted_count previous_frame frame_paths fs :=
        decode_loop video_path output_dir fps frame_interval quality
          max_resolution sharpness_threshold similarity_threshold
          scene_sensitivity max_base_frames
          rest (frame_count + 1)%Z extracted_count previous_frame
          frame_paths fs in
      match py_mod frame_count frame_interval with
      | Raises e => (fs, Raises e)
      | Returns remainder =>
          if (remainder =? 0)%Z then
            match resize_frame frame max_resolution with
            | Raises e => (fs, Raises e)
            | Returns processed_frame =>
                let quality_metrics := calculate_frame_quality processed_frame in
                let should_keep :=
                  _should_keep_frame processed_frame previous_frame
                    quality_metrics sharpness_threshold similarity_threshold
                    scene_sensitivity in
                if should_keep then
                  match py_truediv (inject_Z frame_count) fps with
                  | Raises e => (fs, Raises e)
                  | Returns timestamp =>
                      let filename :=
                        "frame_" +:+ format_04d extracted_count +:+ "_"
                        +:+ format_fixed 2 timestamp +:+ "s.jpg" in
                      let filepath := os_path_join output_dir filename in
                      let '(written, fs) :=
                        cv2_imwrite filepath processed_frame quality fs in
                      if written then
                        let frame_info :=
                          {| path := filepath;
                             filename := filename;
                             frame_number := frame_count;
                             timestamp := timestamp;
                             extracted_index := extracted_count;
                             quality_metrics := quality_metrics;
                             source_type := "video";
                             source_file := os_path_basename video_path |} in
                        let frame_paths := frame_paths ++ [frame_info] in
                        let previous_frame :=
                          Some (resize processed_frame COMPARE_FRAME_SIZE) in
                        let extracted_count := S extracted_count in
                        if (max_base_frames <=? Z.of_nat extracted_count)%Z
                        then (fs, Returns frame_paths)
                        else continue extracted_count previous_frame
                               frame_paths fs
                      else continue extracted_count previous_frame
                             frame_paths fs
                  end
                else continue extracted_count previous_frame frame_paths fs
            end
          else continue extracted_count previous_frame frame_paths fs
      end
  end.

Definition extract_frames_optimized (output_dir : string) (video_path : string)
    (kwargs : Kwargs.t) (fs : FS) : FS * outcome file_result :=
  let quality := default DEFAULT_QUALITY (Kwargs.quality kwargs) in
  let max_resolution := Kwargs.max_resolution kwargs in
  let sharpness_threshold :=
    default DEFAULT_SHARPNESS_THRESHOLD (Kwargs.sharpness_threshold kwargs) in
  let similarity_threshold :=
    default DEFAULT_SIMILARITY_THRESHOLD (Kwargs.similarity_threshold kwargs) in
  let scene_sensitivity :=
    default DEFAULT_SCENE_SENSITIVITY (Kwargs.scene_sensitivity kwargs) in
  let max_base_frames :=
    default DEFAULT_MAX_BASE_FRAMES (Kwargs.max_base_frames kwargs) in
  match validate_file video_path with
  | Invalid error => (fs, Returns (Failure error))
  | Valid (Image _) => (fs, Returns (Failure "不是视频文件"))
  | Valid (Video video_info) =>
      match of_result
              (calculate_optimal_frame_count
                 (VideoInfo.duration_seconds video_info)
                 (VideoInfo.fps video_info)
                 (VideoInfo.total_frames video_info)) with
      | Raises e => (fs, Raises e)
      | Returns calc_result =>
          match inputs !! video_path ≫= capture with
          | None => (fs, Returns (Failure "无法打开视频"))
          | Some cap =>
              let '(fs, frames) :=
                decode_loop video_path output_dir (VideoInfo.fps video_info)
                  (frame_interval calc_result) quality max_resolution
                  sharpness_threshold similarity_threshold scene_sensitivity
                  max_base_frames (read_frames cap) 0 0 None [] fs in
              match frames with
              | Raises e => (fs, Raises e)
              | Returns frame_paths =>
                  (fs, Returns (VideoFrames video_info frame_paths calc_result))
              end
          end
      end
  end.

Definition process_image_file (output_dir : string) (image_path : string)
    (kwargs : Kwargs.t) (fs : FS) : FS * outcome file_result :=
  let quality := default DEFAULT_QUALITY (Kwargs.quality kwargs) in
  let max_resolution := Kwargs.max_resolution kwargs in
  match validate_file image_path with
  | Invalid error => (fs, Returns (Failure error))
  | Valid (Video _) => (fs, Returns (Failure "不是图片文件"))
  | Valid (Image file_info) =>
      match inputs !! image_path ≫= imread with
      | None => (fs, Raises AttributeError)
      | Some image =>
          match resize_frame image max_resolution with
          | Raises e => (fs, Raises e)
          | Returns processed_image =>
              let quality_metrics := calculate_frame_quality processed_image in
              let base_name :=
                (os_path_splitext (ImageInfo.file_name file_info)).1 in
              let output_filename := "image_" +:+ base_name +:+ ".jpg" in
              let output_path := os_path_join output_dir output_filename in
              let '(written, fs) :=
                cv2_imwrite output_path processed_image quality fs in
              if written
              then (fs, Returns (ImageOutput output_path output_filename
                                   quality_metrics))
              else (fs, Returns (Failure "保存图片失败"))
          end
      end
  end.

(** The body of the [for file_path in input_paths] loop, with its
    [try ... except]: the cumulative list, the two counters and the file
    system after one more file. *)
Definition process_one (task_output_dir : string) (kwargs : Kwargs.t)
    (state : list FrameRecord * Z * Z * FS) (file_path : string)
    : list FrameRecord * Z * Z * FS :=
  let '(all_frame_paths, success_count, failed_count, fs) := state in
  match validate_file file_path with
  | Invalid _ => (all_frame_paths, success_count, (failed_count + 1)%Z, fs)
  | Valid info =>
      let '(fs, result) :=
        match info with
        | Video _ => extract_frames_optimized task_output_dir file_path kwargs fs
        | Image _ => process_image_file task_output_dir file_path kwargs fs
        end in
      match result with
      | Raises _ => (all_frame_paths, success_count, (failed_count + 1)%Z, fs)
      | Returns (Failure _) =>
          (all_frame_paths, success_count, (failed_count + 1)%Z, fs)
      | Returns (VideoFrames _ frame_paths _) =>
          (all_frame_paths ++ frame_paths, (success_count + 1)%Z,
           failed_count, fs)
      | Returns (ImageOutput output_path output_filename quality_metrics) =>
          let frame_info :=
            {| path := output_path;
               filename := output_filename;
               frame_number := 0;
               timestamp := 0.0;
               extracted_index := length all_frame_paths;
               quality_metrics := quality_metrics;
               source_type := "image";
               source_file := os_path_basename file_path |} in
          (all_frame_paths ++ [frame_info], (success_count + 1)%Z,
           failed_count, fs)
      end
  end.

(** [process_mixed_inputs]; [timestamp] is the formatted clock reading used
    when a task id has to be generated. *)
Definition process_mixed_inputs (output_dir : string) (timestamp : string)
    (input_paths : list string) (device_id task_id : option string)
    (kwargs : Kwargs.t) (fs : FS) : FS * BatchResult.t :=
  let '(device_id, task_id) :=
    match task_id with
    | Some task_id => (device_id, task_id)
    | None =>
        let device_id :=
          match device_id with
          | Some d => if bool_decide (d = "") then "default_device" else d
          | None => "default_device"
          end in
        (Some device_id, generate_task_id timestamp device_id)
    end in
  let task_output_dir := create_task_output_dir output_dir task_id in
  let '(all_frame_paths, success_count, failed_count, fs) :=
    foldl (process_one task_output_dir kwargs) ([], 0%Z, 0%Z, fs) input_paths in
  let '(fs, all_frame_paths) :=
    process_mixed_inputs_finish task_output_dir (Kwargs.max_base_frames kwargs)
      all_frame_paths fs in
  (fs, {| BatchResult.success := (0 <? success_count)%Z;
          BatchResult.task_id := task_id;
          BatchResult.device_id := device_id;
          BatchResult.task_output_dir := task_output_dir;
          BatchResult.total_files := length input_paths;
          BatchResult.success_count := success_count;
          BatchResult.failed_count := failed_count;
          BatchResult.frame_paths := all_frame_paths |}).
End pipeline.
End OptimizedPipeline.

(** ** The concurrent variant: more methods of [AsyncFrameExtractor] *)
Module AsyncPipeline.
Import AsyncFrameExtractorConfig AsyncFrameExtractor.

Definition DEFAULT_QUALITY : Z := 95.
Definition COMPARE_FRAME_SIZE : nat * nat := (160, 90)%nat.
Definition MEMORY_CHECK_INTERVAL : Z := 100.
Definition MAX_MEMORY_USAGE_PERCENT : Q := 80.

Section pipeline.
Context `{ImageOps Frame Hist} `{ImageIO Frame}.

(** What [psutil.virtual_memory().percent] answers when it is asked after
    [frame_count] frames have been read, [None] when the query raises. *)
Variable virtual_memory_percent : Z → option Q.

Definition resize_frame (frame : Frame) (max_resolution : option (Z * Z))
    : outcome Frame :=
  match max_resolution with
  | None => Returns frame
  | Some (max_width, max_height) =>
      let '(height, width, _) := shape frame in
      outcome_bind (py_truediv (inject_Z max_width) (inject_Z (Z.of_nat width)))
        (λ ratio_width,
      outcome_bind (py_truediv (inject_Z max_height)
                      (inject_Z (Z.of_nat height)))
        (λ ratio_height,
      let scale := py_min (py_min ratio_width ratio_height) 1.0 in
      if Qlt_bool scale 1.0 then
        let new_width := py_int (inject_Z (Z.of_nat width) * scale) in
        let new_height := py_int (inject_Z (Z.of_nat height) * scale) in
        if (new_width <=? 0)%Z || (new_height <=? 0)%Z then Raises Cv2Error
        else Returns (resize_INTER_AREA frame (new_width, new_height))
      else Returns frame))
  end.

(** The [while True] loop of [_extract_frames_sync], on the frames that
    remain to be read (the progress bookkeeping changes nothing that is
    returned).  At the end of a turn that does not leave the loop, every
    [MEMORY_CHECK_INTERVAL] frames, the memory usage is queried outside any
    [try ... except]: when the query raises, so does the loop; when it
    answers, at most [gc.collect()] is called. *)
Fixpoint decode_loop (video_path output_dir : string) (fps : Q)
    (frame_interval : Z) (quality : Z) (max_resolution : option (Z * Z))
    (sharpness_threshold similarity_threshold : Q) (scene_sensitivity : string)
    (max_base_frames : Z)
    (frames : list Frame) (frame_count : Z) (extracted_count : nat)
    (previous_frame : option Frame) (frame_paths : list FrameRecord) (fs : FS)
    : FS * outcome (list FrameRecord) :=
  match frames with
  | [] => (fs, Returns frame_paths)
  | frame :: rest =>
      let continue extracted_count previous_frame frame_paths fs :=
        let next :=
          decode_loop video_path output_dir fps frame_interval quality
            max_resolution sharpness_threshold similarity_threshold
            scene_sensitivity max_base_frames
            rest (frame_count + 1)%Z extracted_count previous_frame
            frame_paths fs in
        if ((frame_count + 1) mod MEMORY_CHECK_INTERVAL =? 0)%Z then
          match virtual_memory_percent (frame_count + 1)%Z with
          | None => (fs, Raises PsutilError)
          | Some memory_percent =>
              (* gc.collect() *)
              if Qlt_bool MAX_MEMORY_USAGE_PERCENT memory_percent then next
              else next
          end
        else next in
      match py_mod frame_count frame_interval with
      | Raises e => (fs, Raises e)
      | Returns remainder =>
          if (remainder =? 0)%Z then
            match resize_frame frame max_resolution with
            | Raises e => (fs, Raises e)
            | Returns processed_frame =>
                let quality_metrics := calculate_frame_quality processed_frame in
                let should_keep :=
                  _should_keep_frame processed_frame previous_frame
                    quality_metrics sharpness_threshold similarity_threshold
                    scene_sensitivity in
                if should_keep then
                  match py_truediv (inject_Z frame_count) fps with
                  | Raises e => (fs, Raises e)
                  | Returns timestamp =>
                      let filename :=
                        "frame_" +:+ format_04d extracted_count +:+ "_"
                        +:+ format_fixed 2 timestamp +:+ "s.jpg" in
                      let filepath := os_path_join output_dir filename in
                      let '(written, fs) :=
                        cv2_imwrite filepath processed_frame quality fs in
                      if written then
                        let frame_info :=
                          {| path := filepath;
                             filename := filename;
                             frame_number := frame_count;
                             timestamp := timestamp;
                             extracted_index := extracted_count;
                             quality_metrics := quality_metrics;
                             source_type := "video";
                             source_file := os_path_basename video_path |} in
                        let frame_paths := frame_paths ++ [frame_info] in
                        let previous_frame :=
                          Some (resize processed_frame COMPARE_FRAME_SIZE) in
                        let extracted_count := S extracted_count in
                        if (max_base_frames <=? Z.of_nat extracted_count)%Z
                        then (fs, Returns frame_paths)
                        else continue extracted_count previous_frame
                               frame_paths fs
                      else continue extracted_count previous_frame
                             frame_paths fs
                  end
                else continue extracted_count previous_frame frame_paths fs
            end
          else continue extracted_count previous_frame frame_paths fs
      end
  end.

End pipeline.

(** [range(0, stop, step)] *)
Definition py_range_step (stop step : Z) : outcome (list Z) :=
  if (step =? 0)%Z then Raises ValueError
  else if (0 <? step)%Z
  then Returns ((λ k, k * step)%Z <$> seqZ 0 ((stop + step - 1) / step))
  else Returns ((λ k, k * step)%Z <$> seqZ 0 ((stop + step + 1) / step)).

(** The batches of [process_multiple_files_async]:
    [input_paths[i:i + batch_size]] for [i] in
    [range(0, len(input_paths), batch_size)]. *)
Definition batches (batch_size : Z) (input_paths : list string)
    : outcome (list (list string)) :=
  outcome_bind (py_range_step (Z.of_nat (length input_paths)) batch_size)
    (λ starts,
       Returns ((λ i, take (Z.to_nat batch_size) (drop (Z.to_nat i) input_paths))
                <$> starts)).

(** The handling of one gathered [(file_path, result)] pair: the cumulative
    list and the two counters afterwards. *)
Definition collect_result (state : list FrameRecord * Z * Z)
    (item : string * file_result) : list FrameRecord * Z * Z :=
  let '(all_frame_paths, success_count, failed_count) := state in
  let '(file_path, result) := item in
  match result with
  | Failure _ => (all_frame_paths, success_count, (failed_count + 1)%Z)
  | VideoFrames _ frame_paths _ =>
      (all_frame_paths ++ frame_paths, (success_count + 1)%Z, failed_count)
  | ImageOutput output_path output_filename quality_metrics =>
      let frame_info :=
        {| path := output_path;
           filename := output_filename;
           frame_number := 0;
           timestamp := 0.0;
           extracted_index := length all_frame_paths;
           quality_metrics := quality_metrics;
           source_type := "image";
           source_file := os_path_basename file_path |} in
      (all_frame_paths ++ [frame_info], (success_count + 1)%Z, failed_count)
  end.
End AsyncPipeline.

(** ** Sample inputs

    Files for the summary frames of [SummaryFrames]: every write succeeds
    and an area resize keeps the statistics. *)
Module SampleInputs.
Import SummaryFrames.

#[global] Instance io : ImageIO frame := {|
  resize_INTER_AREA := λ f _, f;
  imwrite_ok := λ _ _ _, true
|}.

Definition flat (mean : Q) : frame :=
  {| mean_intensity := mean; std_intensity := 30; laplacian_variance := 400 |}.

(** A clip of eight frames at 4 fps whose container reports 8 frames. *)
Definition clip : VideoCapture frame :=
  {| CAP_PROP_FRAME_COUNT := 8; CAP_PROP_FPS := 4;
     CAP_PROP_FRAME_WIDTH := 160; CAP_PROP_FRAME_HEIGHT := 90;
     read_frames := [flat 10; flat 11; flat 25; flat 26; flat 40; flat 41;
                     flat 55; flat 56] |}.

(** A video of a single frame. *)
Definition still : VideoCapture frame :=
  {| CAP_PROP_FRAME_COUNT := 1; CAP_PROP_FPS := 30;
     CAP_PROP_FRAME_WIDTH := 160; CAP_PROP_FRAME_HEIGHT := 90;
     read_frames := [flat 10] |}.

Definition inputs : gmap string (InputFile frame) :=
  {[ "in/clip.mp4" := {| getsize := 1048576; capture := Some clip;
                         imread := None |};
     "in/still.MP4" := {| getsize := 2048; capture := Some still;
                          imread := None |};
     "in/photo.png" := {| getsize := 4096; capture := None;
                          imread := Some dark_sharp |};
     "in/broken.avi" := {| getsize := 10; capture := None; imread := None |};
     "in/notes.txt" := {| getsize := 10; capture := None; imread := None |} ]}.

Definition no_kwargs : Kwargs.t :=
  {| Kwargs.quality := None; Kwargs.max_resolution := None;
     Kwargs.sharpness_threshold := None; Kwargs.similarity_threshold := None;
     Kwargs.scene_sensitivity := None; Kwargs.max_base_frames := None |}.

Definition empty_disk : FS := {| files := ∅; trace := [] |}.
End SampleInputs.

(** ** Sample frames with a size

    Frames known by their size only; a resize gives the size asked for. *)
Module Canvas.
Record frame : Type := { height : nat; width : nat }.

#[global] Instance ops : ImageOps frame unit := {|
  shape := λ f, (height f, width f, Some 3%nat);
  cvtColor_BGR2GRAY := λ f, f;
  resize := λ _ size, {| height := size.2; width := size.1 |};
  Laplacian_var := λ _, 0%Q;
  np_mean := λ _, 0%Q;
  np_std := λ _, 0%Q;
  absdiff := λ f _, f;
  calcHist := λ _, tt;
  compareHist_CHISQR := λ _ _, 0%Q
|}.

#[global] Instance io : ImageIO frame := {|
  resize_INTER_AREA := λ _ size,
    {| height := Z.to_nat size.2; width := Z.to_nat size.1 |};
  imwrite_ok := λ _ _ _, true
|}.
End Canvas.

(** ** Sample faults

    A file system whose names hold at most 255 characters: [os.rename] to a
    longer name raises (ENAMETOOLONG); nothing else is refused. *)
Module SampleFaults.
Definition names_up_to_255 : OSErrors :=
  {| remove_raises := λ _ _, false;
     rename_raises := λ _ dst _,
       bool_decide (255 < String.length (os_path_basename dst)) |}.

(** The stem of a video name of 244 characters. *)
Definition long_stem : string := String.concat "" (replicate 240 "v").

(** The first frame of that video, as the decoding loop records it. *)
Definition long_video : FrameRecord :=
  {| path := os_path_join Samples.output_dir "frame_0000_0.00s.jpg";
     filename := "frame_0000_0.00s.jpg";
     frame_number := 0;
     timestamp := 0.0;
     extracted_index := 0;
     quality_metrics := {| sharpness := 8; brightness := 128;
                           contrast := 0; quality_score := 4 |};
     source_type := "video";
     source_file := long_stem +:+ ".mp4" |}.

(** Two images, the frame of the video and an image whose file is gone. *)
Definition appended : list FrameRecord :=
  [Samples.image_record "a" 0 1; Samples.image_record "b" 1 2; long_video;
   Samples.image_record "d" 3 3].

Definition disk : FS :=
  {| files := {[ "out/task/image_a.jpg"; "out/task/image_b.jpg";
                 "out/task/frame_0000_0.00s.jpg" ]};
     trace := [] |}.
End SampleFaults.

(** ** The shape of the records of one video

    The record that the decoding loop builds for the frame numbered
    [frame_count] when [extracted_count] frames were kept before it. *)
Definition video_frame_record (output_dir video_path : string) (fps : Q)
    (frame_count : Z) (extracted_count : nat) (r : FrameRecord) : Prop :=
  frame_number r = frame_count ∧
  extracted_index r = extracted_count ∧
  timestamp r = (inject_Z frame_count / fps)%Q ∧
  filename r = "frame_" +:+ format_04d extracted_count +:+ "_"
               +:+ format_fixed 2 (timestamp r) +:+ "s.jpg" ∧
  path r = os_path_join output_dir (filename r) ∧
  source_type r = "video" ∧
  source_file r = os_path_basename video_path.

(** * Properties *)

(** ** Truncation and comparison lemmas *)

Lemma py_int_scale (n a : Z) (b : positive) :
  py_int (inject_Z n * (a # b)) = Z.quot (n * a) (Z.pos b).
Proof. reflexivity. Qed.

Lemma Qlt_bool_true (x y : Q) : Qlt_bool x y = true ↔ (x < y)%Q.
Proof.
  unfold Qlt_bool. rewrite negb_true_iff.
  split.
  - intros Hle. apply Qnot_le_lt. rewrite <- Qle_bool_iff. congruence.
  - intros Hlt. apply not_true_is_false. rewrite Qle_bool_iff.
    apply Qlt_not_le, Hlt.
Qed.

Lemma Qlt_bool_false (x y : Q) : Qlt_bool x y = false ↔ (y <= x)%Q.
Proof.
  unfold Qlt_bool. rewrite negb_false_iff. apply Qle_bool_iff.
Qed.

Lemma Qlt_bool_spec (x y : Q) : BoolSpec (x < y)%Q (y <= x)%Q (Qlt_bool x y).
Proof.
  destruct (Qlt_bool x y) eqn:E; constructor.
  - apply Qlt_bool_true, E.
  - apply Qlt_bool_false, E.
Qed.

Lemma Qle_bool_spec (x y : Q) : BoolSpec (x <= y)%Q (y < x)%Q (Qle_bool x y).
Proof.
  destruct (Qle_bool x y) eqn:E; constructor.
  - apply Qle_bool_iff, E.
  - apply Qnot_le_lt. rewrite <- Qle_bool_iff. congruence.
Qed.

(** Division by a float literal, as a multiplication, for [lra]. *)
Ltac divide_by_literals :=
  unfold Qdiv in *;
  repeat match goal with
    | |- context [Qinv (?a # ?b)] =>
        let v := eval cbv in (Qinv (a # b)) in
        change (Qinv (a # b)) with v in *
    | _ : context [Qinv (?a # ?b)] |- _ =>
        let v := eval cbv in (Qinv (a # b)) in
        change (Qinv (a # b)) with v in *
    end.

Lemma py_min_compat (x x' y y' : Q) :
  (x == x')%Q → (y == y')%Q → (py_min x y == py_min x' y')%Q.
Proof.
  intros Hx Hy. unfold py_min.
  destruct (Qlt_bool_spec y x); destruct (Qlt_bool_spec y' x'); lra.
Qed.

(** ** The sampling planner *)

Section planner.
Import AsyncFrameExtractor AsyncFrameExtractorConfig.

(** The frame-rate correction keeps a base count of at least five at four
    or more, and at five or more unless the low-rate factor applies. *)
Lemma corrected_lower_bound (fps : Q) (base : Z) :
  (5 ≤ base)%Z →
  let fps_factor :=
    if Qlt_bool fps FPS_LOW then FPS_FACTOR_LOW
    else if Qlt_bool FPS_HIGH fps then FPS_FACTOR_HIGH
    else if Qlt_bool FPS_STANDARD fps then FPS_FACTOR_STANDARD_HIGH
    else 1.0%Q in
  (4 ≤ py_int (inject_Z base * fps_factor))%Z ∧
  ((15 <= fps)%Q → (5 ≤ py_int (inject_Z base * fps_factor))%Z).
Proof.
  intros Hbase fps_factor. subst fps_factor.
  unfold FPS_FACTOR_LOW, FPS_FACTOR_HIGH, FPS_FACTOR_STANDARD_HIGH.
  destruct (Qlt_bool fps FPS_LOW) eqn:Hlow.
  - apply Qlt_bool_true in Hlow. unfold FPS_LOW in Hlow.
    rewrite py_int_scale, Z.quot_div_nonneg by lia.
    split; [apply Z.div_le_lower_bound; lia | intros Hfps; lra].
  - destruct (Qlt_bool FPS_HIGH fps); [|destruct (Qlt_bool FPS_STANDARD fps)];
      rewrite py_int_scale, Z.quot_div_nonneg by lia;
      (split; [|intros _]); apply Z.div_le_lower_bound; lia.
Qed.

(** [int(total_frames * 0.5)] is half the frame count, rounded down. *)
Lemma half_frames (total_frames : Z) :
  (0 ≤ total_frames)%Z →
  py_int (inject_Z total_frames * MAX_FRAME_PERCENTAGE) = (total_frames / 2)%Z.
Proof.
  intros Ht. unfold MAX_FRAME_PERCENTAGE. rewrite py_int_scale, Z.quot_div_nonneg by lia.
  change (Z.pos 10) with (5 * 2)%Z.
  rewrite Z.mul_comm, Z.div_mul_cancel_l by lia. reflexivity.
Qed.
End planner.

(** C1 (as amended). For duration > 0, fps > 0 and at least two frames the
    planner returns a plan with
    min(4, total_frames // 2) <= optimal_frames <= total_frames * 0.5 and
    frame_interval >= 1; the lower bound 5 <= optimal_frames holds when
    fps >= 15 and total_frames >= 10. *)
Theorem planner_bounds (duration fps : Q) (total_frames : Z) :
  (0 < duration)%Q → (0 < fps)%Q → (2 ≤ total_frames)%Z →
  ∃ plan,
    AsyncFrameExtractor.calculate_optimal_frame_count duration fps total_frames
      = Ok plan ∧
    (Z.min 4 (total_frames / 2) ≤ optimal_frames plan)%Z ∧
    (inject_Z (optimal_frames plan) <= inject_Z total_frames * 0.5)%Q ∧
    (1 ≤ frame_interval plan)%Z ∧
    ((15 <= fps)%Q → (10 ≤ total_frames)%Z → (5 ≤ optimal_frames plan)%Z).
Proof.
  intros Hd Hf Ht. unfold AsyncFrameExtractor.calculate_optimal_frame_count.
  match goal with
  | |- context [let '(a, b) := ?X in _] => destruct X as [interval label]
  end.
  set (base := Z.max _ _).
  assert (5 ≤ base)%Z as Hbase
    by (unfold base, AsyncFrameExtractorConfig.MIN_FRAME_COUNT; lia).
  clearbody base.
  destruct (corrected_lower_bound fps base Hbase) as [Hc4 Hc5].
  cbv zeta in Hc4, Hc5. rewrite half_frames by lia.
  set (corrected := py_int (inject_Z base * _)) in *.
  assert (1 ≤ total_frames / 2)%Z as Hhalf
    by (apply Z.div_le_lower_bound; lia).
  assert (2 * (total_frames / 2) ≤ total_frames)%Z as Hdouble
    by (apply Z.mul_div_le; lia).
  set (optimal := Z.min corrected _).
  assert (1 ≤ optimal)%Z as Hpos by (unfold optimal; lia).
  unfold py_floordiv. destruct (Z.eqb_spec optimal 0) as [Hz|_]; [lia|].
  eexists. split; [reflexivity|]. cbn [optimal_frames frame_interval].
  repeat split.
  - unfold optimal. lia.
  - unfold Qle. cbn. unfold optimal. lia.
  - lia.
  - intros Hfps Hten. specialize (Hc5 Hfps).
    assert (5 ≤ total_frames / 2)%Z by (apply Z.div_le_lower_bound; lia).
    unfold optimal. lia.
Qed.

Lemma planner_bounds_witness :
  ∃ plan,
    AsyncFrameExtractor.calculate_optimal_frame_count 2 30 60 = Ok plan ∧
    (Z.min 4 (60 / 2) ≤ optimal_frames plan)%Z ∧
    (inject_Z (optimal_frames plan) <= inject_Z 60 * 0.5)%Q ∧
    (1 ≤ frame_interval plan)%Z ∧
    ((15 <= 30)%Q → (10 ≤ 60)%Z → (5 ≤ optimal_frames plan)%Z).
Proof.
  apply (planner_bounds 2 30 60); [reflexivity | reflexivity | lia].
Defined.

(** C1 (as stated) fails: a 0.2 s clip of 6 frames at 30 fps is a valid
    input, and the cap of half the frames leaves 3 frames, fewer than 5. *)
Lemma planner_five_frames_counterexample :
  (0 < 0.2)%Q ∧ (0 < 30)%Q ∧ (0 < 6)%Z ∧
  ∃ plan,
    AsyncFrameExtractor.calculate_optimal_frame_count 0.2 30 6 = Ok plan ∧
    optimal_frames plan = 3%Z ∧
    ¬ (5 ≤ optimal_frames plan)%Z.
Proof.
  repeat split; try reflexivity.
  eexists. split; [vm_compute; reflexivity|].
  split; [reflexivity | cbn; lia].
Qed.

(** With a single frame the cap is [min(1, int(0.5)) = 0], whatever the
    duration and the frame rate, and the floor division raises. *)
Lemma planner_one_frame_raises (duration fps : Q) :
  AsyncFrameExtractor.calculate_optimal_frame_count duration fps 1
  = Raise ZeroDivisionError.
Proof.
  unfold AsyncFrameExtractor.calculate_optimal_frame_count.
  match goal with
  | |- context [let '(a, b) := ?X in _] => destruct X as [interval label]
  end.
  set (base := Z.max _ _).
  assert (5 ≤ base)%Z as Hbase
    by (unfold base, AsyncFrameExtractorConfig.MIN_FRAME_COUNT; lia).
  clearbody base.
  destruct (corrected_lower_bound fps base Hbase) as [Hc4 _].
  cbv zeta in Hc4. set (corrected := py_int (inject_Z base * _)) in *.
  change (py_int (inject_Z 1 * AsyncFrameExtractorConfig.MAX_FRAME_PERCENTAGE))
    with 0%Z.
  replace (Z.min corrected (Z.min 1 0)) with 0%Z by lia.
  reflexivity.
Qed.

(** C2. The code at a valid one-frame video (duration 1/30 s, 30 fps):
    [optimal_frames] is 0 and [total_frames // optimal_frames] raises
    [ZeroDivisionError] instead of returning a plan. *)
Theorem planner_single_frame_video_raises :
  AsyncFrameExtractor.calculate_optimal_frame_count (1 # 30) 30 1
  = Raise ZeroDivisionError.
Proof. vm_compute. reflexivity. Qed.

(** ** The quality score *)

(** C7. The quality score is 0.5 * sharpness + 0.3 * contrast +
    0.2 * min(brightness / 128, 1.0); between two frames of equal brightness
    it grows strictly with the sharpness at equal contrast, and strictly with
    the contrast at equal sharpness. *)
Theorem quality_score_weighted_monotone `{ImageOps Frame Hist}
    (frame1 frame2 : Frame) :
  let m1 := AsyncFrameExtractor.calculate_frame_quality frame1 in
  let m2 := AsyncFrameExtractor.calculate_frame_quality frame2 in
  (quality_score m1 ==
     0.5 * sharpness m1 + 0.3 * contrast m1
     + 0.2 * py_min (brightness m1 / 128) 1)%Q ∧
  ((brightness m1 == brightness m2)%Q → (contrast m1 == contrast m2)%Q →
   (sharpness m1 < sharpness m2)%Q → (quality_score m1 < quality_score m2)%Q) ∧
  ((brightness m1 == brightness m2)%Q → (sharpness m1 == sharpness m2)%Q →
   (contrast m1 < contrast m2)%Q → (quality_score m1 < quality_score m2)%Q).
Proof.
  intros m1 m2. subst m1 m2.
  unfold AsyncFrameExtractor.calculate_frame_quality.
  cbn [quality_score sharpness contrast brightness].
  unfold AsyncFrameExtractorConfig.QUALITY_WEIGHT_SHARPNESS,
    AsyncFrameExtractorConfig.QUALITY_WEIGHT_CONTRAST,
    AsyncFrameExtractorConfig.QUALITY_WEIGHT_BRIGHTNESS.
  set (g1 := if is_3d frame1 then _ else _).
  set (g2 := if is_3d frame2 then _ else _).
  split; [|split].
  - assert (py_min (np_mean g1 / 128.0) 1.0 == py_min (np_mean g1 / 128) 1)%Q
      as Hmin by (apply py_min_compat; divide_by_literals; lra).
    lra.
  - intros Hb Hc Hs.
    assert (py_min (np_mean g1 / 128.0) 1.0
            == py_min (np_mean g2 / 128.0) 1.0)%Q
      as Hmin by (apply py_min_compat; divide_by_literals; lra).
    lra.
  - intros Hb Hs Hc.
    assert (py_min (np_mean g1 / 128.0) 1.0
            == py_min (np_mean g2 / 128.0) 1.0)%Q
      as Hmin by (apply py_min_compat; divide_by_literals; lra).
    lra.
Qed.

Lemma quality_score_weighted_monotone_witness :
  (quality_score (AsyncFrameExtractor.calculate_frame_quality
                    SummaryFrames.dark_blurred)
   < quality_score (AsyncFrameExtractor.calculate_frame_quality
                      SummaryFrames.dark_sharp))%Q ∧
  (quality_score (AsyncFrameExtractor.calculate_frame_quality
                    SummaryFrames.dark_flat)
   < quality_score (AsyncFrameExtractor.calculate_frame_quality
                      SummaryFrames.dark_blurred))%Q.
Proof.
  split.
  - apply (proj1 (proj2 (quality_score_weighted_monotone
                            SummaryFrames.dark_blurred SummaryFrames.dark_sharp)));
      reflexivity.
  - apply (proj2 (proj2 (quality_score_weighted_monotone
                            SummaryFrames.dark_flat SummaryFrames.dark_blurred)));
      reflexivity.
Defined.

(** ** The scene-change detector and the retention gate *)

Section scene.
Import AsyncFrameExtractorConfig.

Lemma scene_thresholds_unknown (sensitivity : string) :
  sensitivity ∉ ["low"; "medium"; "high"; "ultra"] →
  SCENE_THRESHOLDS !! sensitivity = None.
Proof.
  intros Hnot. unfold SCENE_THRESHOLDS.
  rewrite !lookup_insert_ne, lookup_singleton_ne; [done|..];
    intros <-; apply Hnot; set_solver.
Qed.

Lemma intensity_thresholds_unknown (sensitivity : string) :
  sensitivity ∉ ["low"; "medium"; "high"; "ultra"] →
  INTENSITY_THRESHOLDS !! sensitivity = None.
Proof.
  intros Hnot. unfold INTENSITY_THRESHOLDS.
  rewrite !lookup_insert_ne, lookup_singleton_ne; [done|..];
    intros <-; apply Hnot; set_solver.
Qed.
End scene.

(** C6. For each of the four sensitivity keys and every pair of frames,
    the detector measures pixel_diff, the mean absolute difference of the two
    gray images (the second resized to the shape of the first when the shapes
    differ), and hist_diff, the chi-square distance of their 256-bin
    histograms.  It reports a scene change exactly when pixel_diff exceeds
    the key's pixel threshold or hist_diff exceeds its histogram threshold,
    and the intensity 0.6 * (pixel_diff / pixel_threshold) +
    0.4 * (hist_diff / histogram_threshold).  For "high" the pixel threshold
    is 15, so a pixel difference of 20 is a scene change whatever the
    histogram difference. *)
Theorem detect_scene_change_rule `{ImageOps Frame Hist}
    (frame1 frame2 : Frame) (sensitivity : string) :
  sensitivity ∈ ["low"; "medium"; "high"; "ultra"] →
  let gray1 := if is_3d frame1 then cvtColor_BGR2GRAY frame1 else frame1 in
  let gray2 := if is_3d frame2 then cvtColor_BGR2GRAY frame2 else frame2 in
  let gray2 :=
    if bool_decide (shape gray1 ≠ shape gray2)
    then resize gray2 ((shape gray1).1.2, (shape gray1).1.1)
    else gray2 in
  let pixel_diff := np_mean (absdiff gray1 gray2) in
  let hist_diff := compareHist_CHISQR (calcHist gray1) (calcHist gray2) in
  let r := AsyncFrameExtractor.detect_scene_change frame1 frame2 sensitivity in
  ∃ thresholds,
    AsyncFrameExtractorConfig.SCENE_THRESHOLDS !! sensitivity = Some thresholds ∧
    (pixel_threshold thresholds, histogram_threshold thresholds)
    ∈ [(40.0, 1000.0); (25.0, 500.0); (15.0, 200.0); (10.0, 100.0)]%Q ∧
    pixel_difference r = pixel_diff ∧
    histogram_difference r = hist_diff ∧
    (is_scene_change r = true ↔
       (pixel_threshold thresholds < pixel_diff)%Q ∨
       (histogram_threshold thresholds < hist_diff)%Q) ∧
    (change_intensity r ==
       0.6 * (pixel_diff / pixel_threshold thresholds)
       + 0.4 * (hist_diff / histogram_threshold thresholds))%Q ∧
    (sensitivity = "high" →
       (pixel_threshold thresholds == 15)%Q ∧
       (histogram_threshold thresholds == 200)%Q ∧
       ((pixel_diff == 20)%Q →
        (hist_diff < histogram_threshold thresholds)%Q →
        is_scene_change r = true)).
Proof.
  intros Hkey gray1 gray2 gray2' pixel_diff hist_diff r.
  assert (∃ thresholds,
            AsyncFrameExtractorConfig.SCENE_THRESHOLDS !! sensitivity
            = Some thresholds ∧
            (pixel_threshold thresholds, histogram_threshold thresholds)
            ∈ [(40.0, 1000.0); (25.0, 500.0); (15.0, 200.0);
               (10.0, 100.0)]%Q ∧
            (sensitivity = "high" →
             pixel_threshold thresholds = 15.0%Q ∧
             histogram_threshold thresholds = 200.0%Q))
    as (thresholds & Hlookup & Hrow & Hhigh).
  { repeat (apply elem_of_cons in Hkey as [->|Hkey]);
      [eexists; split; [reflexivity|];
       (split; [cbn; repeat first [apply list_elem_of_here
                                  | apply list_elem_of_further]|]);
       intros Heq; try discriminate Heq; split; reflexivity ..|].
    apply elem_of_nil in Hkey. destruct Hkey. }
  exists thresholds. split; [exact Hlookup|]. split; [exact Hrow|].
  subst r. unfold AsyncFrameExtractor.detect_scene_change.
  rewrite Hlookup.
  cbn [from_option id is_scene_change change_intensity pixel_difference
       histogram_difference].
  fold gray1 gray2 gray2' pixel_diff hist_diff.
  split; [reflexivity|]. split; [reflexivity|].
  assert (Qlt_bool (pixel_threshold thresholds) pixel_diff
          || Qlt_bool (histogram_threshold thresholds) hist_diff = true
          ↔ (pixel_threshold thresholds < pixel_diff)%Q
            ∨ (histogram_threshold thresholds < hist_diff)%Q) as Hiff.
  { rewrite orb_true_iff, !Qlt_bool_true. reflexivity. }
  split; [exact Hiff|]. split; [unfold Qdiv; ring|].
  intros ->. destruct (Hhigh eq_refl) as [Hp Hh]. rewrite Hp, Hh in *.
  split; [reflexivity|]. split; [reflexivity|].
  intros Hpd _. apply Hiff. left. rewrite Hpd. reflexivity.
Qed.

Lemma detect_scene_change_rule_witness :
  "high" ∈ ["low"; "medium"; "high"; "ultra"] ∧
  is_scene_change
    (AsyncFrameExtractor.detect_scene_change
       SummaryFrames.dark_sharp SummaryFrames.brighter "high") = true ∧
  (change_intensity
     (AsyncFrameExtractor.detect_scene_change
        SummaryFrames.dark_sharp SummaryFrames.brighter "high")
   == 0.6 * (20 / 15) + 0.4 * (1 / 200))%Q ∧
  is_scene_change
    (AsyncFrameExtractor.detect_scene_change
       SummaryFrames.dark_sharp SummaryFrames.dark_blurred "high") ≠ true.
Proof.
  assert ("high" ∈ ["low"; "medium"; "high"; "ultra"]) as Hkey
    by (do 2 right; left).
  split; [exact Hkey|].
  destruct (detect_scene_change_rule
              SummaryFrames.dark_sharp SummaryFrames.brighter "high" Hkey)
    as (thresholds & _ & _ & _ & _ & _ & Hintensity & Hhigh).
  destruct (Hhigh eq_refl) as (Hpixel & Hhist & Hscene).
  split; [apply Hscene; [reflexivity | rewrite Hhist; reflexivity]|].
  split.
  { rewrite Hintensity, Hpixel, Hhist. reflexivity. }
  destruct (detect_scene_change_rule
              SummaryFrames.dark_sharp SummaryFrames.dark_blurred "high" Hkey)
    as (thresholds' & _ & _ & _ & _ & Hiff & _ & Hhigh').
  destruct (Hhigh' eq_refl) as (Hpixel' & Hhist' & _).
  intros Hchange. apply Hiff in Hchange.
  rewrite Hpixel', Hhist' in Hchange.
  destruct Hchange as [Hlt|Hlt]; vm_compute in Hlt; discriminate Hlt.
Defined.

(** C10. A sensitivity string outside the four keys is treated as "high":
    the detector falls back to the "high" thresholds and answers as it
    does for "high", and the gate compares the intensity of a scene change
    with the default 40.0, which is the "high" entry of the table.  So after
    a retained frame the gate keeps a frame exactly when it is sharp enough
    and either the detector, with the "high" thresholds, reports a scene
    change of intensity at least 40.0, or it reports none and the pixel
    difference is at least the similarity threshold: the answer it gives
    for "high". *)
Theorem unknown_sensitivity_is_high `{ImageOps Frame Hist}
    (frame previous_frame : Frame) (previous : option Frame)
    (quality_metrics : QualityMetrics)
    (sharpness_threshold similarity_threshold : Q) (sensitivity : string) :
  sensitivity ∉ ["low"; "medium"; "high"; "ultra"] →
  AsyncFrameExtractor.detect_scene_change previous_frame frame sensitivity
  = AsyncFrameExtractor.detect_scene_change previous_frame frame "high" ∧
  default 40.0%Q (AsyncFrameExtractorConfig.INTENSITY_THRESHOLDS !! sensitivity)
  = 40.0%Q ∧
  AsyncFrameExtractorConfig.INTENSITY_THRESHOLDS !! "high" = Some 40.0%Q ∧
  AsyncFrameExtractor._should_keep_frame frame previous quality_metrics
    sharpness_threshold similarity_threshold sensitivity
  = AsyncFrameExtractor._should_keep_frame frame previous quality_metrics
      sharpness_threshold similarity_threshold "high" ∧
  let scene :=
    AsyncFrameExtractor.detect_scene_change previous_frame frame "high" in
  (AsyncFrameExtractor._should_keep_frame frame (Some previous_frame)
     quality_metrics sharpness_threshold similarity_threshold sensitivity
   = true
   ↔ (sharpness_threshold <= sharpness quality_metrics)%Q ∧
     if is_scene_change scene then (40.0 <= change_intensity scene)%Q
     else (similarity_threshold <= pixel_difference scene)%Q).
Proof.
  intros Hnot.
  assert (∀ f1 f2 : Frame,
            AsyncFrameExtractor.detect_scene_change f1 f2 sensitivity
            = AsyncFrameExtractor.detect_scene_change f1 f2 "high") as Hdetect.
  { intros f1 f2. unfold AsyncFrameExtractor.detect_scene_change.
    rewrite (scene_thresholds_unknown sensitivity Hnot). reflexivity. }
  split; [apply Hdetect|].
  split; [rewrite (intensity_thresholds_unknown sensitivity Hnot); reflexivity|].
  split; [reflexivity|].
  split.
  { unfold AsyncFrameExtractor._should_keep_frame.
    destruct previous as [prev|]; [|reflexivity].
    rewrite Hdetect, (intensity_thresholds_unknown sensitivity Hnot).
    reflexivity. }
  intros scene. unfold AsyncFrameExtractor._should_keep_frame.
  rewrite Hdetect, (intensity_thresholds_unknown sensitivity Hnot).
  fold scene. cbn [from_option id].
  destruct (Qlt_bool_spec (sharpness quality_metrics) sharpness_threshold)
    as [Hblur|Hsharp].
  { split; [discriminate|]. intros [Hs _]. exfalso. lra. }
  destruct (is_scene_change scene); rewrite Qle_bool_iff;
    (split; [intros Hkeep; split; [exact Hsharp | exact Hkeep]
            | intros [_ Hkeep]; exact Hkeep]).
Qed.

Lemma unknown_sensitivity_is_high_witness :
  ("extreme" ∉ ["low"; "medium"; "high"; "ultra"]) ∧
  AsyncFrameExtractor._should_keep_frame SummaryFrames.brighter
    (Some SummaryFrames.dark_sharp)
    (AsyncFrameExtractor.calculate_frame_quality SummaryFrames.brighter)
    100 15 "extreme" ≠ true ∧
  AsyncFrameExtractor._should_keep_frame SummaryFrames.brighter
    (Some SummaryFrames.dark_sharp)
    (AsyncFrameExtractor.calculate_frame_quality SummaryFrames.brighter)
    100 15 "extreme"
  = AsyncFrameExtractor._should_keep_frame SummaryFrames.brighter
      (Some SummaryFrames.dark_sharp)
      (AsyncFrameExtractor.calculate_frame_quality SummaryFrames.brighter)
      100 15 "high" ∧
  AsyncFrameExtractor._should_keep_frame SummaryFrames.dark_sharp
    (Some SummaryFrames.dark_blurred)
    (AsyncFrameExtractor.calculate_frame_quality SummaryFrames.dark_sharp)
    100 0 "extreme" = true.
Proof.
  assert ("extreme" ∉ ["low"; "medium"; "high"; "ultra"]) as Hnot.
  { intros Hin. repeat (apply elem_of_cons in Hin as [Heq|Hin];
                        [discriminate Heq|]).
    apply elem_of_nil in Hin. exact Hin. }
  split; [exact Hnot|].
  destruct (unknown_sensitivity_is_high SummaryFrames.brighter
              SummaryFrames.dark_sharp (Some SummaryFrames.dark_sharp)
              (AsyncFrameExtractor.calculate_frame_quality
                 SummaryFrames.brighter) 100 15 "extreme" Hnot)
    as (_ & _ & _ & Hsame & Hgate).
  split.
  { intros Hkeep. apply Hgate in Hkeep as [_ Hintensity].
    vm_compute in Hintensity. apply Hintensity. reflexivity. }
  split; [exact Hsame|].
  apply (proj2 (proj2 (proj2 (proj2
           (unknown_sensitivity_is_high SummaryFrames.dark_sharp
              SummaryFrames.dark_blurred (Some SummaryFrames.dark_blurred)
              (AsyncFrameExtractor.calculate_frame_quality
                 SummaryFrames.dark_sharp) 100 0 "extreme" Hnot))))).
  split; vm_compute; discriminate.
Defined.

(** ** The two variants *)

(** C9. The sequential variant computes the same sampling plan, the same
    quality metrics and the same scene-change result as the concurrent one,
    from equal threshold tables. *)
Theorem variants_agree `{ImageOps Frame Hist} :
  (∀ duration fps total_frames,
     OptimizedFrameExtractor.calculate_optimal_frame_count
       duration fps total_frames
     = AsyncFrameExtractor.calculate_optimal_frame_count
         duration fps total_frames) ∧
  (∀ frame : Frame,
     OptimizedFrameExtractor.calculate_frame_quality frame
     = AsyncFrameExtractor.calculate_frame_quality frame) ∧
  (∀ (frame1 frame2 : Frame) sensitivity,
     OptimizedFrameExtractor.detect_scene_change frame1 frame2 sensitivity
     = AsyncFrameExtractor.detect_scene_change frame1 frame2 sensitivity) ∧
  FrameExtractorConfig.SCENE_THRESHOLDS
  = AsyncFrameExtractorConfig.SCENE_THRESHOLDS ∧
  FrameExtractorConfig.INTENSITY_THRESHOLDS
  = AsyncFrameExtractorConfig.INTENSITY_THRESHOLDS.
Proof.
  repeat split; intros; reflexivity.
Qed.

(** ** The fallback performance profile *)

(** C5 (as amended). When a telemetry query raises (or the core count is
    missing), [get_performance_profile] returns the fixed default profile;
    its level is "medium" and its concurrency settings are the constants
    max_workers = 4, batch_size = 2, memory_buffer_mb = 512, io_workers = 1. *)
Theorem profile_falls_back_to_default
    (self : DevicePerformanceDetector.t) (psutil : Telemetry) :
  cpu_percent psutil = None ∨ virtual_memory psutil = None
  ∨ disk_usage psutil = None ∨ DevicePerformanceDetector.cpu_count self = None →
  let profile := DevicePerformanceDetector.get_performance_profile self psutil in
  profile = DevicePerformanceDetector._get_default_profile ∧
  performance_level profile = "medium" ∧
  concurrency_config profile
  = {| max_workers := 4; batch_size := 2; memory_buffer_mb := 512;
       io_workers := 1 |}.
Proof.
  intros Hraise profile.
  assert (profile = DevicePerformanceDetector._get_default_profile) as ->;
    [|repeat split].
  subst profile. unfold DevicePerformanceDetector.get_performance_profile.
  destruct self as [cores logical total available], psutil as [cpu mem disk].
  cbn in Hraise.
  destruct cpu, mem, disk, cores; try reflexivity.
  exfalso. destruct Hraise as [Hr|[Hr|[Hr|Hr]]]; discriminate Hr.
Qed.

Lemma profile_falls_back_to_default_witness :
  let self :=
    {| DevicePerformanceDetector.cpu_count := Some 8%Z;
       DevicePerformanceDetector.logical_cpu_count := Some 16%Z;
       DevicePerformanceDetector.total_memory := 17179869184;
       DevicePerformanceDetector.available_memory := 8589934592 |} in
  let psutil :=
    {| cpu_percent := None;
       virtual_memory := Some (8589934592%Z, 50.0%Q);
       disk_usage := Some 107374182400%Z |} in
  DevicePerformanceDetector.get_performance_profile self psutil
  = DevicePerformanceDetector._get_default_profile.
Proof.
  intros self psutil.
  apply (profile_falls_back_to_default self psutil). left. reflexivity.
Defined.

(** C5 (as stated) fails: on a four-core host whose CPU query raises, the
    returned profile is labelled "medium" but its concurrency settings
    (4, 2, 512, 1) are not the medium row of the table (6, 4, 1024, 2). *)
Lemma default_profile_medium_row_counterexample :
  let self :=
    {| DevicePerformanceDetector.cpu_count := Some 4%Z;
       DevicePerformanceDetector.logical_cpu_count := Some 8%Z;
       DevicePerformanceDetector.total_memory := 8589934592;
       DevicePerformanceDetector.available_memory := 4294967296 |} in
  let psutil :=
    {| cpu_percent := None; virtual_memory := None; disk_usage := None |} in
  let profile := DevicePerformanceDetector.get_performance_profile self psutil in
  let medium_row :=
    {| max_workers := Z.min (4 + 2) 8; batch_size := 4;
       memory_buffer_mb := 1024; io_workers := 2 |} in
  performance_level profile = "medium" ∧
  DevicePerformanceDetector._get_concurrency_config self "medium"
  = Some medium_row ∧
  concurrency_config profile ≠ medium_row ∧
  batch_size (concurrency_config profile) = 2%Z ∧
  memory_buffer_mb (concurrency_config profile) = 512%Z ∧
  io_workers (concurrency_config profile) = 1%Z ∧
  max_workers (concurrency_config profile) = 4%Z.
Proof.
  cbv zeta. repeat split; try reflexivity.
  intros Heq. discriminate Heq.
Qed.

(** ** Sorting by decreasing key *)

Section sort_reverse.
Context {A : Type} (key : A → Q).

Lemma insert_reverse_Permutation (x : A) (l : list A) :
  insert_reverse key x l ≡ₚ x :: l.
Proof.
  induction l as [|y l IH]; cbn; [reflexivity|].
  destruct (Qlt_bool (key x) (key y)); [|reflexivity].
  rewrite IH. apply Permutation_swap.
Qed.

Lemma sort_reverse_Permutation (l : list A) : sort_reverse key l ≡ₚ l.
Proof.
  induction l as [|x l IH]; cbn; [reflexivity|].
  rewrite insert_reverse_Permutation, IH. reflexivity.
Qed.

Lemma sort_reverse_length (l : list A) :
  length (sort_reverse key l) = length l.
Proof. apply Permutation_length, sort_reverse_Permutation. Qed.

Lemma insert_reverse_sorted (x : A) (l : list A) :
  StronglySorted (key_ge key) l → StronglySorted (key_ge key) (insert_reverse key x l).
Proof.
  induction 1 as [|y l Hsorted IH Hall]; cbn.
  - repeat constructor.
  - destruct (Qlt_bool_spec (key x) (key y)) as [Hlt|Hge].
    + constructor; [exact IH|].
      rewrite insert_reverse_Permutation. constructor; [|exact Hall].
      unfold key_ge in *. lra.
    + constructor; [constructor; assumption|].
      constructor; [exact Hge|].
      eapply Forall_impl; [exact Hall|].
      unfold key_ge in *. intros z Hz. lra.
Qed.

Lemma sort_reverse_sorted (l : list A) :
  StronglySorted (key_ge key) (sort_reverse key l).
Proof.
  induction l as [|x l IH]; cbn; [constructor|].
  apply insert_reverse_sorted, IH.
Qed.

(** The sort is stable: the elements of any one key keep their order. *)
Lemma insert_reverse_stable (q : Q) (x : A) (l : list A) :
  filter (λ y, Qeq_bool (key y) q = true) (insert_reverse key x l)
  = filter (λ y, Qeq_bool (key y) q = true) (x :: l).
Proof.
  induction l as [|y l IH]; cbn; [reflexivity|].
  destruct (Qlt_bool_spec (key x) (key y)) as [Hlt|Hge]; [|reflexivity].
  rewrite !filter_cons in *.
  destruct (decide (Qeq_bool (key x) q = true)) as [Hx|Hx];
    destruct (decide (Qeq_bool (key y) q = true)) as [Hy|Hy];
    rewrite IH; try reflexivity.
  apply Qeq_bool_iff in Hx, Hy. lra.
Qed.

Lemma sort_reverse_stable (q : Q) (l : list A) :
  filter (λ y, Qeq_bool (key y) q = true) (sort_reverse key l)
  = filter (λ y, Qeq_bool (key y) q = true) l.
Proof.
  induction l as [|x l IH]; cbn; [reflexivity|].
  rewrite insert_reverse_stable, !filter_cons, IH. reflexivity.
Qed.

(** Every element kept by [l[:n]] of the sorted list has a key at least
    that of every element left in [l[n:]]. *)
Lemma sort_reverse_take_drop (l : list A) (n : nat) (x y : A) :
  x ∈ take n (sort_reverse key l) → y ∈ drop n (sort_reverse key l) →
  (key y <= key x)%Q.
Proof.
  intros Hx Hy.
  apply (StronglySorted_app_1_elem_of (key_ge key)
           (take n (sort_reverse key l)) (drop n (sort_reverse key l)));
    [|assumption..].
  rewrite take_drop. apply sort_reverse_sorted.
Qed.
End sort_reverse.

Lemma slice_to_nonneg {A : Type} (l : list A) (n : Z) :
  (0 ≤ n)%Z → slice_to l n = take (Z.to_nat n) l.
Proof. intros Hn. unfold slice_to. destruct (Z.ltb_spec n 0); [lia|done]. Qed.

Lemma slice_from_nonneg {A : Type} (l : list A) (n : Z) :
  (0 ≤ n)%Z → slice_from l n = drop (Z.to_nat n) l.
Proof. intros Hn. unfold slice_from. destruct (Z.ltb_spec n 0); [lia|done]. Qed.

(** ** The renaming pass *)

Lemma os_path_exists_true (p : string) (fs : FS) :
  os_path_exists p fs = true ↔ p ∈ files fs.
Proof. unfold os_path_exists. apply bool_decide_eq_true. Qed.

#[global] Instance same_frame_equivalence : Equivalence same_frame.
Proof.
  split.
  - intros a. repeat split.
  - intros a b (?&?&?&?&?). repeat split; congruence.
  - intros a b c (?&?&?&?&?) (?&?&?&?&?). repeat split; congruence.
Qed.

Section rename.
Context `{OSErrors}.
Import AsyncFrameExtractor.
Variable output_dir : string.

(** The names depend only on fields that the pass leaves alone. *)
Lemma new_filename_same (i : nat) (a b : FrameRecord) :
  same_frame a b → new_filename i a = new_filename i b.
Proof. intros (_&_&_&Htype&Hfile). unfold new_filename. congruence. Qed.

Lemma new_path_same (i : nat) (a b : FrameRecord) :
  same_frame a b → new_path output_dir i a = new_path output_dir i b.
Proof.
  intros Hsame. unfold new_path. rewrite (new_filename_same i a b Hsame).
  reflexivity.
Qed.

(** The calls of the [try] create no file but the target. *)
Lemma move_file_files (old_path new_path : string) (fs : FS) (p : string) :
  p ∈ files (move_file old_path new_path fs).1 → p = new_path ∨ p ∈ files fs.
Proof.
  unfold move_file, os_remove, os_rename.
  destruct (os_path_exists new_path fs) eqn:Hnew; cbn [negb orb].
  - destruct (remove_raises new_path fs); cbn [fst]; [right; assumption|].
    destruct (_ || _); cbn [fst files].
    + rewrite elem_of_difference. intros [Hp _]. right. exact Hp.
    + rewrite elem_of_union, elem_of_singleton, !elem_of_difference.
      intros [->|[[Hp _] _]]; [left; reflexivity | right; exact Hp].
  - destruct (_ || _); cbn [fst files]; [right; assumption|].
    rewrite elem_of_union, elem_of_singleton, elem_of_difference.
    intros [->|[Hp _]]; [left; reflexivity | right; exact Hp].
Qed.

(** When both calls returned, the file has moved. *)
Lemma move_file_moved (old_path new_path : string) (fs fs' : FS) :
  old_path ≠ new_path →
  move_file old_path new_path fs = (fs', true) →
  old_path ∈ files fs ∧
  files fs' = {[ new_path ]} ∪ (files fs ∖ {[ old_path ]}).
Proof.
  intros Hne. unfold move_file, os_remove, os_rename.
  destruct (os_path_exists new_path fs) eqn:Hnew; cbn [negb orb].
  - destruct (remove_raises new_path fs); [discriminate|].
    destruct (os_path_exists old_path _) eqn:Hold; cbn [negb orb];
      [|discriminate].
    destruct (rename_raises old_path new_path _); [discriminate|].
    intros [= <-]. cbn [files].
    apply os_path_exists_true in Hold. cbn [files] in Hold.
    apply elem_of_difference in Hold as [Hold _].
    split; [exact Hold|].
    apply set_eq. intros p. rewrite !elem_of_union, !elem_of_difference.
    destruct (decide (p = new_path)) as [->|Hp].
    + split; intros _; left; apply elem_of_singleton; reflexivity.
    + rewrite !elem_of_singleton. tauto.
  - destruct (os_path_exists old_path fs) eqn:Hold; cbn [negb orb];
      [|discriminate].
    destruct (rename_raises old_path new_path fs); [discriminate|].
    intros [= <-]. cbn [files].
    apply os_path_exists_true in Hold. split; [exact Hold | reflexivity].
Qed.

(** One turn either leaves the record alone (the guard is false, or a call
    raised) and creates no file, or moves the file and rewrites the three
    fields. *)
Lemma rename_frame_cases (i : nat) (r : FrameRecord) (fs : FS) :
  ((rename_frame output_dir i r fs).2 = r ∧
   ∀ p, p ∈ files (rename_frame output_dir i r fs).1 → p ∈ files fs)
  ∨
  (path r ≠ new_path output_dir i r ∧ path r ∈ files fs ∧
   ∃ fs' r',
     move_file (path r) (new_path output_dir i r) fs = (fs', true) ∧
     rename_frame output_dir i r fs = (fs', r') ∧
     same_frame r r' ∧
     path r' = new_path output_dir i r ∧
     filename r' = new_filename i r ∧
     extracted_index r' = i ∧
     files fs' = {[ new_path output_dir i r ]} ∪ (files fs ∖ {[ path r ]})).
Proof.
  unfold rename_frame.
  destruct (decide (path r = new_path output_dir i r)) as [Heq|Hne].
  { left. rewrite bool_decide_eq_false_2 by (intros Hc; apply Hc, Heq).
    cbn. split; [reflexivity | intros p Hp; exact Hp]. }
  rewrite bool_decide_eq_true_2 by exact Hne. cbn [andb].
  destruct (os_path_exists (path r) fs) eqn:Hexists;
    [|left; cbn; split; [reflexivity | intros p Hp; exact Hp]].
  apply os_path_exists_true in Hexists.
  destruct (move_file (path r) (new_path output_dir i r) fs)
    as [fs' [|]] eqn:Hmove.
  - right. split; [exact Hne|]. split; [exact Hexists|].
    eexists _, _. split; [reflexivity|]. split; [reflexivity|].
    split; [repeat split|]. cbn [path filename extracted_index].
    repeat split. exact (proj2 (move_file_moved _ _ _ _ Hne Hmove)).
  - left. cbn [fst snd]. split; [reflexivity|]. intros p Hp.
    pose proof (move_file_files (path r) (new_path output_dir i r) fs p)
      as Hfiles.
    rewrite Hmove in Hfiles. destruct (Hfiles Hp) as [->|Hin]; [|exact Hin].
    (* the target was there before: only the removal was carried out *)
    revert Hmove Hp. unfold move_file, os_remove, os_rename.
    destruct (os_path_exists (new_path output_dir i r) fs) eqn:Hnew;
      cbn [negb orb].
    + intros _ _. apply os_path_exists_true. exact Hnew.
    + destruct (_ || _); [|discriminate].
      intros [= <-] Hp. exact Hp.
Qed.

(** The turn of a record whose file exists and whose calls return. *)
Lemma rename_frame_moved (i : nat) (r : FrameRecord) (fs : FS) :
  path r ≠ new_path output_dir i r → path r ∈ files fs →
  (move_file (path r) (new_path output_dir i r) fs).2 = true →
  let r' := (rename_frame output_dir i r fs).2 in
  let fs' := (rename_frame output_dir i r fs).1 in
  path r' = new_path output_dir i r ∧
  filename r' = new_filename i r ∧
  extracted_index r' = i ∧
  files fs' = {[ new_path output_dir i r ]} ∪ (files fs ∖ {[ path r ]}).
Proof.
  intros Hne Hexists Hmoved. cbv zeta. unfold rename_frame.
  rewrite bool_decide_eq_true_2 by exact Hne.
  apply os_path_exists_true in Hexists. rewrite Hexists. cbn [andb].
  destruct (move_file (path r) (new_path output_dir i r) fs)
    as [fs' moved] eqn:Hmove.
  cbn [snd] in Hmoved. subst moved. cbn [fst snd path filename extracted_index].
  repeat split. exact (proj2 (move_file_moved _ _ _ _ Hne Hmove)).
Qed.

Lemma rename_frame_same (i : nat) (r : FrameRecord) (fs : FS) :
  same_frame r (rename_frame output_dir i r fs).2.
Proof.
  destruct (rename_frame_cases i r fs)
    as [[-> _]|(_ & _ & fs' & r' & _ & -> & Hsame & _)];
    [reflexivity | exact Hsame].
Qed.


Lemma rename_files_cons (i : nat) (r : FrameRecord) (l : list FrameRecord)
    (fs : FS) :
  _rename_files output_dir i (r :: l) fs =
  ((_rename_files output_dir (S i) l (rename_frame output_dir i r fs).1).1,
   (rename_frame output_dir i r fs).2
     :: (_rename_files output_dir (S i) l
           (rename_frame output_dir i r fs).1).2).
Proof.
  cbn [_rename_files].
  destruct (rename_frame output_dir i r fs) as [fs1 r1]. cbn [fst snd].
  destruct (_rename_files output_dir (S i) l fs1) as [fs2 l2]. reflexivity.
Qed.

Lemma rename_files_app (i : nat) (l1 l2 : list FrameRecord) (fs : FS) :
  _rename_files output_dir i (l1 ++ l2) fs =
  ((_rename_files output_dir (i + length l1) l2
      (_rename_files output_dir i l1 fs).1).1,
   (_rename_files output_dir i l1 fs).2
   ++ (_rename_files output_dir (i + length l1) l2
         (_rename_files output_dir i l1 fs).1).2).
Proof.
  revert i fs. induction l1 as [|r l1 IH]; intros i fs.
  - cbn. rewrite Nat.add_0_r.
    destruct (_rename_files output_dir i l2 fs). reflexivity.
  - cbn [app]. rewrite !rename_files_cons, IH. cbn [fst snd length].
    replace (S i + length l1) with (i + S (length l1)) by lia.
    reflexivity.
Qed.

(** The pass keeps the records in place: position by position the result
    describes the same frame as the input. *)
Lemma rename_files_same (i : nat) (l : list FrameRecord) (fs : FS) :
  Forall2 same_frame l (_rename_files output_dir i l fs).2.
Proof.
  revert i fs. induction l as [|r l IH]; intros i fs; [constructor|].
  rewrite rename_files_cons. cbn [snd].
  constructor; [apply rename_frame_same | apply IH].
Qed.

Lemma rename_files_length (i : nat) (l : list FrameRecord) (fs : FS) :
  length (_rename_files output_dir i l fs).2 = length l.
Proof.
  symmetry. apply (Forall2_length same_frame), rename_files_same.
Qed.

(** Position [k] of the result is what the turn of position [k] returns, in
    the file system that the turns before it left. *)
Lemma rename_files_lookup (i : nat) (l : list FrameRecord) (fs : FS)
    (k : nat) (r : FrameRecord) :
  l !! k = Some r →
  let before := (_rename_files output_dir i (take k l) fs).1 in
  (_rename_files output_dir i l fs).2 !! k
  = Some (rename_frame output_dir (i + k) r before).2 ∧
  (_rename_files output_dir i (take (S k) l) fs).1
  = (rename_frame output_dir (i + k) r before).1.
Proof.
  intros Hk. cbv zeta.
  assert (length (take k l) = k) as Hlength.
  { rewrite length_take. apply lookup_lt_Some in Hk. lia. }
  split.
  - rewrite <- (take_drop_middle l k r Hk) at 1.
    rewrite rename_files_app. cbn [snd].
    rewrite lookup_app_r by (rewrite rename_files_length; lia).
    rewrite rename_files_length, Hlength, Nat.sub_diag, rename_files_cons.
    reflexivity.
  - rewrite (take_S_r l k r Hk), rename_files_app. cbn [fst].
    rewrite Hlength. cbn [_rename_files].
    destruct (rename_frame output_dir (i + k) r _). reflexivity.
Qed.

(** Records that already carry the path of their position: nothing is
    renamed, nothing is removed, nothing is rewritten. *)
Lemma rename_files_at_target (i : nat) (l : list FrameRecord) (fs : FS) :
  (∀ k r, l !! k = Some r → path r = new_path output_dir (i + k) r) →
  _rename_files output_dir i l fs = (fs, l).
Proof.
  revert i. induction l as [|r l IH]; intros i Hl; [reflexivity|].
  rewrite rename_files_cons.
  assert (rename_frame output_dir i r fs = (fs, r)) as ->.
  { unfold rename_frame.
    rewrite bool_decide_eq_false_2; [reflexivity|].
    intros Hne. apply Hne. rewrite (Hl 0 r eq_refl).
    rewrite Nat.add_0_r. reflexivity. }
  cbn [fst snd]. rewrite IH; [reflexivity|].
  intros k r0 Hk. replace (S i + k) with (i + S k) by lia.
  apply Hl. exact Hk.
Qed.

End rename.

(** ** The global cap and the final pass *)

Lemma slice_to_from {A : Type} (l : list A) (n : Z) :
  slice_to l n ++ slice_from l n = l.
Proof.
  unfold slice_to, slice_from. destruct (n <? 0)%Z; apply take_drop.
Qed.

Section finish.
Context `{OSErrors}.
Import AsyncFrameExtractor.
Variable output_dir : string.

(** The final pass is the renaming pass over the list as the cap left it. *)
Lemma finish_unfold (max_base_frames : option Z) (l : list FrameRecord)
    (fs : FS) :
  let cap := default AsyncFrameExtractorConfig.DEFAULT_MAX_BASE_FRAMES
               max_base_frames in
  let sorted := sort_reverse quality_key l in
  process_multiple_files_async_finish output_dir max_base_frames l fs =
  if (cap <? Z.of_nat (length l))%Z then
    _rename_files output_dir 0 (slice_to sorted cap)
      (remove_excess (slice_from sorted cap) fs)
  else _rename_files output_dir 0 l fs.
Proof.
  cbv zeta. unfold process_multiple_files_async_finish.
  destruct (_ <? _)%Z; reflexivity.
Qed.
End finish.

(** The sequential variant ends with the same cap and the same renaming
    loop. *)
Lemma finish_variants_agree `{OSErrors} (output_dir : string)
    (max_base_frames : option Z) (l : list FrameRecord) (fs : FS) :
  OptimizedFrameExtractor.process_mixed_inputs_finish
    output_dir max_base_frames l fs
  = AsyncFrameExtractor.process_multiple_files_async_finish
      output_dir max_base_frames l fs.
Proof. reflexivity. Qed.

Lemma rename_variants_agree `{OSErrors} (output_dir : string) (i : nat)
    (l : list FrameRecord) (fs : FS) :
  OptimizedFrameExtractor.rename_loop output_dir i l fs
  = AsyncFrameExtractor._rename_files output_dir i l fs.
Proof. reflexivity. Qed.

Section samples_finish.
#[local] Existing Instance SampleFaults.names_up_to_255.

Example finish_without_cap :
  AsyncFrameExtractor.process_multiple_files_async_finish
    Samples.output_dir None Samples.appended Samples.disk
  = ({| files := files Samples.renamed_disk;
        trace := [OsRename "out/task/image_a.jpg"
                    "out/task/frame_0000_image_a.jpg";
                  OsRename "out/task/image_b.jpg"
                    "out/task/frame_0001_image_b.jpg";
                  OsRename "out/task/image_c.jpg"
                    "out/task/frame_0002_image_c.jpg"] |},
     Samples.renamed).
Proof. vm_compute. reflexivity. Qed.

(** C3 (as stated) fails.  Four records are appended in the order a, b, v,
    d with quality 1, 2, 4, 3: a and b are images, v is the first frame of a
    video whose name has 240 characters, and the file of the image d has
    disappeared.  With a cap of three the survivors are re-indexed in the
    order v, d, b, although b was appended before both; v is not rewritten,
    because its new name of 261 characters makes [os.rename] raise; d is
    not rewritten, because its file does not exist; b gets index 2. *)
Lemma reindex_after_cap_counterexample :
  let result :=
    (AsyncFrameExtractor.process_multiple_files_async_finish
       Samples.output_dir (Some 3%Z) SampleFaults.appended
       SampleFaults.disk).2 in
  source_file <$> SampleFaults.appended
  = ["a.png"; "b.png"; SampleFaults.long_stem +:+ ".mp4"; "d.png"] ∧
  result = [SampleFaults.long_video; Samples.image_record "d" 3 3;
            Samples.renamed_record "b" 2 2] ∧
  ¬ (source_file <$> result) `sublist_of`
      (source_file <$> SampleFaults.appended) ∧
  String.length (AsyncFrameExtractor.new_filename 0 SampleFaults.long_video)
  = 261.
Proof.
  cbv zeta.
  assert ((AsyncFrameExtractor.process_multiple_files_async_finish
             Samples.output_dir (Some 3%Z) SampleFaults.appended
             SampleFaults.disk).2
          = [SampleFaults.long_video; Samples.image_record "d" 3 3;
             Samples.renamed_record "b" 2 2])
    as -> by (vm_compute; reflexivity).
  split; [reflexivity|]. split; [reflexivity|].
  split; [|vm_compute; reflexivity].
  cbn [fmap list_fmap source_file SampleFaults.appended
       SampleFaults.long_video Samples.image_record Samples.renamed_record].
  intros Hsub.
  apply sublist_cons_r in Hsub as [Hsub|(tail & Heq & _)].
  - apply sublist_cons_r in Hsub as [Hsub|(tail & Heq & _)].
    + apply sublist_length in Hsub. cbn in Hsub. lia.
    + vm_compute in Heq. discriminate Heq.
  - vm_compute in Heq. discriminate Heq.
Qed.
End samples_finish.

(** C3 (as amended). The final pass walks the surviving records in the
    order the list has when the pass runs: the append order when the cap did
    not cull, and the order of the stable sort by decreasing quality score
    (equal scores in append order) when it did; the result holds the same
    frames in that order.  Position i is named
    frame_{i:04d}_{source_type}_{source_basename}.jpg, and every surviving
    record that is not yet at the path of its position, whose file exists
    when its turn comes and for which [os.remove] and [os.rename] return,
    has its file moved to that path and its path, filename and
    extracted_index rewritten to those of position i. *)
Theorem reindex_in_list_order `{OSErrors} (output_dir : string)
    (max_base_frames : option Z) (l : list FrameRecord) (fs : FS) :
  let cap :=
    default AsyncFrameExtractorConfig.DEFAULT_MAX_BASE_FRAMES max_base_frames in
  let sorted := sort_reverse quality_key l in
  let culled := (cap <? Z.of_nat (length l))%Z in
  let survivors := if culled then slice_to sorted cap else l in
  let start :=
    if culled
    then AsyncFrameExtractor.remove_excess (slice_from sorted cap) fs
    else fs in
  let result :=
    (AsyncFrameExtractor.process_multiple_files_async_finish
       output_dir max_base_frames l fs).2 in
  Forall2 same_frame survivors result ∧
  StronglySorted (key_ge quality_key) sorted ∧
  (∀ q, filter (λ r, Qeq_bool (quality_key r) q = true) sorted
        = filter (λ r, Qeq_bool (quality_key r) q = true) l) ∧
  (∀ i r, survivors !! i = Some r →
     let before :=
       (AsyncFrameExtractor._rename_files output_dir 0 (take i survivors)
          start).1 in
     let after :=
       (AsyncFrameExtractor._rename_files output_dir 0 (take (S i) survivors)
          start).1 in
     path r ≠ AsyncFrameExtractor.new_path output_dir i r →
     path r ∈ files before →
     (move_file (path r) (AsyncFrameExtractor.new_path output_dir i r)
        before).2 = true →
     ∃ r', result !! i = Some r' ∧
       path r' = AsyncFrameExtractor.new_path output_dir i r ∧
       filename r' = AsyncFrameExtractor.new_filename i r ∧
       extracted_index r' = i ∧
       files after
       = {[ AsyncFrameExtractor.new_path output_dir i r ]}
         ∪ (files before ∖ {[ path r ]})).
Proof.
  intros cap sorted culled survivors start result.
  assert (result =
          (AsyncFrameExtractor._rename_files output_dir 0 survivors start).2)
    as Hresult.
  { subst result survivors start culled. rewrite finish_unfold. cbv zeta.
    fold cap sorted. destruct (cap <? Z.of_nat (length l))%Z; reflexivity. }
  rewrite Hresult. clear result Hresult.
  split; [apply rename_files_same|].
  split; [apply sort_reverse_sorted|].
  split; [intros q; apply sort_reverse_stable|].
  intros i r Hi before after Hne Hexists Hmoved.
  destruct (rename_files_lookup output_dir 0 survivors start i r Hi)
    as [Hlookup Hafter].
  cbn [Nat.add] in Hlookup, Hafter. fold before in Hlookup, Hafter.
  destruct (rename_frame_moved output_dir i r before Hne Hexists Hmoved)
    as (Hpath & Hname & Hindex & Hfiles).
  eexists. split; [exact Hlookup|].
  split; [exact Hpath|]. split; [exact Hname|]. split; [exact Hindex|].
  subst after. rewrite Hafter. exact Hfiles.
Qed.

Section samples_reindex.
#[local] Existing Instance SampleFaults.names_up_to_255.

Lemma reindex_in_list_order_witness :
  ∃ r',
    (AsyncFrameExtractor.process_multiple_files_async_finish
       Samples.output_dir (Some 3%Z) SampleFaults.appended
       SampleFaults.disk).2 !! 2 = Some r' ∧
    path r' = "out/task/frame_0002_image_b.jpg" ∧
    filename r' = "frame_0002_image_b.jpg" ∧
    extracted_index r' = 2.
Proof.
  destruct (proj2 (proj2 (proj2
              (reindex_in_list_order Samples.output_dir (Some 3%Z)
                 SampleFaults.appended SampleFaults.disk)))
              2 (Samples.image_record "b" 1 2))
    as (r' & Hlookup & Hpath & Hname & Hindex & _).
  - vm_compute. reflexivity.
  - vm_compute. discriminate.
  - apply (bool_decide_unpack _). vm_compute. exact I.
  - vm_compute. reflexivity.
  - exists r'. split; [exact Hlookup|].
    split; [rewrite Hpath; vm_compute; reflexivity|].
    split; [rewrite Hname; vm_compute; reflexivity | exact Hindex].
Defined.
End samples_reindex.

(** C4. When the cumulative list is longer than the cap, the returned list
    holds exactly [max_base_frames] records: the first [max_base_frames] of
    the list sorted by decreasing quality score, each with a score at least
    that of every record left out; kept and left-out records together are
    the records of the input.  The sequential variant returns the same. *)
Theorem global_cap_keeps_top_quality `{OSErrors} (output_dir : string)
    (max_base_frames : option Z) (l : list FrameRecord) (fs : FS) :
  let cap :=
    default AsyncFrameExtractorConfig.DEFAULT_MAX_BASE_FRAMES max_base_frames in
  (0 ≤ cap)%Z → (cap < Z.of_nat (length l))%Z →
  let sorted := sort_reverse quality_key l in
  let kept := take (Z.to_nat cap) sorted in
  let dropped := drop (Z.to_nat cap) sorted in
  let result :=
    (AsyncFrameExtractor.process_multiple_files_async_finish
       output_dir max_base_frames l fs).2 in
  kept ++ dropped ≡ₚ l ∧
  StronglySorted (key_ge quality_key) sorted ∧
  (∀ x y, x ∈ kept → y ∈ dropped → (quality_key y <= quality_key x)%Q) ∧
  length result = Z.to_nat cap ∧
  Forall2 same_frame kept result ∧
  (OptimizedFrameExtractor.process_mixed_inputs_finish
     output_dir max_base_frames l fs).2 = result.
Proof.
  intros cap Hcap Hlong sorted kept dropped result.
  assert (Forall2 same_frame kept result) as Hsame.
  { subst result. rewrite finish_unfold. cbv zeta. fold cap sorted.
    destruct (Z.ltb_spec cap (Z.of_nat (length l))) as [_|Hle]; [|lia].
    rewrite slice_to_nonneg by exact Hcap. apply rename_files_same. }
  split; [|split; [|split; [|split; [|split]]]].
  - unfold kept, dropped. rewrite take_drop. apply sort_reverse_Permutation.
  - apply sort_reverse_sorted.
  - intros x y. apply sort_reverse_take_drop.
  - rewrite <- (Forall2_length _ _ _ Hsame). unfold kept, sorted.
    rewrite length_take, sort_reverse_length. lia.
  - exact Hsame.
  - reflexivity.
Qed.

Section samples_cap.
#[local] Existing Instance SampleFaults.names_up_to_255.

Lemma global_cap_keeps_top_quality_witness :
  let result :=
    (AsyncFrameExtractor.process_multiple_files_async_finish
       Samples.output_dir (Some 2%Z) Samples.appended Samples.disk).2 in
  length result = 2 ∧
  Forall2 same_frame
    (take 2 (sort_reverse quality_key Samples.appended)) result.
Proof.
  destruct (global_cap_keeps_top_quality Samples.output_dir (Some 2%Z)
              Samples.appended Samples.disk)
    as (_ & _ & _ & Hlength & Hsame & _); [cbn; lia | cbn; lia |].
  split; [exact Hlength | exact Hsame].
Defined.
End samples_cap.

(** C8. The renaming pass is idempotent: on records that carry the filename
    and the index of their position (and, as every record of the task does,
    a path made of the output directory and the filename), the pass of either
    variant performs no file operation and returns the records unchanged. *)
Theorem rename_pass_idempotent `{OSErrors} (output_dir : string)
    (l : list FrameRecord) (fs : FS) :
  (∀ i r, l !! i = Some r →
     path r = os_path_join output_dir (filename r) ∧
     filename r = AsyncFrameExtractor.new_filename i r ∧
     extracted_index r = i) →
  AsyncFrameExtractor._rename_frames_async output_dir l fs = (fs, l) ∧
  OptimizedFrameExtractor.rename_loop output_dir 0 l fs = (fs, l).
Proof.
  intros Hrenamed.
  assert (AsyncFrameExtractor._rename_files output_dir 0 l fs = (fs, l))
    as Hnoop.
  { apply rename_files_at_target. intros k r Hk.
    destruct (Hrenamed k r Hk) as (Hpath & Hname & _).
    unfold AsyncFrameExtractor.new_path. cbn [Nat.add].
    rewrite <- Hname. exact Hpath. }
  split; [exact Hnoop|].
  rewrite rename_variants_agree. exact Hnoop.
Qed.

Section samples_idempotent.
#[local] Existing Instance SampleFaults.names_up_to_255.

Lemma rename_pass_idempotent_witness :
  AsyncFrameExtractor._rename_frames_async
    Samples.output_dir Samples.renamed Samples.renamed_disk
  = (Samples.renamed_disk, Samples.renamed) ∧
  OptimizedFrameExtractor.rename_loop
    Samples.output_dir 0 Samples.renamed Samples.renamed_disk
  = (Samples.renamed_disk, Samples.renamed).
Proof.
  apply (rename_pass_idempotent Samples.output_dir Samples.renamed
           Samples.renamed_disk).
  intros i r Hi.
  destruct i as [|[|[|i]]]; cbn in Hi; try discriminate Hi;
    injection Hi as <-; repeat split; vm_compute; reflexivity.
Defined.
End samples_idempotent.

(** * Further properties of the embedded code *)

(** Membership in a list literal. *)
Ltac in_list :=
  repeat first [apply list_elem_of_here | apply list_elem_of_further].

(** ** The performance tiers *)

Section tiers.
Import DevicePerformanceDetector.

Lemma concurrency_config_rows (self : t) (cores : Z) :
  cpu_count self = Some cores →
  _get_concurrency_config self "high"
  = Some {| max_workers := Z.min (cores * 2) 16; batch_size := 8;
            memory_buffer_mb := 2048; io_workers := 4 |} ∧
  _get_concurrency_config self "medium"
  = Some {| max_workers := Z.min (cores + 2) 8; batch_size := 4;
            memory_buffer_mb := 1024; io_workers := 2 |} ∧
  _get_concurrency_config self "low"
  = Some {| max_workers := Z.min cores 4; batch_size := 2;
            memory_buffer_mb := 512; io_workers := 1 |} ∧
  _get_concurrency_config self "minimal"
  = Some {| max_workers := 2; batch_size := 1;
            memory_buffer_mb := 256; io_workers := 1 |}.
Proof.
  intros Hcores. unfold _get_concurrency_config. rewrite Hcores.
  repeat split; reflexivity.
Qed.

(** The memory test of the tier rule, on the byte count. *)
Lemma memory_at_least (gb : Z) (bytes : Z) :
  Qle_bool (inject_Z gb) (inject_Z bytes / GiB) = (gb * 1024 ^ 3 <=? bytes)%Z.
Proof.
  unfold GiB, Qdiv.
  change (/ inject_Z (1024 ^ 3))%Q with (1 # 1073741824)%Q.
  change (1024 ^ 3)%Z with 1073741824%Z.
  destruct (Z.leb_spec (gb * 1073741824) bytes) as [Hle|Hlt].
  - apply Qle_bool_iff. unfold Qle. cbn. lia.
  - apply not_true_is_false. rewrite Qle_bool_iff. unfold Qle. cbn. lia.
Qed.

Lemma performance_level_cases (self : t) (cores : Z) :
  cpu_count self = Some cores →
  _calculate_performance_level self =
  Some (if (8 <=? cores)%Z && (16 * 1024 ^ 3 <=? total_memory self)%Z
        then "high"
        else if (4 <=? cores)%Z && (8 * 1024 ^ 3 <=? total_memory self)%Z
        then "medium"
        else if (2 <=? cores)%Z && (4 * 1024 ^ 3 <=? total_memory self)%Z
        then "low"
        else "minimal").
Proof.
  intros Hcores. unfold _calculate_performance_level. rewrite Hcores. cbn.
  rewrite (memory_at_least 16), (memory_at_least 8), (memory_at_least 4).
  reflexivity.
Qed.

(** The row of the computed tier, with the bounds of its entries. *)
Lemma tier_row_bounds (self : t) (cores : Z) :
  cpu_count self = Some cores →
  ∃ level config,
    _calculate_performance_level self = Some level ∧
    _get_concurrency_config self level = Some config ∧
    (2 ≤ max_workers config ≤ 16)%Z ∧
    batch_size config ∈ [1; 2; 4; 8]%Z ∧
    (1 ≤ io_workers config ≤ 4)%Z.
Proof.
  intros Hcores.
  destruct (concurrency_config_rows self cores Hcores)
    as (Hhigh & Hmedium & Hlow & Hminimal).
  rewrite (performance_level_cases self cores Hcores).
  destruct (Z.leb_spec 8 cores); cbn [andb];
    [destruct (16 * 1024 ^ 3 <=? _)%Z|];
    try (eexists _, _; split; [reflexivity|]; split; [exact Hhigh|];
         cbn; repeat split; try lia; in_list);
    (destruct (Z.leb_spec 4 cores); cbn [andb];
     [destruct (8 * 1024 ^ 3 <=? _)%Z|]);
    try (eexists _, _; split; [reflexivity|]; split; [exact Hmedium|];
         cbn; repeat split; try lia; in_list);
    (destruct (Z.leb_spec 2 cores); cbn [andb];
     [destruct (4 * 1024 ^ 3 <=? _)%Z|]);
    try (eexists _, _; split; [reflexivity|]; split; [exact Hlow|];
         cbn; repeat split; try lia; in_list);
    (eexists _, _; split; [reflexivity|]; split; [exact Hminimal|];
     cbn; repeat split; try lia; in_list).
Qed.
End tiers.

(** X1. A level name that is not a row of the table gets the "low" row:
    min(cores, 4) workers, a batch size of 2, a buffer of 512 MB and one
    I/O worker. *)
Theorem concurrency_config_unknown_level
    (self : DevicePerformanceDetector.t) (cores : Z) (level : string) :
  level ∉ ["high"; "medium"; "low"; "minimal"] →
  DevicePerformanceDetector.cpu_count self = Some cores →
  DevicePerformanceDetector._get_concurrency_config self level
  = Some {| max_workers := Z.min cores 4; batch_size := 2;
            memory_buffer_mb := 512; io_workers := 1 |} ∧
  DevicePerformanceDetector._get_concurrency_config self level
  = DevicePerformanceDetector._get_concurrency_config self "low".
Proof.
  intros Hnot Hcores.
  assert (DevicePerformanceDetector._get_concurrency_config self level
          = DevicePerformanceDetector._get_concurrency_config self "low")
    as Hlow.
  { unfold DevicePerformanceDetector._get_concurrency_config.
    rewrite Hcores. cbn [mbind option_bind]. cbv zeta.
    match goal with
    | |- context [?m !! level] =>
        assert (m !! level = None) as ->
          by (rewrite !lookup_insert_ne, lookup_singleton_ne; [reflexivity|..];
              intros <-; apply Hnot; set_solver)
    end.
    reflexivity. }
  split; [|exact Hlow].
  rewrite Hlow.
  exact (proj1 (proj2 (proj2 (concurrency_config_rows self cores Hcores)))).
Qed.

Lemma concurrency_config_unknown_level_witness :
  DevicePerformanceDetector._get_concurrency_config
    {| DevicePerformanceDetector.cpu_count := Some 8%Z;
       DevicePerformanceDetector.logical_cpu_count := Some 16%Z;
       DevicePerformanceDetector.total_memory := 0;
       DevicePerformanceDetector.available_memory := 0 |} "ultra"
  = Some {| max_workers := 4; batch_size := 2; memory_buffer_mb := 512;
            io_workers := 1 |}.
Proof.
  refine (proj1 (concurrency_config_unknown_level
                   {| DevicePerformanceDetector.cpu_count := Some 8%Z;
                      DevicePerformanceDetector.logical_cpu_count := Some 16%Z;
                      DevicePerformanceDetector.total_memory := 0;
                      DevicePerformanceDetector.available_memory := 0 |}
                   8 "ultra" _ eq_refl)).
  intros Hin. repeat (apply elem_of_cons in Hin as [Heq|Hin];
                      [discriminate Heq|]).
  apply elem_of_nil in Hin. exact Hin.
Defined.

(** X2. Whatever the host and whatever the telemetry answers, the profile
    gives usable pool sizes: between 2 and 16 worker threads and a batch
    size of 1, 2, 4 or 8, and its two top-level copies repeat the
    concurrency settings. *)
Theorem profile_pool_sizes
    (self : DevicePerformanceDetector.t) (psutil : Telemetry) :
  let profile := DevicePerformanceDetector.get_performance_profile self psutil in
  (2 ≤ max_workers (concurrency_config profile) ≤ 16)%Z ∧
  batch_size (concurrency_config profile) ∈ [1; 2; 4; 8]%Z ∧
  (1 ≤ io_workers (concurrency_config profile) ≤ 4)%Z ∧
  recommended_batch_size profile = batch_size (concurrency_config profile) ∧
  profile_max_workers profile = max_workers (concurrency_config profile).
Proof.
  intros profile. subst profile.
  unfold DevicePerformanceDetector.get_performance_profile.
  destruct (cpu_percent psutil) as [cpu|], (virtual_memory psutil) as [mem|],
    (disk_usage psutil) as [disk|];
    try solve [cbn; repeat split; try lia; in_list].
  destruct (DevicePerformanceDetector.cpu_count self) as [cores|] eqn:Hcores.
  - destruct (tier_row_bounds self cores Hcores)
      as (level & config & Hlevel & Hconfig & Hworkers & Hbatch & Hio).
    cbn [mbind option_bind]. rewrite Hlevel. cbn [mbind option_bind].
    rewrite Hconfig. cbn.
    repeat split; try assumption; lia.
  - unfold DevicePerformanceDetector._calculate_performance_level.
    rewrite Hcores. cbn. repeat split; try lia; in_list.
Qed.

(** X3. When every query answers and the core count is known, the profile
    carries the tier of the first matching rule (8 cores and 16 GiB: high;
    4 and 8: medium; 2 and 4: low; otherwise minimal) together with the
    table row of that very tier. *)
Theorem profile_tier_and_row
    (self : DevicePerformanceDetector.t) (psutil : Telemetry)
    (cores : Z) (cpu : Q) (memory : Z * Q) (disk : Z) :
  DevicePerformanceDetector.cpu_count self = Some cores →
  cpu_percent psutil = Some cpu → virtual_memory psutil = Some memory →
  disk_usage psutil = Some disk →
  let profile := DevicePerformanceDetector.get_performance_profile self psutil in
  let bytes := DevicePerformanceDetector.total_memory self in
  cpu_cores_physical profile = cores ∧
  performance_level profile =
    (if (8 <=? cores)%Z && (16 * 1024 ^ 3 <=? bytes)%Z then "high"
     else if (4 <=? cores)%Z && (8 * 1024 ^ 3 <=? bytes)%Z then "medium"
     else if (2 <=? cores)%Z && (4 * 1024 ^ 3 <=? bytes)%Z then "low"
     else "minimal") ∧
  DevicePerformanceDetector._get_concurrency_config self
    (performance_level profile) = Some (concurrency_config profile) ∧
  performance_level profile ∈ ["high"; "medium"; "low"; "minimal"].
Proof.
  intros Hcores Hcpu Hmem Hdisk profile bytes. subst profile bytes.
  unfold DevicePerformanceDetector.get_performance_profile.
  rewrite Hcpu, Hmem, Hdisk. cbn [mbind option_bind].
  rewrite (performance_level_cases self cores Hcores).
  cbn [mbind option_bind].
  set (level := if (8 <=? cores)%Z && _ then _ else _).
  assert (level ∈ ["high"; "medium"; "low"; "minimal"] ∧
          ∃ config, DevicePerformanceDetector._get_concurrency_config
                      self level = Some config) as (Hin & config & Hconfig).
  { destruct (concurrency_config_rows self cores Hcores)
      as (Hhigh & Hmedium & Hlow & Hminimal).
    subst level.
    destruct ((8 <=? cores)%Z && _);
      [|destruct ((4 <=? cores)%Z && _); [|destruct ((2 <=? cores)%Z && _)]];
      (split; [in_list | eexists; eassumption]). }
  rewrite Hconfig. cbn [mbind option_bind]. rewrite Hcores.
  cbn [mbind option_bind default from_option id cpu_cores_physical
       performance_level concurrency_config].
  repeat split; [exact Hconfig | exact Hin].
Qed.

Lemma profile_tier_and_row_witness :
  let self :=
    {| DevicePerformanceDetector.cpu_count := Some 6%Z;
       DevicePerformanceDetector.logical_cpu_count := Some 12%Z;
       DevicePerformanceDetector.total_memory := 17179869184;
       DevicePerformanceDetector.available_memory := 8589934592 |} in
  let psutil :=
    {| cpu_percent := Some 12.5%Q;
       virtual_memory := Some (8589934592%Z, 50.0%Q);
       disk_usage := Some 107374182400%Z |} in
  let profile := DevicePerformanceDetector.get_performance_profile self psutil in
  performance_level profile = "medium" ∧
  DevicePerformanceDetector._get_concurrency_config self "medium"
  = Some (concurrency_config profile).
Proof.
  intros self psutil profile.
  destruct (profile_tier_and_row self psutil 6 12.5%Q
              (8589934592%Z, 50.0%Q) 107374182400
              eq_refl eq_refl eq_refl eq_refl)
    as (_ & Hlevel & Hrow & _).
  split; [exact Hlevel | exact Hrow].
Defined.

(** X4. The concurrency settings grow with the machine: with at least as
    many cores and at least as much memory, the tier's row has at least as
    many workers, as large a batch, as large a buffer and as many I/O
    workers. *)
Theorem concurrency_grows_with_machine
    (small large : DevicePerformanceDetector.t) (cores cores' : Z)
    (level level' : string) (config config' : ConcurrencyConfig) :
  DevicePerformanceDetector.cpu_count small = Some cores →
  DevicePerformanceDetector.cpu_count large = Some cores' →
  (cores ≤ cores')%Z →
  (DevicePerformanceDetector.total_memory small
   ≤ DevicePerformanceDetector.total_memory large)%Z →
  DevicePerformanceDetector._calculate_performance_level small = Some level →
  DevicePerformanceDetector._calculate_performance_level large = Some level' →
  DevicePerformanceDetector._get_concurrency_config small level = Some config →
  DevicePerformanceDetector._get_concurrency_config large level' = Some config' →
  (max_workers config ≤ max_workers config')%Z ∧
  (batch_size config ≤ batch_size config')%Z ∧
  (memory_buffer_mb config ≤ memory_buffer_mb config')%Z ∧
  (io_workers config ≤ io_workers config')%Z.
Proof.
  intros Hcores Hcores' Hle Hmem Hlevel Hlevel' Hconfig Hconfig'.
  rewrite (performance_level_cases small cores Hcores) in Hlevel.
  rewrite (performance_level_cases large cores' Hcores') in Hlevel'.
  destruct (concurrency_config_rows small cores Hcores)
    as (Hhigh & Hmedium & Hlow & Hminimal).
  destruct (concurrency_config_rows large cores' Hcores')
    as (Hhigh' & Hmedium' & Hlow' & Hminimal').
  injection Hlevel as <-. injection Hlevel' as <-.
  destruct (Z.leb_spec 8 cores), (Z.leb_spec 4 cores), (Z.leb_spec 2 cores);
    try lia;
    destruct (Z.leb_spec 8 cores'), (Z.leb_spec 4 cores'),
      (Z.leb_spec 2 cores'); try lia;
    destruct (Z.leb_spec (16 * 1024 ^ 3)
                (DevicePerformanceDetector.total_memory small)),
      (Z.leb_spec (8 * 1024 ^ 3)
         (DevicePerformanceDetector.total_memory small)),
      (Z.leb_spec (4 * 1024 ^ 3)
         (DevicePerformanceDetector.total_memory small)); try lia;
    destruct (Z.leb_spec (16 * 1024 ^ 3)
                (DevicePerformanceDetector.total_memory large)),
      (Z.leb_spec (8 * 1024 ^ 3)
         (DevicePerformanceDetector.total_memory large)),
      (Z.leb_spec (4 * 1024 ^ 3)
         (DevicePerformanceDetector.total_memory large)); try lia;
    cbn [andb] in Hconfig, Hconfig';
    rewrite ?Hhigh, ?Hmedium, ?Hlow, ?Hminimal in Hconfig;
    rewrite ?Hhigh', ?Hmedium', ?Hlow', ?Hminimal' in Hconfig';
    injection Hconfig as <-; injection Hconfig' as <-; cbn; lia.
Qed.

Lemma concurrency_grows_with_machine_witness :
  let small :=
    {| DevicePerformanceDetector.cpu_count := Some 2%Z;
       DevicePerformanceDetector.logical_cpu_count := Some 4%Z;
       DevicePerformanceDetector.total_memory := 4294967296;
       DevicePerformanceDetector.available_memory := 0 |} in
  let large :=
    {| DevicePerformanceDetector.cpu_count := Some 8%Z;
       DevicePerformanceDetector.logical_cpu_count := Some 16%Z;
       DevicePerformanceDetector.total_memory := 17179869184;
       DevicePerformanceDetector.available_memory := 0 |} in
  ∃ config config',
    DevicePerformanceDetector._get_concurrency_config small "low"
    = Some config ∧
    DevicePerformanceDetector._get_concurrency_config large "high"
    = Some config' ∧
    (batch_size config ≤ batch_size config')%Z.
Proof.
  intros small large.
  assert (∃ config,
            DevicePerformanceDetector._get_concurrency_config small "low"
            = Some config) as [config Hconfig]
    by (vm_compute; eexists; reflexivity).
  assert (∃ config',
            DevicePerformanceDetector._get_concurrency_config large "high"
            = Some config') as [config' Hconfig']
    by (vm_compute; eexists; reflexivity).
  exists config, config'.
  split; [exact Hconfig|]. split; [exact Hconfig'|].
  apply (concurrency_grows_with_machine small large 2 8 "low" "high"
           config config' eq_refl eq_refl ltac:(lia) ltac:(cbn; lia)
           eq_refl eq_refl Hconfig Hconfig').
Defined.

(** ** The sampling stride *)

(** The plan of a video of at least two frames, written out. *)
Lemma planner_returns (duration fps : Q) (total_frames : Z) :
  (2 ≤ total_frames)%Z →
  ∃ optimal label,
    AsyncFrameExtractor.calculate_optimal_frame_count duration fps total_frames
    = Ok {| optimal_frames := optimal;
            frame_interval := Z.max 1 (total_frames / optimal);
            real_time_interval := (duration / inject_Z optimal)%Q;
            strategy := label |} ∧
    (1 ≤ optimal)%Z ∧ (2 * optimal ≤ total_frames)%Z.
Proof.
  intros Ht. unfold AsyncFrameExtractor.calculate_optimal_frame_count.
  match goal with
  | |- context [let '(a, b) := ?X in _] => destruct X as [interval label]
  end.
  set (base := Z.max _ _).
  assert (5 ≤ base)%Z as Hbase
    by (unfold base, AsyncFrameExtractorConfig.MIN_FRAME_COUNT; lia).
  clearbody base.
  destruct (corrected_lower_bound fps base Hbase) as [Hc4 _].
  cbv zeta in Hc4. rewrite half_frames by lia.
  set (corrected := py_int (inject_Z base * _)) in *.
  assert (1 ≤ total_frames / 2)%Z by (apply Z.div_le_lower_bound; lia).
  assert (2 * (total_frames / 2) ≤ total_frames)%Z
    by (apply Z.mul_div_le; lia).
  set (optimal := Z.min corrected _).
  assert (1 ≤ optimal)%Z as Hpos by (unfold optimal; lia).
  unfold py_floordiv. destruct (Z.eqb_spec optimal 0) as [Hz|_]; [lia|].
  destruct (Z.ltb_spec 0 optimal) as [_|Hle]; [|lia].
  exists optimal, label. split; [reflexivity|]. unfold optimal. lia.
Qed.

(** X5. For a video of at least two frames the stride is the exact quotient
    total_frames // optimal_frames and is at least 2; walking the video with
    this stride visits at least [optimal_frames] frames, and the reported
    real-time interval is the quotient duration / optimal_frames. *)
Theorem planner_stride (duration fps : Q) (total_frames : Z) :
  (2 ≤ total_frames)%Z →
  ∃ plan,
    AsyncFrameExtractor.calculate_optimal_frame_count duration fps total_frames
    = Ok plan ∧
    frame_interval plan = (total_frames / optimal_frames plan)%Z ∧
    (2 ≤ frame_interval plan)%Z ∧
    (optimal_frames plan * frame_interval plan ≤ total_frames)%Z ∧
    (optimal_frames plan
     ≤ (total_frames + frame_interval plan - 1) / frame_interval plan)%Z ∧
    (real_time_interval plan == duration / inject_Z (optimal_frames plan))%Q.
Proof.
  intros Ht.
  destruct (planner_returns duration fps total_frames Ht)
    as (optimal & label & -> & Hpos & Hhalf).
  eexists. split; [reflexivity|].
  cbn [optimal_frames frame_interval real_time_interval].
  assert (2 ≤ total_frames / optimal)%Z as Hstride
    by (apply Z.div_le_lower_bound; lia).
  assert (optimal * (total_frames / optimal) ≤ total_frames)%Z as Hmul
    by (apply Z.mul_div_le; lia).
  rewrite Z.max_r by lia.
  repeat split; try lia; try reflexivity.
  apply Z.div_le_lower_bound; lia.
Qed.

Lemma planner_stride_witness :
  ∃ plan,
    AsyncFrameExtractor.calculate_optimal_frame_count 2 30 60 = Ok plan ∧
    frame_interval plan = 6%Z ∧ optimal_frames plan = 10%Z.
Proof.
  destruct (planner_stride 2 30 60 ltac:(lia))
    as (plan & Hplan & Hstride & _).
  exists plan. split; [exact Hplan|].
  vm_compute in Hplan. injection Hplan as <-. split; reflexivity.
Defined.

(** ** The retention gate *)

Section gate.
Import AsyncFrameExtractorConfig.

(** The thresholds that a sensitivity string selects. *)
Lemma sensitivity_cases (sensitivity : string) :
  let thresholds :=
    default (SCENE_THRESHOLDS !!! "high") (SCENE_THRESHOLDS !! sensitivity) in
  let intensity := default 40.0%Q (INTENSITY_THRESHOLDS !! sensitivity) in
  (pixel_threshold thresholds = 40.0%Q ∧
   histogram_threshold thresholds = 1000.0%Q ∧ intensity = 15.0%Q) ∨
  (pixel_threshold thresholds = 25.0%Q ∧
   histogram_threshold thresholds = 500.0%Q ∧ intensity = 25.0%Q) ∨
  (pixel_threshold thresholds = 15.0%Q ∧
   histogram_threshold thresholds = 200.0%Q ∧ intensity = 40.0%Q) ∨
  (pixel_threshold thresholds = 10.0%Q ∧
   histogram_threshold thresholds = 100.0%Q ∧ intensity = 60.0%Q).
Proof.
  cbv zeta.
  destruct (decide (sensitivity ∈ ["low"; "medium"; "high"; "ultra"]))
    as [Hin|Hnot].
  - repeat (apply elem_of_cons in Hin as [->|Hin]).
    + left. repeat split.
    + right. left. repeat split.
    + right. right. left. repeat split.
    + right. right. right. repeat split.
    + apply elem_of_nil in Hin. destruct Hin.
  - rewrite (scene_thresholds_unknown _ Hnot),
      (intensity_thresholds_unknown _ Hnot).
    right. right. left. repeat split.
Qed.
End gate.

(** X6. Without a histogram change the gate keeps very little: when the
    mean pixel difference is at most 255 (as it is for 8-bit images) and the
    histogram distance does not exceed the histogram threshold of the
    sensitivity, a frame that follows a retained one is kept exactly when it
    is sharp enough and its pixel difference lies between the similarity
    threshold and the pixel threshold.  A scene change raised by the pixel
    difference alone is never kept, for any sensitivity. *)
Theorem gate_without_histogram_change `{ImageOps Frame Hist}
    (frame previous : Frame) (quality_metrics : QualityMetrics)
    (sharpness_threshold similarity_threshold : Q) (sensitivity : string) :
  let r := AsyncFrameExtractor.detect_scene_change previous frame sensitivity in
  let thresholds :=
    default (AsyncFrameExtractorConfig.SCENE_THRESHOLDS !!! "high")
      (AsyncFrameExtractorConfig.SCENE_THRESHOLDS !! sensitivity) in
  (pixel_difference r <= 255)%Q →
  (histogram_difference r <= histogram_threshold thresholds)%Q →
  (AsyncFrameExtractor._should_keep_frame frame (Some previous) quality_metrics
     sharpness_threshold similarity_threshold sensitivity = true
   ↔ (sharpness_threshold <= sharpness quality_metrics)%Q ∧
     (similarity_threshold <= pixel_difference r)%Q ∧
     (pixel_difference r <= pixel_threshold thresholds)%Q).
Proof.
  intros r thresholds. subst r thresholds.
  unfold AsyncFrameExtractor._should_keep_frame,
    AsyncFrameExtractor.detect_scene_change.
  cbn [is_scene_change change_intensity pixel_difference histogram_difference].
  set (pixel_diff := np_mean _). set (hist_diff := compareHist_CHISQR _ _).
  set (thresholds :=
         default _ (AsyncFrameExtractorConfig.SCENE_THRESHOLDS !! sensitivity)).
  set (intensity :=
         default 40.0%Q (AsyncFrameExtractorConfig.INTENSITY_THRESHOLDS
                           !! sensitivity)).
  intros Hpixel Hhist.
  destruct (Qlt_bool_spec (sharpness quality_metrics) sharpness_threshold)
    as [Hblur|Hsharp].
  { split; [discriminate|]. intros (Hs & _). exfalso. lra. }
  destruct (sensitivity_cases sensitivity)
    as [(Hp & Hh & Hi)|[(Hp & Hh & Hi)|[(Hp & Hh & Hi)|(Hp & Hh & Hi)]]];
    fold thresholds in Hp, Hh; fold intensity in Hi;
    rewrite Hh in Hhist; rewrite Hp, Hh, Hi;
    match goal with
    | |- context [Qlt_bool ?a pixel_diff] =>
        destruct (Qlt_bool_spec a pixel_diff) as [Hpd|Hpd]
    end;
    match goal with
    | |- context [Qlt_bool ?a hist_diff] =>
        destruct (Qlt_bool_spec a hist_diff) as [Hhd|Hhd]
    end; cbn [orb];
    rewrite ?Qle_bool_iff;
    try (exfalso; lra);
    divide_by_literals;
    (split; [intros Hkeep; repeat split; lra
            | intros (_ & Hlow & Hhigh); try lra; exfalso; lra]).
Qed.

Lemma gate_without_histogram_change_witness :
  AsyncFrameExtractor._should_keep_frame SummaryFrames.brighter
    (Some SummaryFrames.dark_sharp)
    (AsyncFrameExtractor.calculate_frame_quality SummaryFrames.brighter)
    100 15 "high" = false.
Proof.
  apply not_true_is_false. intros Hkeep.
  apply (gate_without_histogram_change SummaryFrames.brighter
           SummaryFrames.dark_sharp _ 100 15 "high") in Hkeep.
  - destruct Hkeep as (_ & _ & Hpixel). vm_compute in Hpixel.
    apply Hpixel. reflexivity.
  - vm_compute. discriminate.
  - vm_compute. discriminate.
Defined.

(** ** The progress monitor *)

(** X7. The estimate of the remaining time is never negative and is 0 when
    no progress has been made.  For a non-negative elapsed time and a
    positive progress it is at most elapsed * 100 / progress, the estimated
    total, and it does not grow when the progress does. *)
Theorem estimate_remaining_time_bounds (elapsed progress progress' : Q) :
  let estimate := AsyncProgressMonitor._estimate_remaining_time elapsed in
  (0 <= estimate progress)%Q ∧
  ((progress <= 0)%Q → estimate progress = 0%Q) ∧
  ((0 <= elapsed)%Q → (0 < progress)%Q →
   (estimate progress <= elapsed * 100 / progress)%Q ∧
   ((progress <= progress')%Q → (estimate progress' <= estimate progress)%Q)).
Proof.
  intros estimate. subst estimate.
  assert (∀ p, (0 < p)%Q →
            AsyncProgressMonitor._estimate_remaining_time elapsed p
            = (if Qlt_bool 0 (elapsed * 100 / p - elapsed)
               then elapsed * 100 / p - elapsed else 0)%Q) as Hpositive.
  { intros p Hp. unfold AsyncProgressMonitor._estimate_remaining_time.
    destruct (Qle_bool_spec p 0) as [Hzero|_]; [exfalso; lra|].
    reflexivity. }
  split; [|split].
  - unfold AsyncProgressMonitor._estimate_remaining_time.
    destruct (Qle_bool_spec progress 0) as [_|_]; [lra|].
    destruct (Qlt_bool_spec 0 (elapsed * 100 / progress - elapsed)); lra.
  - intros Hzero. unfold AsyncProgressMonitor._estimate_remaining_time.
    destruct (Qle_bool_spec progress 0) as [_|Hpos]; [reflexivity|].
    exfalso. lra.
  - intros Helapsed Hprogress.
    assert (0 <= elapsed * 100 / progress)%Q as Htotal.
    { apply Qle_shift_div_l; [exact Hprogress | lra]. }
    split.
    + rewrite (Hpositive progress Hprogress).
      destruct (Qlt_bool_spec 0 (elapsed * 100 / progress - elapsed)); lra.
    + intros Hmore.
      assert (0 < progress')%Q as Hprogress' by lra.
      assert (elapsed * 100 / progress' <= elapsed * 100 / progress)%Q
        as Hless.
      { apply Qle_shift_div_r; [exact Hprogress'|].
        assert (elapsed * 100 / progress * progress'
                == elapsed * 100 * (progress' / progress))%Q as ->
          by (field; lra).
        assert (1 <= progress' / progress)%Q
          by (apply Qle_shift_div_l; lra).
        assert (0 <= elapsed * 100 * (progress' / progress - 1))%Q
          by (apply Qmult_le_0_compat; lra).
        lra. }
      rewrite (Hpositive progress Hprogress), (Hpositive progress' Hprogress').
      destruct (Qlt_bool_spec 0 (elapsed * 100 / progress - elapsed)),
        (Qlt_bool_spec 0 (elapsed * 100 / progress' - elapsed)); lra.
Qed.

Lemma estimate_remaining_time_bounds_witness :
  (AsyncProgressMonitor._estimate_remaining_time 30 50
   <= AsyncProgressMonitor._estimate_remaining_time 30 25)%Q ∧
  (AsyncProgressMonitor._estimate_remaining_time 30 25 <= 30 * 100 / 25)%Q.
Proof.
  destruct (estimate_remaining_time_bounds 30 25 50) as (_ & _ & Hbounds).
  destruct Hbounds as [Hupper Hmonotone]; [lra | lra |].
  split; [apply Hmonotone; lra | exact Hupper].
Defined.

Section monitor_facts.
Context {Callback : Type}.
Import AsyncProgressMonitor.

(** Completing files only moves the counter. *)
Lemma complete_files_counts (calls : list (string * Q)) (self : t Callback) :
  let final :=
    foldl (λ m call, (complete_file m call.1 call.2).1) self calls in
  total_files final = total_files self ∧
  completed_files final
  = (completed_files self + Z.of_nat (length calls))%Z ∧
  start_time final = start_time self ∧
  callbacks final = callbacks self.
Proof.
  revert self. induction calls as [|call calls IH]; intros self; cbn.
  - repeat split. lia.
  - destruct (IH (complete_file self call.1 call.2).1)
      as (Htotal & Hdone & Hstart & Hcallbacks).
    cbn in Htotal, Hdone, Hstart, Hcallbacks.
    rewrite Htotal, Hdone, Hstart, Hcallbacks. repeat split. lia.
Qed.
End monitor_facts.

(** X8. A monitor created for n > 0 files that has seen [complete_file]
    once per file reports n completed files of n and an overall progress of
    100, with an estimate of the remaining time that is not negative,
    whenever it is asked; created for no file at all it reports a progress
    of 0 and no remaining time instead of dividing by zero. *)
Theorem monitor_after_all_files {Callback : Type}
    (calls : list (string * Q)) (created asked : Q) :
  let monitor : AsyncProgressMonitor.t Callback :=
    AsyncProgressMonitor.__init__ (Z.of_nat (length calls)) None created in
  let final :=
    foldl (λ m call, (AsyncProgressMonitor.complete_file m call.1 call.2).1)
      monitor calls in
  let data := AsyncProgressMonitor.get_progress_data final asked in
  ProgressData.completed_files data = Z.of_nat (length calls) ∧
  ProgressData.total_files data = Z.of_nat (length calls) ∧
  (calls ≠ [] →
   (ProgressData.overall_progress data == 100)%Q ∧
   (0 <= ProgressData.estimated_remaining data)%Q) ∧
  (calls = [] →
   ProgressData.overall_progress data = 0%Q ∧
   ProgressData.estimated_remaining data = 0%Q).
Proof.
  intros monitor final data.
  destruct (complete_files_counts calls monitor)
    as (Htotal & Hdone & Hstart & _).
  fold final in Htotal, Hdone, Hstart. cbn in Htotal, Hdone, Hstart.
  rewrite Z.add_0_l in Hdone.
  subst data. unfold AsyncProgressMonitor.get_progress_data.
  cbn [ProgressData.completed_files ProgressData.overall_progress
       ProgressData.estimated_remaining ProgressData.total_files].
  rewrite Htotal, Hdone, Hstart.
  split; [reflexivity|]. split; [reflexivity|]. split.
  - intros Hsome.
    assert (0 < Z.of_nat (length calls))%Z as Hpos
      by (destruct calls; [congruence | cbn; lia]).
    destruct (Z.ltb_spec 0 (Z.of_nat (length calls))) as [_|Hle]; [|lia].
    set (n := inject_Z (Z.of_nat (length calls))).
    assert (0 < n)%Q as Hn by (unfold n, Qlt; cbn; lia).
    assert (n / n * 100 == 100)%Q as Hfull by (field; lra).
    split; [exact Hfull|].
    unfold AsyncProgressMonitor._estimate_remaining_time.
    destruct (Qle_bool_spec (n / n * 100) 0) as [_|_]; [lra|].
    set (elapsed := (asked - created)%Q).
    destruct (Qlt_bool_spec 0 (elapsed * 100 / (n / n * 100) - elapsed));
      lra.
  - intros ->. cbn. split; reflexivity.
Qed.

Lemma monitor_after_all_files_witness :
  let monitor : AsyncProgressMonitor.t unit :=
    AsyncProgressMonitor.__init__ 2 None 100 in
  let final :=
    foldl (λ m call, (AsyncProgressMonitor.complete_file m call.1 call.2).1)
      monitor [("a.mp4", 101%Q); ("b.png", 103%Q)] in
  (ProgressData.overall_progress
     (AsyncProgressMonitor.get_progress_data final 104) == 100)%Q.
Proof.
  intros monitor final.
  apply (monitor_after_all_files (Callback := unit)
           [("a.mp4", 101%Q); ("b.png", 103%Q)] 100 104).
  discriminate.
Defined.

(** ** Resizing to a maximal resolution *)

Lemma py_int_floor (x : Q) : (0 <= x)%Q → py_int x = Qfloor x.
Proof.
  intros Hx. destruct x as [n d]. unfold py_int, Qfloor. cbn.
  apply Z.quot_div_nonneg; [|lia].
  unfold Qle in Hx. cbn in Hx. lia.
Qed.

Lemma py_int_negative (x : Q) : (x < 0)%Q → (py_int x ≤ 0)%Z.
Proof.
  intros Hx. destruct x as [n d]. unfold py_int. cbn.
  unfold Qlt in Hx. cbn in Hx.
  rewrite <- (Z.opp_involutive n), Z.quot_opp_l by lia.
  assert (0 ≤ Z.quot (- n) (Z.pos d))%Z by (apply Z.quot_pos; lia).
  lia.
Qed.

(** A positive truncation bounded by an integer. *)
Lemma py_int_bounds (x : Q) (bound : Z) :
  (0 < py_int x)%Z → (x <= inject_Z bound)%Q → (py_int x ≤ bound)%Z.
Proof.
  intros Hpos Hle.
  destruct (Qlt_le_dec x 0) as [Hneg|Hnonneg].
  { apply py_int_negative in Hneg. lia. }
  rewrite py_int_floor by exact Hnonneg.
  rewrite <- (Qfloor_Z bound). apply Qfloor_resp_le, Hle.
Qed.

Lemma py_int_below (x : Q) (bound : Z) :
  (0 < py_int x)%Z → (x < inject_Z bound)%Q → (py_int x < bound)%Z.
Proof.
  intros Hpos Hlt.
  destruct (Qlt_le_dec x 0) as [Hneg|Hnonneg].
  { apply py_int_negative in Hneg. lia. }
  rewrite py_int_floor by exact Hnonneg.
  pose proof (Qfloor_le x) as Hfloor.
  assert (inject_Z (Qfloor x) < inject_Z bound)%Q as Hlt' by lra.
  rewrite <- Zlt_Qlt in Hlt'. exact Hlt'.
Qed.

(** X9. [resize_frame] with a maximal resolution returns the frame itself
    when (and only when) the frame already fits.  Otherwise the new size
    keeps the proportions of the frame up to rounding, is smaller than the
    frame in both directions, is no larger than the maximum and reaches it,
    up to rounding, in the direction that limits the scale; the result is
    the area resize to that size, unless a side has become 0, which OpenCV
    refuses.  It never enlarges a frame. *)
Theorem resize_frame_within_bounds `{ImageOps Frame Hist} `{ImageIO Frame}
    (frame : Frame) (max_width max_height : Z) :
  let width := Z.of_nat (shape frame).1.2 in
  let height := Z.of_nat (shape frame).1.1 in
  let result :=
    OptimizedPipeline.resize_frame frame (Some (max_width, max_height)) in
  (1 ≤ width)%Z → (1 ≤ height)%Z → (1 ≤ max_width)%Z → (1 ≤ max_height)%Z →
  ((width ≤ max_width)%Z ∧ (height ≤ max_height)%Z → result = Returns frame) ∧
  (¬ ((width ≤ max_width)%Z ∧ (height ≤ max_height)%Z) →
   ∃ new_width new_height,
     result
     = (if (new_width <=? 0)%Z || (new_height <=? 0)%Z then Raises Cv2Error
        else Returns (resize_INTER_AREA frame (new_width, new_height))) ∧
     (0 ≤ new_width < width)%Z ∧ (0 ≤ new_height < height)%Z ∧
     (new_width ≤ max_width)%Z ∧ (new_height ≤ max_height)%Z ∧
     ((max_width * height ≤ max_height * width)%Z →
      (max_width - 1 ≤ new_width)%Z) ∧
     ((max_height * width ≤ max_width * height)%Z →
      (max_height - 1 ≤ new_height)%Z) ∧
     (- (2 * height) < new_width * height - new_height * width < 2 * width)%Z).
Proof.
  intros width height result Hw Hh Hmw Hmh. subst result width height.
  unfold OptimizedPipeline.resize_frame.
  destruct (shape frame) as [[h w] depth]. cbn [fst snd] in *.
  unfold py_truediv.
  destruct (Qeq_bool (inject_Z (Z.of_nat w)) 0) eqn:Hwz.
  { apply Qeq_bool_iff in Hwz. unfold Qeq in Hwz. cbn in Hwz. lia. }
  cbn [outcome_bind].
  destruct (Qeq_bool (inject_Z (Z.of_nat h)) 0) eqn:Hhz.
  { apply Qeq_bool_iff in Hhz. unfold Qeq in Hhz. cbn in Hhz. lia. }
  cbn [outcome_bind]. clear Hwz Hhz.
  set (W := inject_Z (Z.of_nat w)) in *.
  set (Ht := inject_Z (Z.of_nat h)) in *.
  set (MW := inject_Z max_width). set (MH := inject_Z max_height).
  assert (1 <= W)%Q as HW by (unfold W, Qle; cbn; lia).
  assert (1 <= Ht)%Q as HHt by (unfold Ht, Qle; cbn; lia).
  assert (1 <= MW)%Q as HMW by (unfold MW, Qle; cbn; lia).
  assert (1 <= MH)%Q as HMH by (unfold MH, Qle; cbn; lia).
  set (a := (MW / W)%Q). set (b := (MH / Ht)%Q).
  assert (W * a == MW)%Q as Ha by (unfold a; field; lra).
  assert (Ht * b == MH)%Q as Hb by (unfold b; field; lra).
  assert (0 < a)%Q as Hapos by (apply Qlt_shift_div_l; lra).
  assert (0 < b)%Q as Hbpos by (apply Qlt_shift_div_l; lra).
  set (scale := py_min (py_min a b) 1.0).
  assert ((scale <= a)%Q ∧ (scale <= b)%Q ∧ (scale <= 1)%Q ∧ (0 < scale)%Q ∧
          ((1 <= a)%Q → (1 <= b)%Q → (1 <= scale)%Q) ∧
          ((scale < 1)%Q → (scale == a)%Q ∨ (scale == b)%Q))
    as (Hsa & Hsb & Hs1 & Hspos & Hfit & Htight).
  { unfold scale, py_min.
    destruct (Qlt_bool_spec b a);
      [destruct (Qlt_bool_spec 1.0 b) | destruct (Qlt_bool_spec 1.0 a)];
      repeat split; intros; try lra;
      first [left; reflexivity | right; reflexivity | exfalso; lra]. }
  split.
  - intros [Hfw Hfh].
    assert (1 <= a)%Q as Hone_a.
    { apply Qle_shift_div_l; [lra|]. unfold W, MW.
      rewrite Qmult_1_l, <- Zle_Qle. exact Hfw. }
    assert (1 <= b)%Q as Hone_b.
    { apply Qle_shift_div_l; [lra|]. unfold Ht, MH.
      rewrite Qmult_1_l, <- Zle_Qle. exact Hfh. }
    destruct (Qlt_bool_spec scale 1.0) as [Hsmall|_]; [|reflexivity].
    specialize (Hfit Hone_a Hone_b). exfalso. lra.
  - intros Hnot.
    assert (scale < 1)%Q as Hsmall.
    { destruct (Qlt_le_dec scale 1) as [Hlt|Hge]; [exact Hlt|].
      exfalso. apply Hnot.
      assert (W * 1 <= W * a)%Q by (apply Qmult_le_l; lra).
      assert (Ht * 1 <= Ht * b)%Q by (apply Qmult_le_l; lra).
      split; rewrite Zle_Qle; [fold W MW | fold Ht MH]; lra. }
    destruct (Qlt_bool_spec scale 1.0) as [_|Hlarge]; [|exfalso; lra].
    set (X := (W * scale)%Q). set (Y := (Ht * scale)%Q).
    assert (0 <= X)%Q as HX by (apply Qmult_le_0_compat; lra).
    assert (0 <= Y)%Q as HY by (apply Qmult_le_0_compat; lra).
    assert (X <= W * a)%Q as HXa by (apply Qmult_le_l; lra).
    assert (Y <= Ht * b)%Q as HYb by (apply Qmult_le_l; lra).
    assert (X < W * 1)%Q as HXW by (apply Qmult_lt_l; lra).
    assert (Y < Ht * 1)%Q as HYH by (apply Qmult_lt_l; lra).
    exists (py_int X), (py_int Y). split; [reflexivity|].
    rewrite !py_int_floor by assumption.
    pose proof (Qfloor_le X) as HfX. pose proof (Qlt_floor X) as HcX.
    pose proof (Qfloor_le Y) as HfY. pose proof (Qlt_floor Y) as HcY.
    set (nw := Qfloor X) in *. set (nh := Qfloor Y) in *.
    rewrite inject_Z_plus in HcX, HcY.
    change (inject_Z 1) with 1%Q in HcX, HcY.
    assert (0 ≤ nw)%Z as Hnw0.
    { change 0%Z with (Qfloor 0). apply Qfloor_resp_le. exact HX. }
    assert (0 ≤ nh)%Z as Hnh0.
    { change 0%Z with (Qfloor 0). apply Qfloor_resp_le. exact HY. }
    assert (inject_Z nw * Ht <= X * Ht)%Q as Hp1
      by (apply Qmult_le_compat_r; lra).
    assert (X * Ht <= (inject_Z nw + 1) * Ht)%Q as Hp2
      by (apply Qmult_le_compat_r; lra).
    assert (inject_Z nh * W <= Y * W)%Q as Hp3
      by (apply Qmult_le_compat_r; lra).
    assert (Y * W <= (inject_Z nh + 1) * W)%Q as Hp4
      by (apply Qmult_le_compat_r; lra).
    assert (X * Ht == Y * W)%Q as Hsame by (unfold X, Y; ring).
    split; [split; [exact Hnw0|]; rewrite Zlt_Qlt; fold W; lra|].
    split; [split; [exact Hnh0|]; rewrite Zlt_Qlt; fold Ht; lra|].
    split; [rewrite Zle_Qle; fold MW; lra|].
    split; [rewrite Zle_Qle; fold MH; lra|].
    assert (a * (W * Ht) == MW * Ht)%Q as HaWH by (rewrite <- Ha; ring).
    assert (b * (W * Ht) == MH * W)%Q as HbWH by (rewrite <- Hb; ring).
    assert (0 < W * Ht)%Q as HWH
      by (apply Qmult_lt_0_compat; lra).
    split; [|split].
    + intros Hlimit.
      assert (MW * Ht <= MH * W)%Q as Hq.
      { unfold MW, Ht, MH, W. rewrite <- !inject_Z_mult, <- Zle_Qle.
        exact Hlimit. }
      assert (a <= b)%Q as Hab.
      { destruct (Qlt_le_dec b a) as [Hlt|Hle]; [|exact Hle]. exfalso.
        assert (b * (W * Ht) < a * (W * Ht))%Q
          by (apply Qmult_lt_compat_r; assumption).
        lra. }
      assert (X == MW)%Q as HXM.
      { unfold X. rewrite <- Ha.
        destruct (Htight Hsmall) as [Heq|Heq]; rewrite Heq;
          [reflexivity|].
        assert (a == b)%Q as -> by lra. reflexivity. }
      assert (inject_Z max_width < inject_Z (nw + 1))%Q as Hlt.
      { rewrite inject_Z_plus. fold MW. change (inject_Z 1) with 1%Q. lra. }
      rewrite <- Zlt_Qlt in Hlt. lia.
    + intros Hlimit.
      assert (MH * W <= MW * Ht)%Q as Hq.
      { unfold MW, Ht, MH, W. rewrite <- !inject_Z_mult, <- Zle_Qle.
        exact Hlimit. }
      assert (b <= a)%Q as Hab.
      { destruct (Qlt_le_dec a b) as [Hlt|Hle]; [|exact Hle]. exfalso.
        assert (a * (W * Ht) < b * (W * Ht))%Q
          by (apply Qmult_lt_compat_r; assumption).
        lra. }
      assert (Y == MH)%Q as HYM.
      { unfold Y. rewrite <- Hb.
        destruct (Htight Hsmall) as [Heq|Heq]; rewrite Heq;
          [|reflexivity].
        assert (a == b)%Q as -> by lra. reflexivity. }
      assert (inject_Z max_height < inject_Z (nh + 1))%Q as Hlt.
      { rewrite inject_Z_plus. fold MH. change (inject_Z 1) with 1%Q. lra. }
      rewrite <- Zlt_Qlt in Hlt. lia.
    + assert (inject_Z (nw * Z.of_nat h - nh * Z.of_nat w)
              == inject_Z nw * Ht - inject_Z nh * W)%Q as Hdiff.
      { unfold Z.sub. rewrite inject_Z_plus, inject_Z_opp, !inject_Z_mult.
        fold W Ht. ring. }
      assert (inject_Z (- (2 * Z.of_nat h)) == - (2 * Ht))%Q as Hlow
        by (rewrite inject_Z_opp, inject_Z_mult; reflexivity).
      assert (inject_Z (2 * Z.of_nat w) == 2 * W)%Q as Hhigh
        by (rewrite inject_Z_mult; reflexivity).
      split; rewrite Zlt_Qlt, Hdiff; [rewrite Hlow | rewrite Hhigh]; lra.
Qed.

Lemma resize_frame_within_bounds_witness :
  (∃ new_width new_height,
     OptimizedPipeline.resize_frame
       {| Canvas.height := 1080; Canvas.width := 1920 |} (Some (640, 640)%Z)
     = Returns (resize_INTER_AREA
                  {| Canvas.height := 1080; Canvas.width := 1920 |}
                  (new_width, new_height)) ∧
     (639 ≤ new_width ≤ 640)%Z ∧ (358 ≤ new_height ≤ 361)%Z) ∧
  OptimizedPipeline.resize_frame {| Canvas.height := 360; Canvas.width := 640 |}
    (Some (640, 640)%Z)
  = Returns {| Canvas.height := 360; Canvas.width := 640 |}.
Proof.
  pose proof (resize_frame_within_bounds
                {| Canvas.height := 1080; Canvas.width := 1920 |} 640 640)
    as Hlarge.
  pose proof (resize_frame_within_bounds
                {| Canvas.height := 360; Canvas.width := 640 |} 640 640)
    as Hsmall.
  cbv zeta in Hlarge, Hsmall.
  cbn [shape Canvas.ops fst snd Canvas.height Canvas.width]
    in Hlarge, Hsmall.
  destruct Hlarge as [_ Hlarge]; [lia | lia | lia | lia |].
  destruct Hsmall as [Hsmall _]; [lia | lia | lia | lia |].
  split; [|apply Hsmall; lia].
  destruct Hlarge
    as (nw & nh & Hresult & Hnw & Hnh & Hmw & Hmh & Hwide & _ & Haspect);
    [lia|].
  specialize (Hwide ltac:(lia)).
  exists nw, nh. split; [|lia].
  rewrite Hresult.
  destruct (Z.leb_spec nw 0), (Z.leb_spec nh 0); cbn [orb];
    first [reflexivity | exfalso; lia].
Defined.

(** ** Validation *)

Section validation.
Context `{ImageOps Frame Hist} `{ImageIO Frame}.
Variable inputs : gmap string (InputFile Frame).
Variable max_file_size_bytes : Z.

(** What every accepted file went through before its own checks. *)
Lemma validate_file_valid (file_path : string) (info : file_info) :
  OptimizedPipeline.validate_file inputs max_file_size_bytes file_path
  = Valid info →
  ∃ file,
    inputs !! file_path = Some file ∧
    (getsize file ≤ max_file_size_bytes)%Z ∧
    let file_ext := str_lower (os_path_splitext file_path).2 in
    (file_ext ∈ OptimizedPipeline.SUPPORTED_VIDEO_FORMATS ∧
     OptimizedPipeline._validate_video inputs file_path (getsize file) file_ext
     = Valid info)
    ∨ ((file_ext ∉ OptimizedPipeline.SUPPORTED_VIDEO_FORMATS) ∧
       file_ext ∈ OptimizedPipeline.SUPPORTED_IMAGE_FORMATS ∧
       OptimizedPipeline._validate_image inputs file_path (getsize file)
         file_ext = Valid info).
Proof.
  unfold OptimizedPipeline.validate_file.
  destruct (inputs !! file_path) as [file|]; [|discriminate].
  set (file_ext := str_lower _).
  destruct (bool_decide_reflect
              (file_ext ∈ OptimizedPipeline.SUPPORTED_VIDEO_FORMATS
                          ++ OptimizedPipeline.SUPPORTED_IMAGE_FORMATS))
    as [Hext|Hext]; [|discriminate].
  cbn [negb].
  destruct (Z.ltb_spec max_file_size_bytes (getsize file)) as [|Hsize];
    [discriminate|].
  intros Hvalid. exists file. split; [reflexivity|]. split; [exact Hsize|].
  cbv zeta.
  destruct (bool_decide_reflect
              (file_ext ∈ OptimizedPipeline.SUPPORTED_VIDEO_FORMATS))
    as [Hvideo|Himage].
  - left. split; assumption.
  - right. apply elem_of_app in Hext as [Hext|Hext]; [contradiction|].
    repeat split; assumption.
Qed.
End validation.



(** ** The decoding loop *)

Section decode.
Context `{ImageOps Frame Hist} `{ImageIO Frame}.
Variables (video_path output_dir : string) (fps : Q) (frame_interval : Z).
Variables (quality : Z) (max_resolution : option (Z * Z)).
Variables (sharpness_threshold similarity_threshold : Q).
Variables (scene_sensitivity : string) (max_base_frames : Z).

Local Abbreviation loop :=
  (OptimizedPipeline.decode_loop video_path output_dir fps frame_interval
     quality max_resolution sharpness_threshold similarity_threshold
     scene_sensitivity max_base_frames).

(** One turn of the loop: it raises; or it goes on without a new record; or
    it writes a file and appends the record of the frame, and then stops if
    the cap is reached and goes on otherwise. *)
Lemma decode_loop_cons (frame : Frame) (rest : list Frame) (frame_count : Z)
    (extracted_count : nat) (previous_frame : option Frame)
    (frame_paths : list FrameRecord) (fs : FS) :
  let res :=
    loop (frame :: rest) frame_count extracted_count previous_frame
      frame_paths fs in
  (∃ e, res = (fs, Raises e)) ∨
  res = loop rest (frame_count + 1)%Z extracted_count previous_frame
          frame_paths fs ∨
  ∃ r previous_frame' fs',
    video_frame_record output_dir video_path fps frame_count extracted_count r ∧
    (frame_count mod frame_interval = 0)%Z ∧
    files fs' = {[ path r ]} ∪ files fs ∧ trace fs' = trace fs ∧
    (((max_base_frames ≤ Z.of_nat (S extracted_count))%Z ∧
      res = (fs', Returns (frame_paths ++ [r])))
     ∨ ((Z.of_nat (S extracted_count) < max_base_frames)%Z ∧
        res = loop rest (frame_count + 1)%Z (S extracted_count)
                previous_frame' (frame_paths ++ [r]) fs')).
Proof.
  cbn [OptimizedPipeline.decode_loop]. cbv zeta.
  unfold py_mod. destruct (frame_interval =? 0)%Z; [left; eauto|].
  destruct (Z.eqb_spec (frame_count mod frame_interval) 0) as [Hmod|_];
    [|right; left; reflexivity].
  destruct (OptimizedPipeline.resize_frame frame max_resolution)
    as [processed|e]; [|left; eauto].
  destruct (OptimizedFrameExtractor._should_keep_frame _ _ _ _ _ _);
    [|right; left; reflexivity].
  destruct (py_truediv (inject_Z frame_count) fps) as [timestamp|e] eqn:Hdiv;
    [|left; eauto].
  unfold cv2_imwrite.
  destruct (imwrite_ok _ _ _); [|right; left; reflexivity].
  right. right.
  assert (timestamp = (inject_Z frame_count / fps)%Q) as Htime.
  { unfold py_truediv in Hdiv. destruct (Qeq_bool fps 0); [discriminate|].
    injection Hdiv as <-. reflexivity. }
  eexists _, _, _.
  split; [|split; [exact Hmod|split; [|split]]]; cycle 3.
  - destruct (Z.leb_spec max_base_frames (Z.of_nat (S extracted_count)));
      [left | right]; (split; [assumption | reflexivity]).
  - repeat split. cbn. exact Htime.
  - reflexivity.
  - reflexivity.
Qed.

(** Whatever the outcome, the loop performs no removal and no renaming, and
    every file that existed still exists. *)
Lemma decode_loop_fs (frames : list Frame) (frame_count : Z)
    (extracted_count : nat) (previous_frame : option Frame)
    (frame_paths : list FrameRecord) (fs : FS) :
  let res :=
    loop frames frame_count extracted_count previous_frame frame_paths fs in
  trace res.1 = trace fs ∧ files fs ⊆ files res.1.
Proof.
  revert frame_count extracted_count previous_frame frame_paths fs.
  induction frames as [|frame rest IH];
    intros frame_count extracted_count previous_frame frame_paths fs.
  { cbn. split; reflexivity. }
  cbv zeta.
  destruct (decode_loop_cons frame rest frame_count extracted_count
              previous_frame frame_paths fs)
    as [[e ->]|[->|(r & prev & fs' & _ & _ & Hfiles & Htrace
                    & [[_ ->]|[_ ->]])]].
  - split; reflexivity.
  - apply IH.
  - cbn [fst]. split; [exact Htrace|]. rewrite Hfiles.
    apply union_subseteq_r.
  - destruct (IH (frame_count + 1)%Z (S extracted_count) prev
                (frame_paths ++ [r]) fs') as [IHt IHf].
    split; [congruence|]. etransitivity; [|exact IHf].
    rewrite Hfiles. apply union_subseteq_r.
Qed.

(** What a completed loop returns: the records it was given followed by new
    ones, each the record of a sampled frame number, in increasing order,
    with consecutive indices, each with its file written; and no more
    records than the cap allows. *)
Lemma decode_loop_returns (frames : list Frame) (frame_count : Z)
    (extracted_count : nat) (previous_frame : option Frame)
    (frame_paths : list FrameRecord) (fs fs' : FS) (out : list FrameRecord) :
  loop frames frame_count extracted_count previous_frame frame_paths fs
  = (fs', Returns out) →
  length frame_paths = extracted_count →
  ∃ new,
    out = frame_paths ++ new ∧
    (∀ p, p ∈ files fs' ↔ p ∈ files fs ∨ p ∈ path <$> new) ∧
    (∀ i r, new !! i = Some r →
       video_frame_record output_dir video_path fps (frame_number r)
         (extracted_count + i) r ∧
       (frame_count ≤ frame_number r < frame_count + Z.of_nat (length frames))%Z ∧
       (frame_number r mod frame_interval = 0)%Z) ∧
    (∀ i j r r', i < j → new !! i = Some r → new !! j = Some r' →
       (frame_number r < frame_number r')%Z) ∧
    (Z.of_nat (length out)
     ≤ Z.max (Z.of_nat extracted_count + 1) max_base_frames)%Z ∧
    length new ≤ length frames.
Proof.
  revert frame_count extracted_count previous_frame frame_paths fs.
  induction frames as [|frame rest IH];
    intros frame_count extracted_count previous_frame frame_paths fs
      Hloop Hlength.
  { cbn in Hloop. injection Hloop as <- <-. exists [].
    rewrite app_nil_r. repeat split; try done.
    - intros Hp. left. exact Hp.
    - intros [Hp|Hp]; [exact Hp|]. cbn in Hp. apply elem_of_nil in Hp. done.
    - lia. }
  destruct (decode_loop_cons frame rest frame_count extracted_count
              previous_frame frame_paths fs)
    as [[e Hres]|[Hres|(r & prev & fs1 & Hrecord & Hmod & Hfiles & Htrace
                        & [[Hcap Hres]|[Hcap Hres]])]];
    cbv zeta in Hres; rewrite Hres in Hloop.
  - discriminate Hloop.
  - destruct (IH _ _ _ _ _ Hloop Hlength)
      as (new & -> & Hfs & Hrecords & Hsorted & Hcount & Hshort).
    exists new. split; [reflexivity|]. split; [exact Hfs|].
    split; [|split; [exact Hsorted|split; [exact Hcount|cbn; lia]]].
    intros i r0 Hi. destruct (Hrecords i r0 Hi) as (Hr0 & Hrange & Hr0mod).
    split; [exact Hr0|]. split; [cbn [length]; lia | exact Hr0mod].
  - injection Hloop as <- <-. exists [r]. split; [reflexivity|].
    split; [|split; [|split; [|split]]].
    + intros p. rewrite Hfiles, elem_of_union, elem_of_singleton.
      cbn. rewrite list_elem_of_singleton. tauto.
    + intros [|i] r0 Hi; [|done]. injection Hi as <-.
      pose proof Hrecord as (Hnumber & _). rewrite Hnumber, Nat.add_0_r.
      split; [exact Hrecord|].
      split; [cbn [length]; lia | exact Hmod].
    + intros [|i] [|j] r0 r1 Hij Hi Hj; try done; lia.
    + rewrite length_app, Hlength. cbn. lia.
    + cbn. lia.
  - assert (length (frame_paths ++ [r]) = S extracted_count) as Hlength'
      by (rewrite length_app, Hlength; cbn; lia).
    destruct (IH _ _ _ _ _ Hloop Hlength')
      as (new & -> & Hfs & Hrecords & Hsorted & Hcount & Hshort).
    exists (r :: new). split; [rewrite <- app_assoc; reflexivity|].
    pose proof Hrecord as (Hnumber & _).
    split; [|split; [|split; [|split]]].
    + intros p. rewrite Hfs, Hfiles, elem_of_union, elem_of_singleton.
      rewrite fmap_cons, elem_of_cons. tauto.
    + intros [|i] r0 Hi.
      * injection Hi as <-. rewrite Hnumber, Nat.add_0_r.
        split; [exact Hrecord|].
        split; [cbn [length]; lia | exact Hmod].
      * destruct (Hrecords i r0 Hi) as (Hr0 & Hrange & Hr0mod).
        replace (extracted_count + S i) with (S extracted_count + i) by lia.
        split; [exact Hr0|]. split; [cbn [length]; lia | exact Hr0mod].
    + intros [|i] [|j] r0 r1 Hij Hi Hj; try lia.
      * injection Hi as <-. destruct (Hrecords j r1 Hj) as (_ & Hrange & _).
        lia.
      * apply (Hsorted i j r0 r1); [lia | exact Hi | exact Hj].
    + rewrite <- app_assoc in Hcount |- *. lia.
    + cbn [length]. lia.
Qed.
End decode.

(** ** Extraction from one video *)

Section extraction.
Context `{ImageOps Frame Hist} `{ImageIO Frame}.
Variable inputs : gmap string (InputFile Frame).
Variable max_file_size_bytes : Z.
Variables (output_dir video_path : string) (kwargs : Kwargs.t).

(** A successful extraction is a completed run of the loop over the frames
    of the capture, with the validated frame rate and the planned stride. *)
Lemma extract_frames_optimized_success (fs fs' : FS) (video : VideoInfo.t)
    (out : list FrameRecord) (plan : SamplingPlan) :
  OptimizedPipeline.extract_frames_optimized inputs max_file_size_bytes
    output_dir video_path kwargs fs
  = (fs', Returns (VideoFrames video out plan)) →
  ∃ cap,
    OptimizedPipeline.validate_file inputs max_file_size_bytes video_path
    = Valid (Video video) ∧
    OptimizedFrameExtractor.calculate_optimal_frame_count
      (VideoInfo.duration_seconds video) (VideoInfo.fps video)
      (VideoInfo.total_frames video) = Ok plan ∧
    inputs !! video_path ≫= capture = Some cap ∧
    OptimizedPipeline.decode_loop video_path output_dir (VideoInfo.fps video)
      (frame_interval plan)
      (default OptimizedPipeline.DEFAULT_QUALITY (Kwargs.quality kwargs))
      (Kwargs.max_resolution kwargs)
      (default FrameExtractorConfig.DEFAULT_SHARPNESS_THRESHOLD
         (Kwargs.sharpness_threshold kwargs))
      (default FrameExtractorConfig.DEFAULT_SIMILARITY_THRESHOLD
         (Kwargs.similarity_threshold kwargs))
      (default FrameExtractorConfig.DEFAULT_SCENE_SENSITIVITY
         (Kwargs.scene_sensitivity kwargs))
      (default FrameExtractorConfig.DEFAULT_MAX_BASE_FRAMES
         (Kwargs.max_base_frames kwargs))
      (read_frames cap) 0 0 None [] fs
    = (fs', Returns out).
Proof.
  unfold OptimizedPipeline.extract_frames_optimized.
  destruct (OptimizedPipeline.validate_file _ _ _) as [error|[info|info]]
    eqn:Hvalid; [discriminate| |discriminate].
  destruct (OptimizedFrameExtractor.calculate_optimal_frame_count _ _ _)
    as [calc|e] eqn:Hplan; [|discriminate].
  cbn [of_result].
  destruct (inputs !! video_path ≫= capture) as [cap|]; [|discriminate].
  destruct (OptimizedPipeline.decode_loop _ _ _ _ _ _ _ _ _ _ _ _ _ _ _ _)
    as [fs1 [frames|e]] eqn:Hloop; [|discriminate].
  intros [= <- <- <- <-]. exists cap.
  split; [reflexivity|]. split; [exact Hplan|]. split; [reflexivity|].
  exact Hloop.
Qed.

(** Whatever happens to one video, nothing is removed or renamed and no
    existing file disappears. *)
Lemma extract_frames_optimized_fs (fs : FS) :
  let res :=
    OptimizedPipeline.extract_frames_optimized inputs max_file_size_bytes
      output_dir video_path kwargs fs in
  trace res.1 = trace fs ∧ files fs ⊆ files res.1.
Proof.
  cbv zeta. unfold OptimizedPipeline.extract_frames_optimized.
  destruct (OptimizedPipeline.validate_file _ _ _) as [error|[info|info]];
    [done| |done].
  destruct (of_result _) as [calc|e]; [|done].
  destruct (inputs !! video_path ≫= capture) as [cap|]; [|done].
  match goal with
  | |- context [OptimizedPipeline.decode_loop ?x1 ?x2 ?x3 ?x4 ?x5 ?x6 ?x7 ?x8
                  ?x9 ?x10 ?x11 ?x12 ?x13 ?x14 ?x15 ?x16] =>
      pose proof (decode_loop_fs x1 x2 x3 x4 x5 x6 x7 x8 x9 x10 x11 x12 x13
                    x14 x15 x16) as Hfs;
      destruct (OptimizedPipeline.decode_loop x1 x2 x3 x4 x5 x6 x7 x8 x9 x10
                  x11 x12 x13 x14 x15 x16) as [fs1 [frames|failure]]
  end; exact Hfs.
Qed.
End extraction.

(** X11. A successful extraction returns at most
    max(1, max_base_frames) records and at most one per decoded frame; the
    record at position i has extracted_index i, the name
    frame_{i:04d}_{timestamp:.2f}s.jpg in the output directory, the
    timestamp frame_number / fps and a frame number that is a multiple of
    the planned stride; frame numbers increase along the list. *)
Theorem extraction_records `{ImageOps Frame Hist} `{ImageIO Frame}
    (inputs : gmap string (InputFile Frame)) (max_file_size_bytes : Z)
    (output_dir video_path : string) (kwargs : Kwargs.t) (fs fs' : FS)
    (video : VideoInfo.t) (out : list FrameRecord) (plan : SamplingPlan) :
  OptimizedPipeline.extract_frames_optimized inputs max_file_size_bytes
    output_dir video_path kwargs fs
  = (fs', Returns (VideoFrames video out plan)) →
  (Z.of_nat (length out)
   ≤ Z.max 1 (default FrameExtractorConfig.DEFAULT_MAX_BASE_FRAMES
                (Kwargs.max_base_frames kwargs)))%Z ∧
  (∀ i r, out !! i = Some r →
     video_frame_record output_dir video_path (VideoInfo.fps video)
       (frame_number r) i r ∧
     (0 ≤ frame_number r)%Z ∧
     (frame_number r mod frame_interval plan = 0)%Z) ∧
  (∀ i j r r', i < j → out !! i = Some r → out !! j = Some r' →
     (frame_number r < frame_number r')%Z) ∧
  (∃ cap, inputs !! video_path ≫= capture = Some cap ∧
          length out ≤ length (read_frames cap) ∧
          ∀ r, r ∈ out →
            (frame_number r < Z.of_nat (length (read_frames cap)))%Z).
Proof.
  intros Hextract.
  destruct (extract_frames_optimized_success _ _ _ _ _ _ _ _ _ _ Hextract)
    as (cap & _ & _ & Hcap & Hloop).
  destruct (decode_loop_returns _ _ _ _ _ _ _ _ _ _ _ _ _ _ _ _ _ _
              Hloop eq_refl)
    as (new & -> & _ & Hrecords & Hsorted & Hcount & Hshort).
  cbn [app] in *. split; [exact Hcount|].
  split; [|split; [exact Hsorted|]].
  - intros i r Hi. destruct (Hrecords i r Hi) as (Hr & Hrange & Hmod).
    split; [exact Hr|]. split; [lia | exact Hmod].
  - exists cap. split; [exact Hcap|]. split; [exact Hshort|].
    intros r Hr. apply list_elem_of_lookup in Hr as [i Hi].
    destruct (Hrecords i r Hi) as (_ & Hrange & _). lia.
Qed.

(** X12. Extraction only adds files: whether it returns or raises, it
    performs no removal and no renaming and every earlier file still exists;
    when it returns frames, the files that exist afterwards are the earlier
    ones and the paths of the returned records. *)
Theorem extraction_only_writes `{ImageOps Frame Hist} `{ImageIO Frame}
    (inputs : gmap string (InputFile Frame)) (max_file_size_bytes : Z)
    (output_dir video_path : string) (kwargs : Kwargs.t) (fs : FS) :
  let res :=
    OptimizedPipeline.extract_frames_optimized inputs max_file_size_bytes
      output_dir video_path kwargs fs in
  trace res.1 = trace fs ∧ files fs ⊆ files res.1 ∧
  ∀ video out plan,
    res.2 = Returns (VideoFrames video out plan) →
    ∀ p, p ∈ files res.1 ↔ p ∈ files fs ∨ p ∈ path <$> out.
Proof.
  intros res.
  destruct (extract_frames_optimized_fs inputs max_file_size_bytes
              output_dir video_path kwargs fs) as [Htrace Hfiles].
  fold res in Htrace, Hfiles. split; [exact Htrace|]. split; [exact Hfiles|].
  intros video out plan Hres.
  assert (res = (res.1, Returns (VideoFrames video out plan))) as Hextract
    by (rewrite <- Hres; destruct res; reflexivity).
  destruct (extract_frames_optimized_success _ _ _ _ _ _ _ _ _ _ Hextract)
    as (cap & _ & _ & _ & Hloop).
  destruct (decode_loop_returns _ _ _ _ _ _ _ _ _ _ _ _ _ _ _ _ _ _
              Hloop eq_refl)
    as (new & -> & Hfs & _).
  exact Hfs.
Qed.

Lemma extraction_records_witness :
  ∃ fs' video out plan,
    OptimizedPipeline.extract_frames_optimized SampleInputs.inputs 524288000
      "out" "in/clip.mp4" SampleInputs.no_kwargs SampleInputs.empty_disk
    = (fs', Returns (VideoFrames video out plan)) ∧
    (Z.of_nat (length out) ≤ Z.max 1 80)%Z.
Proof.
  assert (∃ fs' video out plan,
            OptimizedPipeline.extract_frames_optimized SampleInputs.inputs
              524288000 "out" "in/clip.mp4" SampleInputs.no_kwargs
              SampleInputs.empty_disk
            = (fs', Returns (VideoFrames video out plan)))
    as (fs' & video & out & plan & Hextract)
    by (vm_compute; eexists _, _, _, _; reflexivity).
  exists fs', video, out, plan. split; [exact Hextract|].
  apply (extraction_records _ _ _ _ _ _ _ _ _ _ Hextract).
Defined.

Lemma extraction_only_writes_witness :
  ∃ fs' video out plan,
    OptimizedPipeline.extract_frames_optimized SampleInputs.inputs 524288000
      "out" "in/clip.mp4" SampleInputs.no_kwargs SampleInputs.empty_disk
    = (fs', Returns (VideoFrames video out plan)) ∧
    ∀ p, p ∈ files fs' ↔ p ∈ files SampleInputs.empty_disk ∨ p ∈ path <$> out.
Proof.
  assert (∃ fs' video out plan,
            OptimizedPipeline.extract_frames_optimized SampleInputs.inputs
              524288000 "out" "in/clip.mp4" SampleInputs.no_kwargs
              SampleInputs.empty_disk
            = (fs', Returns (VideoFrames video out plan)))
    as (fs' & video & out & plan & Hextract)
    by (vm_compute; eexists _, _, _, _; reflexivity).
  exists fs', video, out, plan. split; [exact Hextract|].
  pose proof (extraction_only_writes SampleInputs.inputs 524288000 "out"
                "in/clip.mp4" SampleInputs.no_kwargs SampleInputs.empty_disk)
    as (_ & _ & Hfiles).
  cbv zeta in Hfiles. rewrite Hextract in Hfiles.
  apply (Hfiles video out plan). reflexivity.
Defined.

(** ** The first frame of a video *)

Lemma round_half_even_zero (y : Q) : (y == 0)%Q → round_half_even y = 0%Z.
Proof.
  intros Hy. unfold round_half_even.
  rewrite (Qfloor_comp y 0 Hy). change (Qfloor 0) with 0%Z.
  destruct (Qlt_bool_spec (y - inject_Z 0) 0.5) as [_|Hge]; [reflexivity|].
  exfalso. unfold inject_Z in Hge. lra.
Qed.

Lemma format_fixed_2_zero (x : Q) : (x == 0)%Q → format_fixed 2 x = "0.00".
Proof.
  intros Hx. unfold format_fixed.
  assert (Qabs x * inject_Z (10 ^ Z.of_nat 2) == 0)%Q as Hzero.
  { rewrite Hx. reflexivity. }
  rewrite (round_half_even_zero _ Hzero).
  destruct (Qlt_bool_spec x 0) as [Hneg|_]; [exfalso; lra|].
  reflexivity.
Qed.

(** The stride of a plan is never zero. *)
Lemma planner_interval_positive (duration fps : Q) (total_frames : Z)
    (plan : SamplingPlan) :
  OptimizedFrameExtractor.calculate_optimal_frame_count duration fps
    total_frames = Ok plan →
  (1 ≤ frame_interval plan)%Z.
Proof.
  unfold OptimizedFrameExtractor.calculate_optimal_frame_count.
  match goal with
  | |- context [let '(a, b) := ?X in _] => destruct X as [interval label]
  end.
  destruct (py_floordiv _ _) as [q|e]; [|discriminate].
  intros [= <-]. cbn. lia.
Qed.

(** The frame rate of an accepted video is positive. *)
Lemma validated_fps `{ImageOps Frame Hist} `{ImageIO Frame}
    (inputs : gmap string (InputFile Frame)) (max_file_size_bytes : Z)
    (file_path : string) (video : VideoInfo.t) :
  OptimizedPipeline.validate_file inputs max_file_size_bytes file_path
  = Valid (Video video) →
  (0 < VideoInfo.fps video)%Q.
Proof.
  intros Hvalid.
  destruct (validate_file_valid inputs max_file_size_bytes file_path _ Hvalid)
    as (file & _ & _ & [[_ Hvideo]|(_ & _ & Himage)]).
  - unfold OptimizedPipeline._validate_video in Hvideo.
    destruct (inputs !! file_path ≫= capture) as [cap|]; [|discriminate].
    destruct (Z.leb_spec (py_int (CAP_PROP_FRAME_COUNT cap)) 0);
      [discriminate|].
    destruct (Qle_bool_spec (CAP_PROP_FPS cap) 0) as [|Hfps]; [discriminate|].
    destruct (_ || _); [discriminate|].
    injection Hvideo as <-. exact Hfps.
  - unfold OptimizedPipeline._validate_image in Himage.
    destruct (inputs !! file_path ≫= imread) as [image|]; [|discriminate].
    destruct (shape image) as [[h w] depth].
    destruct (_ || _); discriminate.
Qed.

(** X13. Every video starts the same way: when an extraction returns
    frames and the first decoded frame can be resized and written, the first
    record is frame number 0 with index 0 and timestamp 0, named
    frame_0000_0.00s.jpg in the output directory, whatever the video. *)
Theorem first_frame_record `{ImageOps Frame Hist} `{ImageIO Frame}
    (inputs : gmap string (InputFile Frame)) (max_file_size_bytes : Z)
    (output_dir video_path : string) (kwargs : Kwargs.t) (fs fs' : FS)
    (video : VideoInfo.t) (out : list FrameRecord) (plan : SamplingPlan)
    (cap : VideoCapture Frame) (frame processed : Frame) (rest : list Frame) :
  OptimizedPipeline.extract_frames_optimized inputs max_file_size_bytes
    output_dir video_path kwargs fs
  = (fs', Returns (VideoFrames video out plan)) →
  inputs !! video_path ≫= capture = Some cap →
  read_frames cap = frame :: rest →
  OptimizedPipeline.resize_frame frame (Kwargs.max_resolution kwargs)
  = Returns processed →
  imwrite_ok (os_path_join output_dir "frame_0000_0.00s.jpg") processed
    (default OptimizedPipeline.DEFAULT_QUALITY (Kwargs.quality kwargs))
  = true →
  ∃ r others,
    out = r :: others ∧
    frame_number r = 0%Z ∧ extracted_index r = 0 ∧ (timestamp r == 0)%Q ∧
    filename r = "frame_0000_0.00s.jpg" ∧
    path r = os_path_join output_dir "frame_0000_0.00s.jpg".
Proof.
  intros Hextract Hcap Hframes Hresize Hwrite.
  destruct (extract_frames_optimized_success _ _ _ _ _ _ _ _ _ _ Hextract)
    as (cap' & Hvalid & Hplan & Hcap' & Hloop).
  rewrite Hcap in Hcap'. injection Hcap' as <-.
  rewrite Hframes in Hloop.
  pose proof (planner_interval_positive _ _ _ _ Hplan) as Hstride.
  pose proof (validated_fps _ _ _ _ Hvalid) as Hfps.
  cbn [OptimizedPipeline.decode_loop] in Hloop. cbv zeta in Hloop.
  unfold py_mod in Hloop.
  destruct (Z.eqb_spec (frame_interval plan) 0) as [Hzero|_]; [lia|].
  rewrite Z.mod_0_l in Hloop by lia. cbn [Z.eqb] in Hloop.
  rewrite Hresize in Hloop.
  cbn [OptimizedFrameExtractor._should_keep_frame] in Hloop.
  unfold py_truediv in Hloop.
  destruct (Qeq_bool (VideoInfo.fps video) 0) eqn:Hq.
  { apply Qeq_bool_iff in Hq. lra. }
  assert (inject_Z 0 / VideoInfo.fps video == 0)%Q as Hzero
    by (field; lra).
  rewrite (format_fixed_2_zero _ Hzero) in Hloop.
  change ("frame_" +:+ format_04d 0 +:+ "_" +:+ "0.00" +:+ "s.jpg")
    with "frame_0000_0.00s.jpg" in Hloop.
  unfold cv2_imwrite in Hloop. rewrite Hwrite in Hloop.
  match type of Hloop with
  | context [[] ++ [?record]] => set (r := record) in *
  end.
  change ([] ++ [r]) with [r] in Hloop.
  assert (∃ others, out = r :: others) as [others ->].
  { destruct (_ <=? _)%Z.
    - injection Hloop as _ <-. exists []. reflexivity.
    - destruct (decode_loop_returns _ _ _ _ _ _ _ _ _ _ _ _ _ _ _ _ _ _
                  Hloop eq_refl) as (new & -> & _).
      exists new. reflexivity. }
  exists r, others.
  split; [reflexivity|]. split; [reflexivity|]. split; [reflexivity|].
  split; [exact Hzero|]. split; reflexivity.
Qed.

Lemma first_frame_record_witness :
  ∃ fs' video r others plan,
    OptimizedPipeline.extract_frames_optimized SampleInputs.inputs 524288000
      "out" "in/clip.mp4" SampleInputs.no_kwargs SampleInputs.empty_disk
    = (fs', Returns (VideoFrames video (r :: others) plan)) ∧
    path r = "out/frame_0000_0.00s.jpg".
Proof.
  assert (∃ fs' video out plan,
            OptimizedPipeline.extract_frames_optimized SampleInputs.inputs
              524288000 "out" "in/clip.mp4" SampleInputs.no_kwargs
              SampleInputs.empty_disk
            = (fs', Returns (VideoFrames video out plan)))
    as (fs' & video & out & plan & Hextract)
    by (vm_compute; eexists _, _, _, _; reflexivity).
  destruct (first_frame_record _ _ _ _ _ _ _ _ _ _
              SampleInputs.clip (SampleInputs.flat 10) (SampleInputs.flat 10)
              _ Hextract eq_refl eq_refl eq_refl eq_refl)
    as (r & others & -> & _ & _ & _ & _ & Hpath).
  exists fs', video, r, others, plan. split; [exact Hextract | exact Hpath].
Defined.

(** ** Records that share a path *)


Section samples_shared_path.
#[local] Existing Instance SampleFaults.names_up_to_255.

End samples_shared_path.

(** ** The loop over the input files *)

Section batch.
Context `{ImageOps Frame Hist} `{ImageIO Frame} `{OSErrors}.
Variable inputs : gmap string (InputFile Frame).
Variable max_file_size_bytes : Z.
Variable task_output_dir : string.
Variable kwargs : Kwargs.t.

Local Abbreviation one :=
  (OptimizedPipeline.process_one inputs max_file_size_bytes task_output_dir
     kwargs).

(** One file moves exactly one of the two counters, and a failed file adds
    no record. *)
Lemma process_one_counts (all_frame_paths : list FrameRecord)
    (success_count failed_count : Z) (fs : FS) (file_path : string) :
  ∃ new fs',
    (one (all_frame_paths, success_count, failed_count, fs) file_path
     = (all_frame_paths ++ new, (success_count + 1)%Z, failed_count, fs')) ∨
    (one (all_frame_paths, success_count, failed_count, fs) file_path
     = (all_frame_paths, success_count, (failed_count + 1)%Z, fs')).
Proof.
  unfold OptimizedPipeline.process_one.
  destruct (OptimizedPipeline.validate_file _ _ _) as [error|info];
    [exists [], fs; right; reflexivity|].
  match goal with
  | |- context [let '(a, b) := ?X in _] =>
      destruct X as [fs' [[error|video frames plan|p f q]|failure]]
  end.
  - exists [], fs'. right. reflexivity.
  - exists frames, fs'. left. reflexivity.
  - eexists [_], fs'. left. reflexivity.
  - exists [], fs'. right. reflexivity.
Qed.

Lemma process_all_counts (input_paths : list string)
    (all_frame_paths : list FrameRecord) (success_count failed_count : Z)
    (fs : FS) :
  ∃ all' success' failed' fs',
    foldl one (all_frame_paths, success_count, failed_count, fs) input_paths
    = (all', success', failed', fs') ∧
    (success' + failed'
     = success_count + failed_count + Z.of_nat (length input_paths))%Z ∧
    (success_count ≤ success')%Z ∧ (failed_count ≤ failed')%Z ∧
    (success' = success_count → all' = all_frame_paths).
Proof.
  revert all_frame_paths success_count failed_count fs.
  induction input_paths as [|p rest IH];
    intros all_frame_paths success_count failed_count fs.
  { exists all_frame_paths, success_count, failed_count, fs. cbn.
    repeat split; lia. }
  cbn [foldl length].
  destruct (process_one_counts all_frame_paths success_count failed_count
              fs p) as (new & fs1 & [->| ->]).
  - destruct (IH (all_frame_paths ++ new) (success_count + 1)%Z failed_count
                fs1) as (all' & s' & f' & fs' & -> & Hsum & Hs & Hf & _).
    exists all', s', f', fs'. repeat split; lia.
  - destruct (IH all_frame_paths success_count (failed_count + 1)%Z fs1)
      as (all' & s' & f' & fs' & -> & Hsum & Hs & Hf & Hsame).
    exists all', s', f', fs'. repeat split; try lia. exact Hsame.
Qed.
End batch.

Lemma finish_nil `{OSErrors} (output_dir : string)
    (max_base_frames : option Z) (fs : FS) :
  (OptimizedFrameExtractor.process_mixed_inputs_finish output_dir
     max_base_frames [] fs).2 = [].
Proof.
  unfold OptimizedFrameExtractor.process_mixed_inputs_finish. cbn [length].
  destruct (_ <? _)%Z; [|reflexivity].
  unfold slice_to. cbn [sort_reverse foldr length].
  destruct (_ <? _)%Z; rewrite take_nil; reflexivity.
Qed.

Lemma finish_length `{OSErrors} (output_dir : string)
    (max_base_frames : option Z)
    (l : list FrameRecord) (fs : FS) :
  let cap := default FrameExtractorConfig.DEFAULT_MAX_BASE_FRAMES
               max_base_frames in
  (0 ≤ cap)%Z →
  length (OptimizedFrameExtractor.process_mixed_inputs_finish output_dir
            max_base_frames l fs).2
  = Nat.min (length l) (Z.to_nat cap).
Proof.
  intros cap Hcap. rewrite finish_variants_agree, finish_unfold. cbv zeta.
  change (default AsyncFrameExtractorConfig.DEFAULT_MAX_BASE_FRAMES
            max_base_frames) with cap.
  destruct (Z.ltb_spec cap (Z.of_nat (length l))) as [Hlt|Hge].
  - rewrite rename_files_length, slice_to_nonneg by exact Hcap.
    rewrite length_take, sort_reverse_length. lia.
  - rewrite rename_files_length. lia.
Qed.

(** X15. The counters of a task account for every input file:
    success_count + failed_count is the number of inputs (which is
    total_files), neither is negative, the task is reported as a success
    exactly when not every file failed, and a task that is not a success
    returns no frame. *)
Theorem batch_counters `{ImageOps Frame Hist} `{ImageIO Frame} `{OSErrors}
    (inputs : gmap string (InputFile Frame)) (max_file_size_bytes : Z)
    (output_dir timestamp : string) (input_paths : list string)
    (device_id task_id : option string) (kwargs : Kwargs.t) (fs : FS) :
  let res :=
    (OptimizedPipeline.process_mixed_inputs inputs max_file_size_bytes
       output_dir timestamp input_paths device_id task_id kwargs fs).2 in
  BatchResult.total_files res = length input_paths ∧
  (BatchResult.success_count res + BatchResult.failed_count res
   = Z.of_nat (BatchResult.total_files res))%Z ∧
  (0 ≤ BatchResult.success_count res)%Z ∧
  (0 ≤ BatchResult.failed_count res)%Z ∧
  BatchResult.success res
  = negb (BatchResult.failed_count res =? Z.of_nat (length input_paths))%Z ∧
  (if BatchResult.success res then True
   else BatchResult.frame_paths res = []).
Proof.
  cbv zeta. unfold OptimizedPipeline.process_mixed_inputs.
  set (ids := match task_id with Some _ => _ | None => _ end).
  destruct ids as [device task].
  set (dir := OptimizedPipeline.create_task_output_dir output_dir task).
  destruct (process_all_counts inputs max_file_size_bytes dir kwargs
              input_paths [] 0%Z 0%Z fs)
    as (all' & s' & f' & fs' & -> & Hsum & Hs & Hf & Hnone).
  pose proof (finish_nil dir (Kwargs.max_base_frames kwargs) fs') as Hnil.
  destruct (OptimizedFrameExtractor.process_mixed_inputs_finish dir
              (Kwargs.max_base_frames kwargs) all' fs') as [fs'' out] eqn:Hfinish.
  cbn [snd BatchResult.total_files BatchResult.success_count
       BatchResult.failed_count BatchResult.success BatchResult.frame_paths].
  split; [reflexivity|]. split; [lia|]. split; [lia|]. split; [lia|]. split.
  - destruct (Z.ltb_spec 0 s'), (Z.eqb_spec f' (Z.of_nat (length input_paths)));
      cbn; try reflexivity; lia.
  - destruct (Z.ltb_spec 0 s') as [|Hzero]; [exact I|].
    assert (all' = []) as -> by (apply Hnone; lia).
    rewrite Hfinish in Hnil. exact Hnil.
Qed.

(** X16. With a cap that is not negative (the default is 80) a task never
    returns more than max_base_frames records, whatever the inputs. *)
Theorem batch_respects_cap `{ImageOps Frame Hist} `{ImageIO Frame}
    `{OSErrors}
    (inputs : gmap string (InputFile Frame)) (max_file_size_bytes : Z)
    (output_dir timestamp : string) (input_paths : list string)
    (device_id task_id : option string) (kwargs : Kwargs.t) (fs : FS) :
  let cap := default FrameExtractorConfig.DEFAULT_MAX_BASE_FRAMES
               (Kwargs.max_base_frames kwargs) in
  (0 ≤ cap)%Z →
  (Z.of_nat
     (length
        (BatchResult.frame_paths
           (OptimizedPipeline.process_mixed_inputs inputs max_file_size_bytes
              output_dir timestamp input_paths device_id task_id kwargs fs).2))
   ≤ cap)%Z.
Proof.
  intros cap Hcap. unfold OptimizedPipeline.process_mixed_inputs.
  set (ids := match task_id with Some _ => _ | None => _ end).
  destruct ids as [device task].
  set (dir := OptimizedPipeline.create_task_output_dir output_dir task).
  destruct (foldl _ _ input_paths) as [[[all' s'] f'] fs'].
  pose proof (finish_length dir (Kwargs.max_base_frames kwargs) all' fs' Hcap)
    as Hlength.
  destruct (OptimizedFrameExtractor.process_mixed_inputs_finish dir
              (Kwargs.max_base_frames kwargs) all' fs') as [fs'' out].
  cbn [snd BatchResult.frame_paths] in *. fold cap in Hlength. lia.
Qed.

Section samples_batch.
#[local] Existing Instance SampleFaults.names_up_to_255.

Lemma batch_respects_cap_witness :
  (Z.of_nat
     (length
        (BatchResult.frame_paths
           (OptimizedPipeline.process_mixed_inputs SampleInputs.inputs
              524288000 "out" "20240101_000000"
              ["in/clip.mp4"; "in/photo.png"] None None
              {| Kwargs.quality := None; Kwargs.max_resolution := None;
                 Kwargs.sharpness_threshold := None;
                 Kwargs.similarity_threshold := None;
                 Kwargs.scene_sensitivity := None;
                 Kwargs.max_base_frames := Some 3%Z |}
              SampleInputs.empty_disk).2))
   ≤ 3)%Z.
Proof.
  apply (batch_respects_cap SampleInputs.inputs 524288000 "out"
           "20240101_000000" ["in/clip.mp4"; "in/photo.png"] None None
           {| Kwargs.quality := None; Kwargs.max_resolution := None;
              Kwargs.sharpness_threshold := None;
              Kwargs.similarity_threshold := None;
              Kwargs.scene_sensitivity := None;
              Kwargs.max_base_frames := Some 3%Z |} SampleInputs.empty_disk).
  cbn. lia.
Defined.
End samples_batch.

(** X17. A video that the validation accepts but whose container reports a
    single frame is counted as a failed file: the planner's division by
    zero is caught by the loop, which adds no record, writes nothing and
    goes on with the next file. *)
Theorem single_frame_video_counted_failed `{ImageOps Frame Hist}
    `{ImageIO Frame} (inputs : gmap string (InputFile Frame))
    (max_file_size_bytes : Z) (task_output_dir : string) (kwargs : Kwargs.t)
    (file_path : string) (video : VideoInfo.t)
    (all_frame_paths : list FrameRecord) (success_count failed_count : Z)
    (fs : FS) :
  OptimizedPipeline.validate_file inputs max_file_size_bytes file_path
  = Valid (Video video) →
  VideoInfo.total_frames video = 1%Z →
  OptimizedPipeline.extract_frames_optimized inputs max_file_size_bytes
    task_output_dir file_path kwargs fs
  = (fs, Raises (Builtin ZeroDivisionError)) ∧
  OptimizedPipeline.process_one inputs max_file_size_bytes task_output_dir
    kwargs (all_frame_paths, success_count, failed_count, fs) file_path
  = (all_frame_paths, success_count, (failed_count + 1)%Z, fs).
Proof.
  intros Hvalid Hone.
  assert (OptimizedPipeline.extract_frames_optimized inputs
            max_file_size_bytes task_output_dir file_path kwargs fs
          = (fs, Raises (Builtin ZeroDivisionError))) as Hraises.
  { unfold OptimizedPipeline.extract_frames_optimized.
    rewrite Hvalid, Hone.
    change (OptimizedFrameExtractor.calculate_optimal_frame_count
              (VideoInfo.duration_seconds video) (VideoInfo.fps video) 1)
      with (AsyncFrameExtractor.calculate_optimal_frame_count
              (VideoInfo.duration_seconds video) (VideoInfo.fps video) 1).
    rewrite planner_one_frame_raises. reflexivity. }
  split; [exact Hraises|].
  unfold OptimizedPipeline.process_one. rewrite Hvalid, Hraises. reflexivity.
Qed.

Lemma single_frame_video_counted_failed_witness :
  OptimizedPipeline.process_one SampleInputs.inputs 524288000 "out"
    SampleInputs.no_kwargs ([], 0%Z, 0%Z, SampleInputs.empty_disk)
    "in/still.MP4"
  = ([], 0%Z, 1%Z, SampleInputs.empty_disk).
Proof.
  assert (∃ video,
            OptimizedPipeline.validate_file SampleInputs.inputs 524288000
              "in/still.MP4" = Valid (Video video) ∧
            VideoInfo.total_frames video = 1%Z)
    as (video & Hvalid & Hone)
    by (eexists; split; vm_compute; reflexivity).
  exact (proj2 (single_frame_video_counted_failed SampleInputs.inputs
                  524288000 "out" SampleInputs.no_kwargs "in/still.MP4" video
                  [] 0%Z 0%Z SampleInputs.empty_disk Hvalid Hone)).
Defined.

(** ** The batches of the concurrent variant *)

Lemma chunks_concat {A : Type} (size : nat) (l : list A) (count : nat) :
  concat ((λ k, take size (drop (k * size) l)) <$> seq 0 count)
  = take (count * size) l.
Proof.
  induction count as [|count IH]; [reflexivity|].
  rewrite seq_S, fmap_app, concat_app, IH. cbn [fmap list_fmap concat].
  rewrite app_nil_r, Nat.add_0_l, take_take_drop. f_equal. lia.
Qed.

Lemma batches_chunks (batch_size : Z) (input_paths : list string) :
  (0 < batch_size)%Z →
  AsyncPipeline.batches batch_size input_paths =
  Returns ((λ k, take (Z.to_nat batch_size)
                   (drop (k * Z.to_nat batch_size) input_paths))
           <$> seq 0 (Z.to_nat ((Z.of_nat (length input_paths) + batch_size - 1)
                                / batch_size))).
Proof.
  intros Hpos. unfold AsyncPipeline.batches, AsyncPipeline.py_range_step.
  destruct (Z.eqb_spec batch_size 0) as [|_]; [lia|].
  destruct (Z.ltb_spec 0 batch_size) as [_|]; [|lia].
  cbn [outcome_bind]. f_equal. unfold seqZ.
  rewrite <- !list_fmap_compose. apply list_fmap_ext. intros _ k _.
  cbn [compose]. f_equal. f_equal. lia.
Qed.

(** X18. For a positive batch size the batches partition the input: put
    end to end they are the input paths in order, and every batch holds at
    least one and at most batch_size paths.  A batch size of zero raises
    ValueError, and with a negative one there is no batch at all, so that no
    file is processed. *)
Theorem batches_partition (batch_size : Z) (input_paths : list string) :
  match AsyncPipeline.batches batch_size input_paths with
  | Raises e => batch_size = 0%Z ∧ e = ValueError
  | Returns chunks =>
      if (0 <? batch_size)%Z
      then concat chunks = input_paths ∧
           Forall (λ batch, 1 ≤ length batch ≤ Z.to_nat batch_size) chunks
      else chunks = []
  end.
Proof.
  destruct (Z.ltb_spec 0 batch_size) as [Hpos|Hneg].
  - rewrite batches_chunks by exact Hpos.
    set (len := Z.of_nat (length input_paths)).
    set (count := ((len + batch_size - 1) / batch_size)%Z).
    assert (batch_size * count ≤ len + batch_size - 1
            < batch_size * count + batch_size)%Z as Hcount.
    { pose proof (Z.div_mod (len + batch_size - 1) batch_size) as Hdiv.
      pose proof (Z.mod_pos_bound (len + batch_size - 1) batch_size Hpos).
      fold count in Hdiv. lia. }
    assert (0 ≤ count)%Z as Hcount0 by (subst len; nia).
    split.
    + rewrite chunks_concat. apply take_ge. subst len. nia.
    + apply Forall_fmap, Forall_forall. intros k Hk%elem_of_seq.
      cbn [compose]. rewrite length_take, length_drop. subst len. nia.
  - unfold AsyncPipeline.batches, AsyncPipeline.py_range_step.
    destruct (Z.eqb_spec batch_size 0) as [->|Hne]; [split; reflexivity|].
    destruct (Z.ltb_spec 0 batch_size) as [|_]; [lia|].
    cbn [outcome_bind].
    assert ((Z.of_nat (length input_paths) + batch_size + 1) / batch_size ≤ 0)%Z
      as Hempty.
    { pose proof (Z.div_mod (Z.of_nat (length input_paths) + batch_size + 1)
                    batch_size Hne) as Hdiv.
      pose proof (Z.mod_neg_bound
                    (Z.of_nat (length input_paths) + batch_size + 1)
                    batch_size ltac:(lia)).
      nia. }
    unfold seqZ. rewrite (Z2Nat.nonpos _ Hempty). reflexivity.
Qed.

(** ** The two per-video loops *)





(** ** The output of an image *)

(** X20. An image that is processed successfully is written once, as
    image_<stem>.jpg in the output directory, where <stem> is the base name
    of the input without its extension; the extension of the input is one
    of the image formats and plays no part in the name, so that two inputs
    that differ only in directory or extension are written to the same
    file.  Nothing else is written, and nothing is removed or renamed. *)
Theorem image_output_name `{ImageOps Frame Hist} `{ImageIO Frame}
    (inputs : gmap string (InputFile Frame)) (max_file_size_bytes : Z)
    (output_dir image_path : string) (kwargs : Kwargs.t) (fs fs' : FS)
    (output_path output_filename : string) (metrics : QualityMetrics) :
  OptimizedPipeline.process_image_file inputs max_file_size_bytes output_dir
    image_path kwargs fs
  = (fs', Returns (ImageOutput output_path output_filename metrics)) →
  output_filename
  = "image_" +:+ (os_path_splitext (os_path_basename image_path)).1 +:+ ".jpg" ∧
  output_path = os_path_join output_dir output_filename ∧
  str_lower (os_path_splitext image_path).2
  ∈ OptimizedPipeline.SUPPORTED_IMAGE_FORMATS ∧
  files fs' = {[ output_path ]} ∪ files fs ∧
  trace fs' = trace fs.
Proof.
  unfold OptimizedPipeline.process_image_file.
  destruct (OptimizedPipeline.validate_file inputs max_file_size_bytes
              image_path) as [error|[video|image]] eqn:Hvalid;
    [discriminate | discriminate |].
  destruct (validate_file_valid inputs max_file_size_bytes image_path _ Hvalid)
    as (file & _ & _ & [[_ Hvideo]|(_ & Hext & Himage)]).
  { unfold OptimizedPipeline._validate_video in Hvideo.
    destruct (inputs !! image_path ≫= capture) as [cap|]; [|discriminate].
    destruct (_ || _); discriminate. }
  assert (ImageInfo.file_name image = os_path_basename image_path) as Hname.
  { unfold OptimizedPipeline._validate_image in Himage.
    destruct (inputs !! image_path ≫= imread) as [content|]; [|discriminate].
    destruct (shape content) as [[h w] depth].
    destruct (_ || _); [discriminate|].
    injection Himage as <-. reflexivity. }
  destruct (inputs !! image_path ≫= imread) as [content|]; [|discriminate].
  destruct (OptimizedPipeline.resize_frame content _) as [processed|e];
    [|discriminate].
  unfold cv2_imwrite. destruct (imwrite_ok _ _ _); [|discriminate].
  rewrite Hname. intros [= <- <- <- <-]. cbn [files trace].
  repeat split; try reflexivity. exact Hext.
Qed.

Lemma image_output_name_witness :
  ∃ fs' output_path output_filename metrics,
    OptimizedPipeline.process_image_file SampleInputs.inputs 524288000 "out"
      "in/photo.png" SampleInputs.no_kwargs SampleInputs.empty_disk
    = (fs', Returns (ImageOutput output_path output_filename metrics)) ∧
    output_filename = "image_photo.jpg" ∧
    output_path = os_path_join "out" output_filename ∧
    files fs' = {[ output_path ]} ∪ files SampleInputs.empty_disk.
Proof.
  assert (∃ fs' output_path output_filename metrics,
            OptimizedPipeline.process_image_file SampleInputs.inputs
              524288000 "out" "in/photo.png" SampleInputs.no_kwargs
              SampleInputs.empty_disk
            = (fs', Returns (ImageOutput output_path output_filename metrics)))
    as (fs' & output_path & output_filename & metrics & Hprocess)
    by (vm_compute; eexists _, _, _, _; reflexivity).
  destruct (image_output_name _ _ _ _ _ _ _ _ _ _ Hprocess)
    as (Hfilename & Hpath & _ & Hfiles & _).
  exists fs', output_path, output_filename, metrics.
  split; [exact Hprocess|]. split; [|split; [exact Hpath | exact Hfiles]].
  rewrite Hfilename. vm_compute. reflexivity.
Defined.
